(** * onmt/ModelConstructor.py: model construction, weight sharing and
    checkpoint loading of HAN-NMT, embedded over a small model of the
    PyTorch objects the file manipulates.

    The source builds [nn.Module] objects, ties [Parameter] objects by
    assignment, reads and writes state dictionaries and mutates parameters in
    place.  The embedding keeps all of that explicit:
    - a [Parameter] is a cell of a store, named by its location (its object
      identity), so that "the same object" is equality of locations;
    - a module is a Rocq value that records its class, its constructor
      arguments and the locations of the parameters it registered;
    - the functions of the file run in a state-and-exception monad over the
      store, raising the Python exceptions the source can raise. *)

From Stdlib Require Import ZArith String Bool Floats Lia.
From stdpp Require Import base option list gmap strings pretty.

Local Open Scope Z_scope.
Local Open Scope string_scope.
Local Open Scope list_scope.

(** ** Python strings *)

(** [sub in s]. *)
Fixpoint str_contains (sub s : string) : bool :=
  String.prefix sub s ||
  match s with
  | EmptyString => false
  | String _ s' => str_contains sub s'
  end.

(** [s.replace(old, new)] for a non-empty [old]: every occurrence, left to
    right, without overlap.  [skip] counts the characters of the occurrence
    just replaced that are still to be dropped. *)
Fixpoint str_replace_from (skip : nat) (old new s : string) : string :=
  match s with
  | EmptyString => EmptyString
  | String c s' =>
      match skip with
      | S n => str_replace_from n old new s'
      | O =>
          if String.prefix old s
          then new +:+ str_replace_from (String.length old - 1) old new s'
          else String c (str_replace_from 0 old new s')
      end
  end.

Definition str_replace (old new s : string) : string :=
  str_replace_from 0 old new s.

(** ** Python dictionaries

    Insertion-ordered, one entry per key: [d[k] = v] overwrites in place or
    appends, [items()] is the list itself. *)

Definition dict (V : Type) : Type := list (string * V).

Fixpoint dict_get {V} (k : string) (d : dict V) : option V :=
  match d with
  | [] => None
  | (k', v) :: d' => if String.eqb k' k then Some v else dict_get k d'
  end.

(** [k in d] *)
Definition dict_has {V} (k : string) (d : dict V) : bool :=
  match dict_get k d with Some _ => true | None => false end.

(** [d[k] = v] *)
Fixpoint dict_set {V} (k : string) (v : V) (d : dict V) : dict V :=
  match d with
  | [] => [(k, v)]
  | (k', v') :: d' =>
      if String.eqb k' k then (k, v) :: d' else (k', v') :: dict_set k v d'
  end.

(** [d.update(other)] *)
Definition dict_update {V} (d other : dict V) : dict V :=
  fold_left (fun acc kv => dict_set kv.1 kv.2 acc) other d.

(** A dictionary filled by successive assignments. *)
Definition dict_of_items {V} (items : list (string * V)) : dict V :=
  dict_update [] items.

Definition dict_keys {V} (d : dict V) : list string := d.*1.

(** ** Exceptions and the store *)

Inductive exn :=
| AssertionError (msg : string)
| UnboundLocalError (name : string)
| TypeError (msg : string)
| KeyError (msg : string)
| AttributeError (msg : string).

Inductive result (A : Type) :=
| Ok (a : A)
| Raise (e : exn).
Arguments Ok {A} a.
Arguments Raise {A} e.

(** Identity of a [Parameter] object. *)
Definition loc := nat.

(** What a tensor holds, by provenance: the source never computes with tensor
    entries, it only moves tensors around and re-initialises them. *)
Inductive tensor :=
| Initial (l : loc)           (* what the constructor put in parameter [l] *)
| Uniform (lo hi : float)     (* the result of [uniform_(lo, hi)] *)
| Xavier                      (* the result of [xavier_uniform] *)
| Stored (id : Z).            (* a tensor read from a checkpoint file *)

(** A [torch.nn.Parameter] object: [requires_grad] is the attribute autograd reads; [attrs]
    holds whatever other attribute Python code assigns on the object. *)
Record Param := mkParam {
  data : tensor;
  requires_grad : bool;
  ndim : nat;
  attrs : dict bool
}.

Definition set_data (t : tensor) (p : Param) : Param :=
  mkParam t (requires_grad p) (ndim p) (attrs p).

(** [p.name = v]: only the name [requires_grad] reaches the autograd flag. *)
Definition set_attr (name : string) (v : bool) (p : Param) : Param :=
  if String.eqb name "requires_grad"
  then mkParam (data p) v (ndim p) (attrs p)
  else mkParam (data p) (requires_grad p) (ndim p) (dict_set name v (attrs p)).

(** What a state dictionary holds: the live [data] of a parameter (as
    [state_dict()] returns it, sharing storage with the parameter) or a tensor
    of its own (as a checkpoint holds it). *)
Inductive tref :=
| DataOf (l : loc)
| Value (t : tensor).

(** Named parameters of a module, in registration order. *)
Definition params : Type := list (string * loc).

(** ** Collaborator classes: constructor arguments as the source passes them *)

Record EmbeddingsArgs := mkEmbeddingsArgs {
  word_vec_size : Z;
  emb_position_encoding : bool;
  emb_feat_merge : string;
  emb_feat_vec_exponent : float;
  emb_feat_vec_size : Z;
  emb_dropout : float;
  word_padding_idx : Z;
  feat_padding_idx : list Z;
  word_vocab_size : Z;
  feat_vocab_sizes : list Z;
  sparse : bool
}.

(** An [Embeddings] object: [word_lut_weight] is [self.word_lut.weight], the
    one attribute the source reads and assigns; [emb_params] are its other
    parameters. *)
Record Embeddings := mkEmbeddings {
  emb_args : EmbeddingsArgs;
  word_lut_weight : loc;
  emb_params : params
}.

Inductive EncoderClass :=
| TransformerEncoder (num_layers hidden_size : Z) (dropout : float)
    (embeddings : Embeddings)
| CNNEncoder (num_layers hidden_size cnn_kernel_width : Z) (dropout : float)
    (embeddings : Embeddings)
| MeanEncoder (num_layers : Z) (embeddings : Embeddings)
| RNNEncoder (rnn_type : string) (bidirectional : bool)
    (num_layers hidden_size : Z) (dropout : float) (embeddings : Embeddings)
    (use_bridge : bool)
| ImageEncoder (num_layers : Z) (bidirectional : bool) (rnn_size : Z)
    (dropout : float)
| AudioEncoder (num_layers : Z) (bidirectional : bool) (rnn_size : Z)
    (dropout : float) (sample_rate : Z) (window_size : float).

Record Encoder := mkEncoder {
  enc_class : EncoderClass;
  enc_params : params
}.

Inductive DecoderClass :=
| TransformerDecoder (num_layers hidden_size : Z) (attn_type : string)
    (copy_attn : bool) (dropout : float) (embeddings : Embeddings)
| CNNDecoder (num_layers hidden_size : Z) (attn_type : string)
    (copy_attn : bool) (cnn_kernel_width : Z) (dropout : float)
    (embeddings : Embeddings)
| InputFeedRNNDecoder (rnn_type : string) (bidirectional_encoder : bool)
    (num_layers hidden_size : Z) (attn_type : string) (coverage_attn : bool)
    (context_gate : option string) (copy_attn : bool) (dropout : float)
    (embeddings : Embeddings) (reuse_copy_attn : bool)
| StdRNNDecoder (rnn_type : string) (bidirectional_encoder : bool)
    (num_layers hidden_size : Z) (attn_type : string) (coverage_attn : bool)
    (context_gate : option string) (copy_attn : bool) (dropout : float)
    (embeddings : Embeddings) (reuse_copy_attn : bool).

Record Decoder := mkDecoder {
  dec_class : DecoderClass;
  dec_params : params
}.

Record HierarchicalContextArgs := mkHierarchicalContextArgs {
  hc_size : Z;
  hc_dropout : float;
  hc_context_type : option string;
  hc_context_size : Z;
  hc_padding_idx : Z;
  hc_tok_idx : list Z
}.

Record HierarchicalContext := mkHierarchicalContext {
  hc_args : HierarchicalContextArgs;
  hc_params : params
}.

(** What [make_context] returns when it returns a module. *)
Inductive Context :=
| Single (c : HierarchicalContext)
| ModuleList (cs : list HierarchicalContext).

(** [nn.Linear(in_features, out_features)] *)
Record Linear := mkLinear {
  in_features : Z;
  out_features : Z;
  weight : loc;
  bias : loc
}.

(** A [torchtext] field, of which the source reads [.vocab]. *)
Record Field (V : Type) := mkField { vocab : V }.
Arguments mkField {V} vocab.
Arguments vocab {V} f.

(** ** The option namespace ([opt], [model_opt]): the attributes the file reads *)

Record Opt := mkOpt {
  src_word_vec_size : Z;
  tgt_word_vec_size : Z;
  position_encoding : bool;
  feat_merge : string;
  feat_vec_exponent : float;
  feat_vec_size : Z;
  opt_dropout : float;
  optim : string;
  encoder_type : string;
  decoder_type : string;
  enc_layers : Z;
  dec_layers : Z;
  opt_rnn_size : Z;
  opt_cnn_kernel_width : Z;
  opt_rnn_type : string;
  brnn : bool;
  bridge : bool;
  global_attention : string;
  opt_copy_attn : bool;
  input_feed : Z;
  opt_coverage_attn : bool;
  opt_context_gate : option string;
  opt_reuse_copy_attn : bool;
  context_type : option string;
  context_size : Z;
  model_type : string;
  opt_sample_rate : Z;
  opt_window_size : float;
  share_embeddings : bool;
  share_decoder_embeddings : bool;
  RISK_ratio : float;
  alpha : float;
  beta : float;
  coverage_penalty : string;
  length_penalty : string;
  beam_size : Z;
  n_best : Z;
  min_length : Z;
  max_length : Z;
  stepwise_penalty : bool;
  block_ngram_repeat : Z;
  ignore_when_blocking : list string;
  param_init : float;
  param_init_glorot : bool;
  pre_word_vecs_enc : option string;
  fix_word_vecs_enc : bool;
  pre_word_vecs_dec : option string;
  fix_word_vecs_dec : bool
}.

(** A checkpoint, as [torch.load] returns it: the two entries the file reads. *)
Record Checkpoint := mkCheckpoint {
  ck_model : dict tensor;
  ck_generator : dict tensor
}.

(** ** What the file takes from outside itself

    [onmt.io] (the special words, [UNK], [collect_feature_vocabs]), the
    vocabulary class of [torchtext], and, for each collaborator class, the
    parameters its constructor registers (name and number of dimensions) are
    not part of this file: they are the members of this interface. *)
Class Collaborators := {
  Vocab : Type;
  Vocab_eq_dec :: EqDecision Vocab;     (* decides [src_dict != tgt_dict] *)
  stoi : Vocab -> string -> Z;
  vocab_len : Vocab -> Z;
  PAD_WORD : string;
  BOS_WORD : string;
  EOS_WORD : string;
  UNK : Z;
  collect_feature_vocabs : gmap string (Field Vocab) -> string -> list Vocab;
  word_lut_name : string;
  Embeddings_layout : EmbeddingsArgs -> list (string * nat);
  Encoder_layout : EncoderClass -> list (string * nat);
  Decoder_layout : DecoderClass -> list (string * nat);
  HierarchicalContext_layout : HierarchicalContextArgs -> list (string * nat);
  CopyGenerator_layout : Z -> Vocab -> list (string * nat)
}.

Section Model.
Context `{Collaborators}.

Inductive Generator :=
| LinearLogSoftmax (lin : Linear) (dim : Z)
    (* nn.Sequential(nn.Linear(..), nn.LogSoftmax(dim=..)) *)
| CopyGenerator (input_size : Z) (tgt_dict : Vocab) (cg_params : params).

Record GNMTGlobalScorer := mkGNMTGlobalScorer {
  sc_alpha : float;
  sc_beta : float;
  sc_cov_penalty : string;
  sc_length_penalty : string
}.

(** The keyword arguments of the [NMTModel] call of the RISK branch. *)
Record RiskArgs := mkRiskArgs {
  r_tgt_vocab : Vocab;
  r_beam_size : Z;
  r_n_best : Z;
  r_gpu : bool;
  r_scorer : GNMTGlobalScorer;
  r_min_length : Z;
  r_max_length : Z;
  r_stepwise_penalty : bool;
  r_block_ngram_repeat : Z;
  r_ignore_when_blocking : list string;
  r_copy_attn : bool;
  r_context_size : Z
}.

(** An [NMTModel] object with the attributes the file reads and assigns:
    [encoder], [decoder], [doc_context], [model_type], [generator]. *)
Record NMTModel := mkNMTModel {
  encoder : Encoder;
  decoder : Decoder;
  doc_context : option Context;
  m_context_type : option string;
  m_risk : option RiskArgs;
  m_model_type : option string;
  generator : option Generator
}.

(** Effects outside the store, in the order the calls are made. *)
Inductive event :=
| Print (msg : string)
| UniformInit (p : loc) (lo hi : float)       (* p.data.uniform_(lo, hi) *)
| XavierInit (p : loc)                        (* xavier_uniform(p) *)
| LoadPretrainedVectors (emb : Embeddings) (emb_file : option string)
    (fixed : bool)          (* emb.load_pretrained_vectors(emb_file, fixed) *)
| Cuda                                        (* model.cuda() *)
| Cpu.                                        (* model.cpu() *)

Record Store := mkStore {
  next : loc;
  cells : gmap loc Param;
  log : list event
}.

(** ** The monad *)

Definition M (A : Type) : Type := Store -> result (A * Store).

#[export] Instance M_ret : MRet M := fun A a s => Ok (a, s).
#[export] Instance M_bind : MBind M := fun A B f c s =>
  match c s with
  | Ok (a, s') => f a s'
  | Raise e => Raise e
  end.
#[export] Instance M_throw : MThrow exn M := fun A e s => Raise e.

Definition emit (e : event) : M unit :=
  fun s => Ok (tt, mkStore (next s) (cells s) (log s ++ [e])%list).

(** A new [Parameter]: a fresh location, gradient required, as
    [nn.Parameter] makes it. *)
Definition alloc (nd : nat) : M loc :=
  fun s =>
    let l := next s in
    Ok (l, mkStore (S l) (<[l := mkParam (Initial l) true nd []]> (cells s)) (log s)).

Definition update (l : loc) (f : Param -> Param) : M unit :=
  fun s => Ok (tt, mkStore (next s) (alter f l (cells s)) (log s)).

Fixpoint alloc_params (layout : list (string * nat)) : M params :=
  match layout with
  | [] => mret []
  | (name, nd) :: rest =>
      l ← alloc nd;
      ps ← alloc_params rest;
      mret ((name, l) :: ps)
  end.

(** [for x in xs: body(x)] *)
Fixpoint for_each {A} (xs : list A) (body : A -> M unit) : M unit :=
  match xs with
  | [] => mret tt
  | x :: xs' => body x;; for_each xs' body
  end.

(** [assert cond, msg] *)
Definition assert_ (cond : bool) (msg : string) : M unit :=
  if cond then mret tt else mthrow (AssertionError msg).

(** Reading a local variable that may not have been assigned. *)
Definition local {A} (name : string) (v : option A) : M A :=
  match v with
  | Some a => mret a
  | None => mthrow (UnboundLocalError name)
  end.

(** [fields[key]] *)
Definition getitem {A} (d : gmap string A) (key : string) : M A :=
  match d !! key with
  | Some a => mret a
  | None => mthrow (KeyError key)
  end.

(** ** Constructors of the collaborator classes *)

Definition new_Embeddings (args : EmbeddingsArgs) : M Embeddings :=
  w ← alloc 2;
  ps ← alloc_params (Embeddings_layout args);
  mret (mkEmbeddings args w ps).

Definition new_Encoder (c : EncoderClass) : M Encoder :=
  ps ← alloc_params (Encoder_layout c);
  mret (mkEncoder c ps).

Definition new_Decoder (c : DecoderClass) : M Decoder :=
  ps ← alloc_params (Decoder_layout c);
  mret (mkDecoder c ps).

Definition new_HierarchicalContext (args : HierarchicalContextArgs)
  : M HierarchicalContext :=
  ps ← alloc_params (HierarchicalContext_layout args);
  mret (mkHierarchicalContext args ps).

Definition new_Linear (n_in n_out : Z) : M Linear :=
  w ← alloc 2;
  b ← alloc 1;
  mret (mkLinear n_in n_out w b).

Definition new_CopyGenerator (input_size : Z) (tgt_dict : Vocab) : M Generator :=
  ps ← alloc_params (CopyGenerator_layout input_size tgt_dict);
  mret (CopyGenerator input_size tgt_dict ps).

(** ** nn.Module: named parameters, [parameters()], [state_dict()],
    [load_state_dict()] *)

Definition prefixed (p : string) (ps : params) : params :=
  map (fun kv => (p +:+ "." +:+ kv.1, kv.2)) ps.

Definition Embeddings_named (e : Embeddings) : params :=
  (word_lut_name, word_lut_weight e) :: emb_params e.

(** [encoder.embeddings], for the classes built over embeddings. *)
Definition enc_embeddings (e : Encoder) : option Embeddings :=
  match enc_class e with
  | TransformerEncoder _ _ _ emb
  | CNNEncoder _ _ _ _ emb
  | MeanEncoder _ emb
  | RNNEncoder _ _ _ _ _ emb _ => Some emb
  | ImageEncoder _ _ _ _
  | AudioEncoder _ _ _ _ _ _ => None
  end.

(** [decoder.embeddings] *)
Definition dec_embeddings (d : Decoder) : Embeddings :=
  match dec_class d with
  | TransformerDecoder _ _ _ _ _ emb
  | CNNDecoder _ _ _ _ _ _ emb
  | InputFeedRNNDecoder _ _ _ _ _ _ _ _ _ emb _
  | StdRNNDecoder _ _ _ _ _ _ _ _ _ emb _ => emb
  end.

Definition Encoder_named (e : Encoder) : params :=
  (match enc_embeddings e with
   | Some emb => prefixed "embeddings" (Embeddings_named emb)
   | None => []
   end ++ enc_params e)%list.

Definition Decoder_named (d : Decoder) : params :=
  (prefixed "embeddings" (Embeddings_named (dec_embeddings d)) ++
   dec_params d)%list.

(** The children of a [ModuleList] are named by their index. *)
Fixpoint ModuleList_named (i : nat) (cs : list HierarchicalContext) : params :=
  match cs with
  | [] => []
  | c :: cs' =>
      (prefixed (pretty i) (hc_params c) ++ ModuleList_named (S i) cs')%list
  end.

Definition Context_named (c : Context) : params :=
  match c with
  | Single hc => hc_params hc
  | ModuleList cs => ModuleList_named 0 cs
  end.

Definition Generator_named (g : Generator) : params :=
  match g with
  | LinearLogSoftmax lin _ => [("0.weight", weight lin); ("0.bias", bias lin)]
  | CopyGenerator _ _ ps => ps
  end.

Definition NMTModel_named (m : NMTModel) : params :=
  (prefixed "encoder" (Encoder_named (encoder m)) ++
   prefixed "decoder" (Decoder_named (decoder m)) ++
   match doc_context m with
   | Some c => prefixed "doc_context" (Context_named c)
   | None => []
   end ++
   match generator m with
   | Some g => prefixed "generator" (Generator_named g)
   | None => []
   end)%list.

(** [parameters()] yields each [Parameter] object once, at its first name. *)
Fixpoint distinct (seen : list loc) (ls : list loc) : list loc :=
  match ls with
  | [] => []
  | l :: ls' =>
      if bool_decide (l ∈ seen) then distinct seen ls'
      else l :: distinct (l :: seen) ls'
  end.

Definition parameters (named : params) : list loc := distinct [] named.*2.

(** [state_dict()]: every name, with the live data of its parameter. *)
Definition state_dict (named : params) : dict tref :=
  dict_of_items (map (fun kv => (kv.1, DataOf kv.2)) named).

(** [dst.copy_(src)], [dst] being the data of parameter [l]. *)
Definition copy_ (l : loc) (src : tref) : M unit :=
  fun s =>
    match src with
    | Value t => update l (set_data t) s
    | DataOf l' =>
        match cells s !! l' with
        | Some p => update l (set_data (data p)) s
        | None => Ok (tt, s)
        end
    end.

(** [load_state_dict(state_dict, strict)]: each entry whose name the module
    has is copied into the module's parameter; under [strict] an entry the
    module lacks, or a name of the module without entry, is a [KeyError].
    Tensor shapes are not part of the model, so the error of a copy between
    tensors of different sizes is not either; nor are buffers. *)
Definition load_state_dict (named : params) (sd : dict tref) (strict : bool)
  : M unit :=
  let own_state := state_dict named in
  for_each sd (fun kv =>
    match dict_get kv.1 own_state with
    | Some (DataOf l) => copy_ l kv.2
    | Some (Value _) => mret tt
    | None =>
        if strict
        then mthrow (KeyError ("unexpected key " +:+ kv.1 +:+ " in state_dict"))
        else mret tt
    end);;
  if strict && negb (forallb (fun k => dict_has k sd) (dict_keys own_state))
  then mthrow (KeyError "missing keys in state_dict")
  else mret tt.

(** ** Python values and the in-place operations the file calls *)

(** Truth value of an integer option such as [opt.input_feed]. *)
Definition truthy (z : Z) : bool := negb (Z.eqb z 0).

(** [x != 0.0] and [x > 0.0] on floats. *)
Definition float_nonzero (x : float) : bool := negb (PrimFloat.eqb x 0%float).
Definition float_positive (x : float) : bool := PrimFloat.ltb 0%float x.

(** [param.dim()] *)
Definition dim (l : loc) : M nat :=
  fun s => Ok (match cells s !! l with Some p => ndim p | None => O end, s).

(** [param.data.uniform_(lo, hi)] *)
Definition uniform_ (l : loc) (lo hi : float) : M unit :=
  update l (set_data (Uniform lo hi));;
  emit (UniformInit l lo hi).

(** [xavier_uniform(param)] *)
Definition xavier_uniform (l : loc) : M unit :=
  update l (set_data Xavier);;
  emit (XavierInit l).

(** [embeddings.load_pretrained_vectors(emb_file, fixed)]: a method of the
    collaborator, kept as the call it is. *)
Definition load_pretrained_vectors (emb : Embeddings) (emb_file : option string)
    (fixed : bool) : M unit :=
  emit (LoadPretrainedVectors emb emb_file fixed).

Definition lift {A} (r : result A) : M A :=
  fun s => match r with Ok a => Ok (a, s) | Raise e => Raise e end.

(** ** make_embeddings (lines 39-71) *)

Definition make_embeddings (opt : Opt) (word_dict : Vocab)
    (feature_dicts : list Vocab) (for_encoder : bool) : M Embeddings :=
  let embedding_dim :=
    if for_encoder then src_word_vec_size opt else tgt_word_vec_size opt in
  let word_padding_idx := stoi word_dict PAD_WORD in
  let num_word_embeddings := vocab_len word_dict in
  let feats_padding_idx :=
    map (fun feat_dict => stoi feat_dict PAD_WORD) feature_dicts in
  let num_feat_embeddings := map vocab_len feature_dicts in
  new_Embeddings
    (mkEmbeddingsArgs embedding_dim (position_encoding opt) (feat_merge opt)
       (feat_vec_exponent opt) (feat_vec_size opt) (opt_dropout opt)
       word_padding_idx feats_padding_idx num_word_embeddings
       num_feat_embeddings (String.eqb (optim opt) "sparseadam")).

(** ** make_encoder (lines 74-94) *)

Definition make_encoder (opt : Opt) (embeddings : Embeddings) : M Encoder :=
  if String.eqb (encoder_type opt) "transformer" then
    new_Encoder (TransformerEncoder (enc_layers opt) (opt_rnn_size opt)
                   (opt_dropout opt) embeddings)
  else if String.eqb (encoder_type opt) "cnn" then
    new_Encoder (CNNEncoder (enc_layers opt) (opt_rnn_size opt)
                   (opt_cnn_kernel_width opt) (opt_dropout opt) embeddings)
  else if String.eqb (encoder_type opt) "mean" then
    new_Encoder (MeanEncoder (enc_layers opt) embeddings)
  else
    new_Encoder (RNNEncoder (opt_rnn_type opt) (brnn opt) (enc_layers opt)
                   (opt_rnn_size opt) (opt_dropout opt) embeddings (bridge opt)).

(** ** make_decoder (lines 97-132) *)

Definition make_decoder (opt : Opt) (embeddings : Embeddings) : M Decoder :=
  if String.eqb (decoder_type opt) "transformer" then
    new_Decoder (TransformerDecoder (dec_layers opt) (opt_rnn_size opt)
                   (global_attention opt) (opt_copy_attn opt)
                   (opt_dropout opt) embeddings)
  else if String.eqb (decoder_type opt) "cnn" then
    new_Decoder (CNNDecoder (dec_layers opt) (opt_rnn_size opt)
                   (global_attention opt) (opt_copy_attn opt)
                   (opt_cnn_kernel_width opt) (opt_dropout opt) embeddings)
  else if truthy (input_feed opt) then
    new_Decoder (InputFeedRNNDecoder (opt_rnn_type opt) (brnn opt)
                   (dec_layers opt) (opt_rnn_size opt) (global_attention opt)
                   (opt_coverage_attn opt) (opt_context_gate opt)
                   (opt_copy_attn opt) (opt_dropout opt) embeddings
                   (opt_reuse_copy_attn opt))
  else
    new_Decoder (StdRNNDecoder (opt_rnn_type opt) (brnn opt)
                   (dec_layers opt) (opt_rnn_size opt) (global_attention opt)
                   (opt_coverage_attn opt) (opt_context_gate opt)
                   (opt_copy_attn opt) (opt_dropout opt) embeddings
                   (opt_reuse_copy_attn opt)).

(** ** make_context (lines 134-147) *)

Definition make_context (opt : Opt) (tgt_dict : Vocab) : M (option Context) :=
  let padding_idx := stoi tgt_dict PAD_WORD in
  let tok := [stoi tgt_dict PAD_WORD; UNK;
              stoi tgt_dict BOS_WORD; stoi tgt_dict EOS_WORD] in
  match context_type opt with
  | None => mret None
  | Some ct =>
      let args :=
        mkHierarchicalContextArgs (opt_rnn_size opt) (opt_dropout opt)
          (context_type opt) (context_size opt) padding_idx tok in
      if String.eqb ct "HAN_join" then
        c0 ← new_HierarchicalContext args;
        c1 ← new_HierarchicalContext args;
        mret (Some (ModuleList [c0; c1]))
      else
        c ← new_HierarchicalContext args;
        mret (Some (Single c))
  end.

(** ** make_base_model (lines 167-308), block by block *)

(** Lines 181-199: the encoder, and the locals only the "text" branch
    assigns. *)
Definition build_encoder (model_opt : Opt) (fields : gmap string (Field Vocab))
  : M (option Vocab * option Embeddings * option Encoder) :=
  if String.eqb (model_type model_opt) "text" then
    src ← getitem fields "src";
    let src_dict := vocab src in
    let feature_dicts := collect_feature_vocabs fields "src" in
    src_embeddings ← make_embeddings model_opt src_dict feature_dicts true;
    encoder ← make_encoder model_opt src_embeddings;
    mret (Some src_dict, Some src_embeddings, Some encoder)
  else if String.eqb (model_type model_opt) "img" then
    encoder ← new_Encoder (ImageEncoder (enc_layers model_opt) (brnn model_opt)
                             (opt_rnn_size model_opt) (opt_dropout model_opt));
    mret (None, None, Some encoder)
  else if String.eqb (model_type model_opt) "audio" then
    encoder ← new_Encoder (AudioEncoder (enc_layers model_opt) (brnn model_opt)
                             (opt_rnn_size model_opt) (opt_dropout model_opt)
                             (opt_sample_rate model_opt)
                             (opt_window_size model_opt));
    mret (None, None, Some encoder)
  else
    mret (None, None, None).

Definition share_vocab_message : string :=
  "The `-share_vocab` should be set during preprocess if you use share_embeddings!".

(** Lines 207-214: the shared embedding matrix.  The result is
    [tgt_embeddings] after the assignment of line 214. *)
Definition share_embedding_matrix (model_opt : Opt)
    (src_dict : option Vocab) (src_embeddings : option Embeddings)
    (tgt_dict : Vocab) (tgt_embeddings : Embeddings) : M Embeddings :=
  if share_embeddings model_opt then
    src_dict ← local "src_dict" src_dict;
    (if bool_decide (src_dict ≠ tgt_dict)
     then mthrow (AssertionError share_vocab_message)
     else mret tt);;
    src_embeddings ← local "src_embeddings" src_embeddings;
    mret (mkEmbeddings (emb_args tgt_embeddings)
            (word_lut_weight src_embeddings) (emb_params tgt_embeddings))
  else mret tgt_embeddings.

(** Lines 201-216: target embeddings, the shared embedding matrix, the
    decoder. *)
Definition build_decoder (model_opt : Opt) (fields : gmap string (Field Vocab))
    (src_dict : option Vocab) (src_embeddings : option Embeddings)
  : M (Vocab * Decoder) :=
  tgt ← getitem fields "tgt";
  let tgt_dict := vocab tgt in
  let feature_dicts := collect_feature_vocabs fields "tgt" in
  tgt_embeddings ← make_embeddings model_opt tgt_dict feature_dicts false;
  tgt_embeddings ← share_embedding_matrix model_opt src_dict src_embeddings
                     tgt_dict tgt_embeddings;
  decoder ← make_decoder model_opt tgt_embeddings;
  mret (tgt_dict, decoder).

(** Lines 219-230: the [NMTModel]. *)
Definition build_model (model_opt : Opt) (fields : gmap string (Field Vocab))
    (gpu : bool) (encoder : Encoder) (decoder : Decoder)
    (context : option Context) : M NMTModel :=
  risk ←
    (if float_positive (RISK_ratio model_opt) then
       let scorer :=
         mkGNMTGlobalScorer (alpha model_opt) (beta model_opt)
           (coverage_penalty model_opt) (length_penalty model_opt) in
       tgt ← getitem fields "tgt";
       mret (Some (mkRiskArgs (vocab tgt) (beam_size model_opt)
                     (n_best model_opt) gpu scorer (min_length model_opt)
                     (max_length model_opt) (stepwise_penalty model_opt)
                     (block_ngram_repeat model_opt)
                     (ignore_when_blocking model_opt) (opt_copy_attn model_opt)
                     (context_size model_opt)))
     else mret None);
  mret (mkNMTModel encoder decoder context (context_type model_opt) risk
          (Some (model_type model_opt)) None).

(** Lines 232-241: the generator. *)
Definition build_generator (model_opt : Opt)
    (fields : gmap string (Field Vocab)) (decoder : Decoder) : M Generator :=
  if negb (opt_copy_attn model_opt) then
    tgt ← getitem fields "tgt";
    lin ← new_Linear (opt_rnn_size model_opt) (vocab_len (vocab tgt));
    if share_decoder_embeddings model_opt then
      mret (LinearLogSoftmax
              (mkLinear (in_features lin) (out_features lin)
                 (word_lut_weight (dec_embeddings decoder)) (bias lin)) 1)
    else mret (LinearLogSoftmax lin 1)
  else
    tgt ← getitem fields "tgt";
    new_CopyGenerator (opt_rnn_size model_opt) (vocab tgt).

(** Lines 178-241: everything before the states are loaded or initialised. *)
Definition build_modules (model_opt : Opt) (fields : gmap string (Field Vocab))
    (gpu : bool) : M (NMTModel * Generator) :=
  assert_ (bool_decide (model_type model_opt ∈ ["text"; "img"; "audio"]))
    ("Unsupported model type " +:+ model_type model_opt);;
  '(src_dict, src_embeddings, encoder) ← build_encoder model_opt fields;
  '(tgt_dict, decoder) ← build_decoder model_opt fields src_dict src_embeddings;
  context ← make_context model_opt tgt_dict;
  encoder ← local "encoder" encoder;
  model ← build_model model_opt fields gpu encoder decoder context;
  generator ← build_generator model_opt fields decoder;
  mret (model, generator).

(** Lines 246-258: the dictionary handed to [model.load_state_dict]. *)
Definition remap_pretrained (model_dict : dict tref) (items : dict tensor)
  : dict tref :=
  fold_left
    (fun pretrained_dict kv =>
       if dict_has kv.1 model_dict then
         let k :=
           if str_contains "doc_context" kv.1
           then str_replace "doc_context" "doc_context.0" kv.1
           else kv.1 in
         dict_set k (Value kv.2) pretrained_dict
       else pretrained_dict)
    items [].

Definition filter_pretrained (model_dict : dict tref) (items : dict tensor)
  : dict tref :=
  dict_of_items
    (map (fun kv => (kv.1, Value kv.2))
       (filter (fun kv => dict_has kv.1 model_dict
                          && negb (str_contains "doc_context" kv.1))
          items)).

Definition checkpoint_model_dict (model_opt : Opt) (model : NMTModel)
    (checkpoint : Checkpoint) (train_part : string) : result (dict tref) :=
  let model_dict := map (fun kv => (kv.1, Value kv.2)) (ck_model checkpoint) in
  if String.eqb train_part "context" then
    let model_dict := state_dict (NMTModel_named model) in
    match context_type model_opt with
    | None => Raise (TypeError "argument of type 'NoneType' is not iterable")
    | Some ct =>
        let pretrained_dict :=
          if str_contains "join" ct
          then remap_pretrained model_dict (ck_model checkpoint)
          else filter_pretrained model_dict (ck_model checkpoint) in
        Ok (dict_update model_dict pretrained_dict)
    end
  else Ok model_dict.

(** Lines 262-275: freezing the main model, unfreezing and re-initialising
    the context. *)
Definition freeze_main_unfreeze_context (model_opt : Opt) (model : NMTModel)
    (generator : Generator) : M unit :=
  emit (Print "Freezing parameters of main model");;
  for_each (parameters (NMTModel_named model))
    (fun param => update param (set_attr "require_grad" false));;
  for_each (parameters (Generator_named generator))
    (fun param => update param (set_attr "require_grad" false));;
  emit (Print "Unfreezing parameters of context");;
  match doc_context model with
  | None =>
      mthrow (AttributeError "'NoneType' object has no attribute 'parameters'")
  | Some context =>
      for_each (parameters (Context_named context))
        (fun param =>
           update param (set_attr "require_grad" true);;
           (if float_nonzero (param_init model_opt)
            then uniform_ param (PrimFloat.opp (param_init model_opt))
                   (param_init model_opt)
            else mret tt);;
           (if param_init_glorot model_opt then
              d ← dim param;
              if (1 <? d)%nat then xavier_uniform param else mret tt
            else mret tt))
  end.

(** Lines 244-275: the checkpoint branch. *)
Definition load_checkpoint (model_opt : Opt) (model : NMTModel)
    (generator : Generator) (checkpoint : Checkpoint) (train_part : string)
  : M unit :=
  emit (Print "Loading model parameters.");;
  model_dict ← lift (checkpoint_model_dict model_opt model checkpoint train_part);
  load_state_dict (NMTModel_named model) model_dict false;;
  load_state_dict (Generator_named generator)
    (map (fun kv => (kv.1, Value kv.2)) (ck_generator checkpoint)) true;;
  if String.eqb train_part "context"
  then freeze_main_unfreeze_context model_opt model generator
  else mret tt.

(** Lines 277-296: the branch without checkpoint.  The test
    [hasattr(model.encoder, 'embeddings')] is [enc_embeddings]; every decoder
    class [make_decoder] builds has [embeddings], so the test of line 294
    holds. *)
Definition init_parameters (model_opt : Opt) (model : NMTModel)
    (generator : Generator) : M unit :=
  (if float_nonzero (param_init model_opt) then
     emit (Print "Intializing model parameters.");;
     for_each (parameters (NMTModel_named model))
       (fun p => uniform_ p (PrimFloat.opp (param_init model_opt))
                   (param_init model_opt));;
     for_each (parameters (Generator_named generator))
       (fun p => uniform_ p (PrimFloat.opp (param_init model_opt))
                   (param_init model_opt))
   else mret tt);;
  (if param_init_glorot model_opt then
     for_each (parameters (NMTModel_named model))
       (fun p => d ← dim p;
                 if (1 <? d)%nat then xavier_uniform p else mret tt);;
     for_each (parameters (Generator_named generator))
       (fun p => d ← dim p;
                 if (1 <? d)%nat then xavier_uniform p else mret tt)
   else mret tt);;
  match enc_embeddings (encoder model) with
  | Some embeddings =>
      load_pretrained_vectors embeddings (pre_word_vecs_enc model_opt)
        (fix_word_vecs_enc model_opt)
  | None => mret tt
  end;;
  load_pretrained_vectors (dec_embeddings (decoder model))
    (pre_word_vecs_dec model_opt) (fix_word_vecs_dec model_opt).

(** [model.generator = generator] *)
Definition set_generator (generator : Generator) (model : NMTModel) : NMTModel :=
  mkNMTModel (encoder model) (decoder model) (doc_context model)
    (m_context_type model) (m_risk model) (m_model_type model) (Some generator).

Definition make_base_model (model_opt : Opt)
    (fields : gmap string (Field Vocab)) (gpu : bool)
    (checkpoint : option Checkpoint) (train_part : string) : M NMTModel :=
  '(model, generator) ← build_modules model_opt fields gpu;
  match checkpoint with
  | Some checkpoint =>
      load_checkpoint model_opt model generator checkpoint train_part
  | None => init_parameters model_opt model generator
  end;;
  let model := set_generator generator model in
  (if gpu then emit Cuda else emit Cpu);;
  mret model.

End Model.

(** ** A concrete setting, for running the functions *)

Module Demo.

(** Position of [w] in [v], 0 (the unknown word) when absent, as the
    default of a [torchtext] vocabulary gives it. *)
Fixpoint index_of (w : string) (v : list string) : Z :=
  match v with
  | [] => 0
  | x :: v' => if String.eqb x w then 0 else
                 if bool_decide (w ∈ v') then 1 + index_of w v' else 0
  end.

#[export] Instance collaborators : Collaborators := {|
  Vocab := list string;
  stoi := fun v w => index_of w v;
  vocab_len := fun v => Z.of_nat (length v);
  PAD_WORD := "<blank>";
  BOS_WORD := "<s>";
  EOS_WORD := "</s>";
  UNK := 0;
  collect_feature_vocabs := fun _ _ => [];
  word_lut_name := "make_embedding.emb_luts.0.weight";
  Embeddings_layout := fun _ => [];
  Encoder_layout := fun _ => [("rnn.weight_ih_l0", 2%nat)];
  Decoder_layout := fun _ => [("rnn.weight_ih_l0", 2%nat); ("rnn.bias", 1%nat)];
  HierarchicalContext_layout := fun _ => [("weight", 2%nat); ("bias", 1%nat)];
  CopyGenerator_layout := fun _ _ => [("linear.weight", 2%nat);
                                     ("linear_copy.weight", 2%nat)]
|}.

Definition words : Vocab := ["<unk>"; "<blank>"; "<s>"; "</s>"; "a"; "b"].
Definition other_words : Vocab := ["<unk>"; "<blank>"; "<s>"; "</s>"; "c"].

Definition fields (src tgt : Vocab) : gmap string (Field Vocab) :=
  <["src" := mkField src]> (<["tgt" := mkField tgt]> ∅).

(** An option namespace; the arguments are the options the claims turn on. *)
Definition opt (mtype enc dec : string) (ctx : option string)
    (share share_dec copy : bool) (init : float) (glorot : bool) : Opt :=
  {| src_word_vec_size := 8; tgt_word_vec_size := 8;
     position_encoding := true; feat_merge := "concat";
     feat_vec_exponent := 0.5%float; feat_vec_size := -1;
     opt_dropout := 0.5%float; optim := "adam";
     encoder_type := enc; decoder_type := dec;
     enc_layers := 2; dec_layers := 2; opt_rnn_size := 8;
     opt_cnn_kernel_width := 3; opt_rnn_type := "LSTM";
     brnn := false; bridge := false; global_attention := "general";
     opt_copy_attn := copy; input_feed := 1; opt_coverage_attn := false;
     opt_context_gate := None; opt_reuse_copy_attn := false;
     context_type := ctx; context_size := 3; model_type := mtype;
     opt_sample_rate := 16000; opt_window_size := 0.5%float;
     share_embeddings := share; share_decoder_embeddings := share_dec;
     RISK_ratio := 0%float; alpha := 0%float; beta := 0%float;
     coverage_penalty := "none"; length_penalty := "none";
     beam_size := 5; n_best := 1; min_length := 0; max_length := 100;
     stepwise_penalty := false; block_ngram_repeat := 0;
     ignore_when_blocking := [];
     param_init := init; param_init_glorot := glorot;
     pre_word_vecs_enc := None; fix_word_vecs_enc := false;
     pre_word_vecs_dec := None; fix_word_vecs_dec := false |}.

(** The namespace [o] with [RISK_ratio] set. *)
Definition with_RISK_ratio (ratio : float) (o : Opt) : Opt :=
  {| src_word_vec_size := src_word_vec_size o;
     tgt_word_vec_size := tgt_word_vec_size o;
     position_encoding := position_encoding o; feat_merge := feat_merge o;
     feat_vec_exponent := feat_vec_exponent o;
     feat_vec_size := feat_vec_size o; opt_dropout := opt_dropout o;
     optim := optim o; encoder_type := encoder_type o;
     decoder_type := decoder_type o; enc_layers := enc_layers o;
     dec_layers := dec_layers o; opt_rnn_size := opt_rnn_size o;
     opt_cnn_kernel_width := opt_cnn_kernel_width o;
     opt_rnn_type := opt_rnn_type o; brnn := brnn o; bridge := bridge o;
     global_attention := global_attention o;
     opt_copy_attn := opt_copy_attn o; input_feed := input_feed o;
     opt_coverage_attn := opt_coverage_attn o;
     opt_context_gate := opt_context_gate o;
     opt_reuse_copy_attn := opt_reuse_copy_attn o;
     context_type := context_type o; context_size := context_size o;
     model_type := model_type o; opt_sample_rate := opt_sample_rate o;
     opt_window_size := opt_window_size o;
     share_embeddings := share_embeddings o;
     share_decoder_embeddings := share_decoder_embeddings o;
     RISK_ratio := ratio; alpha := alpha o; beta := beta o;
     coverage_penalty := coverage_penalty o;
     length_penalty := length_penalty o; beam_size := beam_size o;
     n_best := n_best o; min_length := min_length o;
     max_length := max_length o; stepwise_penalty := stepwise_penalty o;
     block_ngram_repeat := block_ngram_repeat o;
     ignore_when_blocking := ignore_when_blocking o;
     param_init := param_init o; param_init_glorot := param_init_glorot o;
     pre_word_vecs_enc := pre_word_vecs_enc o;
     fix_word_vecs_enc := fix_word_vecs_enc o;
     pre_word_vecs_dec := pre_word_vecs_dec o;
     fix_word_vecs_dec := fix_word_vecs_dec o |}.

Definition empty_store : Store := mkStore 0%nat ∅ [].

(** A checkpoint saved from a model with one context module. *)
Definition single_context_checkpoint : Checkpoint :=
  {| ck_model :=
       [("encoder.rnn.weight_ih_l0", Stored 1);
        ("decoder.rnn.weight_ih_l0", Stored 2);
        ("doc_context.weight", Stored 3);
        ("doc_context.bias", Stored 4)];
     ck_generator := [("0.weight", Stored 5); ("0.bias", Stored 6)] |}.

(** A checkpoint saved from a model with paired context modules. *)
Definition paired_context_checkpoint : Checkpoint :=
  {| ck_model :=
       [("encoder.rnn.weight_ih_l0", Stored 1);
        ("doc_context.0.weight", Stored 3);
        ("doc_context.1.weight", Stored 7)];
     ck_generator := [("0.weight", Stored 5); ("0.bias", Stored 6)] |}.

End Demo.

(** ** Relations between stores, for stating what a call changed *)

(** [s'] is [s] after allocations only: the parameters below [next s] are as
    they were, those from [next s] up to [next s'] are new, nothing was
    printed. *)
Definition allocates (s s' : Store) : Prop :=
  (next s <= next s')%nat /\
  log s' = log s /\
  (forall l, (l < next s)%nat -> cells s' !! l = cells s !! l) /\
  (forall l, (next s <= l < next s')%nat ->
     exists nd, cells s' !! l = Some (mkParam (Initial l) true nd [])).

(** The locations of named parameters lie in a range. *)
Definition within (lo hi : loc) (ps : params) : Prop :=
  forall l, l ∈ ps.*2 -> (lo <= l < hi)%nat.

(** What in-place tensor operations and attribute assignments other than
    [requires_grad] leave alone. *)
Definition meta (p : Param) : bool * nat := (requires_grad p, ndim p).

(** [s'] is [s] with some parameters rewritten in place: none created, none
    dropped, each with its [requires_grad] and its number of dimensions. *)
Definition rewrites (s s' : Store) : Prop :=
  next s' = next s /\
  forall l, meta <$> cells s' !! l = meta <$> cells s !! l.

(** [param.dim()] in store [s]. *)
Definition ndim_of (s : Store) (l : loc) : nat :=
  match cells s !! l with Some p => ndim p | None => O end.

(** [s'] is [s] after in-place operations that logged [evs]. *)
Definition in_place (s s' : Store) (evs : list event) : Prop :=
  rewrites s s' /\ log s' = log s ++ evs.

(** ** The initialisation policy, as the specification words it *)

Section Policy.
Context `{Collaborators}.

(** Every parameter of [ls] drawn uniformly in [-param_init, param_init]. *)
Definition uniform_events (model_opt : Opt) (ls : list loc) : list event :=
  map (fun l => UniformInit l (PrimFloat.opp (param_init model_opt))
                  (param_init model_opt)) ls.

(** Every parameter of [ls] with more than one dimension Xavier-initialised. *)
Definition xavier_events (s : Store) (ls : list loc) : list event :=
  map XavierInit (List.filter (fun l => (1 <? ndim_of s l)%nat) ls).

(** Pretrained vectors into the encoder embeddings, when the encoder has
    embeddings, then into the decoder embeddings. *)
Definition pretrained_events (model_opt : Opt) (model : NMTModel)
  : list event :=
  match enc_embeddings (encoder model) with
  | Some emb => [LoadPretrainedVectors emb (pre_word_vecs_enc model_opt)
                   (fix_word_vecs_enc model_opt)]
  | None => []
  end ++
  [LoadPretrainedVectors (dec_embeddings (decoder model))
     (pre_word_vecs_dec model_opt) (fix_word_vecs_dec model_opt)].

(** Without checkpoint: uniform initialisation of the model then of the
    generator when [param_init] is not zero, then Xavier initialisation when
    [param_init_glorot], then the pretrained vectors. *)
Definition init_events (model_opt : Opt) (model : NMTModel)
    (generator : Generator) (s : Store) : list event :=
  (if float_nonzero (param_init model_opt)
   then Print "Intializing model parameters." ::
        uniform_events model_opt (parameters (NMTModel_named model)) ++
        uniform_events model_opt (parameters (Generator_named generator))
   else []) ++
  (if param_init_glorot model_opt
   then xavier_events s (parameters (NMTModel_named model)) ++
        xavier_events s (parameters (Generator_named generator))
   else []) ++
  pretrained_events model_opt model.

(** With a checkpoint and [train_part = "context"]: each context parameter
    in turn, uniformly when [param_init] is not zero, then by Xavier when
    [param_init_glorot] and it has more than one dimension. *)
Definition context_events (model_opt : Opt) (context : Context) (s : Store)
  : list event :=
  flat_map
    (fun l =>
       (if float_nonzero (param_init model_opt)
        then [UniformInit l (PrimFloat.opp (param_init model_opt))
                (param_init model_opt)]
        else []) ++
       (if param_init_glorot model_opt && (1 <? ndim_of s l)%nat
        then [XavierInit l] else []))
    (parameters (Context_named context)).

End Policy.

(** The exceptions the loading block can raise. *)
Definition loading_exn (e : exn) : Prop :=
  match e with
  | KeyError _ | TypeError _ | AttributeError _ => True
  | AssertionError _ | UnboundLocalError _ => False
  end.

(** ** load_test_model (lines 149-164): the options it hands on

    Lines 155-158: [model_opt = checkpoint['opt']], then every argument of
    [dummy_opt] that the namespace lacks is added to it.  A namespace is its
    [__dict__]; [dummy_opt] is iterated in its own order. *)
Definition load_test_model_opt {V} (model_opt dummy_opt : dict V) : dict V :=
  fold_left
    (fun model_opt arg =>
       if negb (dict_has arg.1 model_opt)
       then dict_set arg.1 arg.2 model_opt
       else model_opt)
    dummy_opt model_opt.

(** ** More relations between stores *)

(** [s'] is [s] with [f] applied to each parameter of [ls], and to nothing
    else. *)
Definition applies (f : Param -> Param) (ls : list loc) (s s' : Store) : Prop :=
  forall l, cells s' !! l
            = if bool_decide (l ∈ ls) then f <$> cells s !! l else cells s !! l.

(** What lines 271-275, and lines 279-287, do to one parameter: the uniform
    draw when [param_init] is not zero, then Xavier when [param_init_glorot]
    and the parameter has more than one dimension. *)
Definition initialise (model_opt : Opt) (p : Param) : Param :=
  let p :=
    if float_nonzero (param_init model_opt)
    then set_data (Uniform (PrimFloat.opp (param_init model_opt))
                     (param_init model_opt)) p
    else p in
  if param_init_glorot model_opt && (1 <? ndim p)%nat
  then set_data Xavier p else p.

(** Named parameters that are exactly the objects allocated from [lo] up to
    [hi], in order. *)
Definition consecutive (lo hi : loc) (ps : params) : Prop :=
  (lo <= hi)%nat /\ ps.*2 = seq lo (hi - lo).

(** A tensor that no initialisation of the call produced: what the
    constructor put in parameter [l], or a tensor of the checkpoint. *)
Definition loaded (checkpoint : Checkpoint) (l : loc) (t : tensor) : Prop :=
  t = Initial l \/
  t ∈ (ck_model checkpoint).*2 \/ t ∈ (ck_generator checkpoint).*2.

(** What the freezing loops are about, read off a parameter: the autograd
    flag, and the attribute [require_grad] when the object has one. *)
Definition grad_flags (p : Param) : bool * option bool :=
  (requires_grad p, dict_get "require_grad" (attrs p)).

(** * Properties *)

(** ** Strings and dictionaries *)

Example str_contains_join : str_contains "join" "HAN_join" = true.
Proof. reflexivity. Qed.

Example str_contains_no_join : str_contains "join" "HAN_dec" = false.
Proof. reflexivity. Qed.

Example str_replace_context :
  str_replace "doc_context" "doc_context.0" "doc_context.layer.weight"
  = "doc_context.0.layer.weight".
Proof. reflexivity. Qed.

Example str_replace_every_occurrence :
  str_replace "ab" "x" "abcabab" = "xcxx".
Proof. reflexivity. Qed.

Example dict_update_order :
  dict_update [("a", 1); ("b", 2)] [("b", 3); ("c", 4)]
  = [("a", 1); ("b", 3); ("c", 4)].
Proof. reflexivity. Qed.

Lemma prefix_app (p s : string) : String.prefix p (p +:+ s) = true.
Proof.
  induction p as [|c p IH]; simpl.
  - by destruct s.
  - destruct (Ascii.ascii_dec c c) as [_|Hne]; [exact IH | by destruct Hne].
Qed.

Lemma str_contains_app (p s : string) : str_contains p (p +:+ s) = true.
Proof.
  assert (Hstep : forall x, String.prefix p x = true -> str_contains p x = true).
  { intros x Hx. destruct x; simpl in *; rewrite Hx; reflexivity. }
  apply Hstep, prefix_app.
Qed.

Lemma dict_get_set {V} (k k' : string) (v : V) (d : dict V) :
  dict_get k (dict_set k' v d) = if String.eqb k' k then Some v else dict_get k d.
Proof.
  induction d as [|[k0 v0] d IH]; simpl.
  - reflexivity.
  - destruct (String.eqb_spec k0 k') as [->|Hne]; simpl.
    + destruct (String.eqb k' k); reflexivity.
    + rewrite IH. destruct (String.eqb_spec k0 k) as [->|Hne'].
      * destruct (String.eqb_spec k' k) as [->|_]; [by destruct Hne | done].
      * reflexivity.
Qed.

Lemma dict_update_snoc {V} (d o : dict V) (k : string) (v : V) :
  dict_update d (o ++ [(k, v)]) = dict_set k v (dict_update d o).
Proof. unfold dict_update. by rewrite fold_left_app. Qed.

Lemma dict_get_Some_elem {V} (k : string) (v : V) (d : dict V) :
  dict_get k d = Some v -> (k, v) ∈ d.
Proof.
  induction d as [|[k0 v0] d IH]; simpl; [done|].
  destruct (String.eqb_spec k0 k) as [->|Hne].
  - intros [= ->]. left.
  - intros Hg. right. by apply IH.
Qed.

Lemma dict_get_None_keys {V} (k : string) (d : dict V) :
  dict_get k d = None <-> k ∉ dict_keys d.
Proof.
  unfold dict_keys. induction d as [|[k0 v0] d IH]; simpl.
  - split; [intros _ Hin; inversion Hin | done].
  - rewrite not_elem_of_cons.
    destruct (String.eqb_spec k0 k) as [->|Hne]; split.
    + done.
    + intros [Hk _]. by destruct Hk.
    + intros Hg. split; [congruence | by apply IH].
    + intros [_ Hk]. by apply IH.
Qed.

Lemma dict_get_elem {V} (k : string) (v : V) (d : dict V) :
  NoDup (dict_keys d) -> (k, v) ∈ d -> dict_get k d = Some v.
Proof.
  unfold dict_keys. induction d as [|[k0 v0] d IH]; simpl.
  - intros _ Hin. inversion Hin.
  - rewrite NoDup_cons. intros [Hk0 Hnd] Hin.
    apply elem_of_cons in Hin as [[= -> ->]|Hin].
    + by rewrite String.eqb_refl.
    + destruct (String.eqb_spec k0 k) as [->|Hne]; [|by apply IH].
      destruct Hk0. apply list_elem_of_fmap. by exists (k, v).
Qed.

Lemma dict_has_true {V} (k : string) (d : dict V) :
  dict_has k d = true <-> k ∈ dict_keys d.
Proof.
  unfold dict_has. destruct (dict_get k d) eqn:E.
  - split; [intros _ | done].
    apply dict_get_Some_elem in E. apply list_elem_of_fmap. by exists (k, v).
  - apply dict_get_None_keys in E. split; [done | by intros Hin].
Qed.

Lemma dict_set_keys {V} (k k' : string) (v : V) (d : dict V) :
  k ∈ dict_keys (dict_set k' v d) <-> k = k' ∨ k ∈ dict_keys d.
Proof.
  rewrite <- !dict_has_true. unfold dict_has. rewrite dict_get_set.
  destruct (String.eqb_spec k' k) as [->|Hne].
  - split; [by left | done].
  - destruct (dict_get k d); split; auto; intros [->|?]; done.
Qed.

Lemma dict_set_NoDup {V} (k : string) (v : V) (d : dict V) :
  NoDup (dict_keys d) -> NoDup (dict_keys (dict_set k v d)).
Proof.
  unfold dict_keys. induction d as [|[k0 v0] d IH]; simpl.
  - intros _. apply NoDup_singleton.
  - rewrite NoDup_cons. intros [Hk0 Hnd].
    destruct (String.eqb_spec k0 k) as [->|Hne]; simpl.
    + by apply NoDup_cons.
    + apply NoDup_cons. split; [|by apply IH].
      intros Hin. apply (dict_set_keys k0 k v d) in Hin as [->|Hin]; done.
Qed.

Lemma dict_update_NoDup {V} (d o : dict V) :
  NoDup (dict_keys d) -> NoDup (dict_keys (dict_update d o)).
Proof.
  revert d. induction o as [|[k v] o IH]; intros d Hd; [done|].
  apply IH. by apply dict_set_NoDup.
Qed.

Lemma dict_update_keys {V} (k : string) (d o : dict V) :
  k ∈ dict_keys (dict_update d o) <-> k ∈ dict_keys d ∨ k ∈ dict_keys o.
Proof.
  revert d. induction o as [|[k0 v0] o IH]; intros d.
  - simpl. split; [by left | intros [?|Hin]; [done | inversion Hin]].
  - change (dict_update d ((k0, v0) :: o)) with (dict_update (dict_set k0 v0 d) o).
    rewrite IH, dict_set_keys. unfold dict_keys at 4. simpl.
    rewrite elem_of_cons. fold (dict_keys o). tauto.
Qed.

(** A key the update does not mention keeps its entry. *)
Lemma dict_get_update_other {V} (k : string) (d o : dict V) :
  k ∉ dict_keys o -> dict_get k (dict_update d o) = dict_get k d.
Proof.
  revert d. induction o as [|[k0 v0] o IH]; intros d Hk; [done|].
  unfold dict_keys in Hk. simpl in Hk. apply not_elem_of_cons in Hk as [Hne Hk].
  change (dict_update d ((k0, v0) :: o)) with (dict_update (dict_set k0 v0 d) o).
  rewrite IH by done. rewrite dict_get_set.
  destruct (String.eqb_spec k0 k) as [->|_]; [by destruct Hne | done].
Qed.

(** An entry of the update is the entry of the result. *)
Lemma dict_get_update_elem {V} (k : string) (v : V) (d o : dict V) :
  NoDup (dict_keys o) -> (k, v) ∈ o -> dict_get k (dict_update d o) = Some v.
Proof.
  revert d. induction o as [|[k0 v0] o IH]; intros d Hnd Hin.
  - inversion Hin.
  - unfold dict_keys in Hnd. simpl in Hnd. apply NoDup_cons in Hnd as [Hk0 Hnd].
    change (dict_update d ((k0, v0) :: o)) with (dict_update (dict_set k0 v0 d) o).
    apply elem_of_cons in Hin as [[= -> ->]|Hin].
    + rewrite dict_get_update_other by done.
      by rewrite dict_get_set, String.eqb_refl.
    + by apply IH.
Qed.

Lemma dict_of_items_keys {V} (k : string) (items : list (string * V)) :
  k ∈ dict_keys (dict_of_items items) <-> k ∈ items.*1.
Proof.
  unfold dict_of_items. rewrite dict_update_keys. unfold dict_keys at 1. simpl.
  split; [intros [Hin|?]; [inversion Hin | done] | by right].
Qed.

Lemma dict_of_items_NoDup {V} (items : list (string * V)) :
  NoDup (dict_keys (dict_of_items items)).
Proof. apply dict_update_NoDup. apply NoDup_nil_2. Qed.

Lemma dict_update_elem_inv {V} (k : string) (v : V) (d o : dict V) :
  dict_get k (dict_update d o) = Some v -> (k, v) ∈ o ∨ dict_get k d = Some v.
Proof.
  revert d. induction o as [|[k0 v0] o IH]; intros d Hg; [by right|].
  change (dict_update d ((k0, v0) :: o)) with (dict_update (dict_set k0 v0 d) o) in Hg.
  apply IH in Hg as [Hin|Hg]; [left; by right|].
  rewrite dict_get_set in Hg.
  destruct (String.eqb_spec k0 k) as [->|_]; [|by right].
  injection Hg as ->. left. left.
Qed.

Lemma dict_of_items_elem_inv {V} (k : string) (v : V) (items : list (string * V)) :
  dict_get k (dict_of_items items) = Some v -> (k, v) ∈ items.
Proof. intros Hg. by apply dict_update_elem_inv in Hg as [?|?]. Qed.

(** ** The monad *)

Lemma bind_Ok {A B} (c : M A) (f : A -> M B) (s s2 : Store) (b : B) :
  (c ≫= f) s = Ok (b, s2) ->
  exists a s1, c s = Ok (a, s1) /\ f a s1 = Ok (b, s2).
Proof.
  unfold mbind, M_bind. destruct (c s) as [[a s1]|e]; [eauto | done].
Qed.

Lemma bind_run {A B} (c : M A) (f : A -> M B) (s s1 : Store) (a : A) :
  c s = Ok (a, s1) -> (c ≫= f) s = f a s1.
Proof. unfold mbind, M_bind. by intros ->. Qed.

Lemma bind_Raise {A B} (c : M A) (f : A -> M B) (s : Store) (e : exn) :
  c s = Raise e -> (c ≫= f) s = Raise e.
Proof. unfold mbind, M_bind. by intros ->. Qed.

Ltac inv_bind H :=
  let a := fresh "a" in
  let s := fresh "s" in
  let H1 := fresh H in
  apply bind_Ok in H as (a & s & H1 & H).

Tactic Notation "split_bind" hyp(H) "as" ident(H1) :=
  let a := fresh "a" in
  let s := fresh "s" in
  apply bind_Ok in H as (a & s & H1 & H).

(** ** Stores *)

Lemma allocates_refl (s : Store) : allocates s s.
Proof.
  split; [lia|]. split; [done|]. split; [done|]. intros l Hl. lia.
Qed.

Lemma allocates_trans (s1 s2 s3 : Store) :
  allocates s1 s2 -> allocates s2 s3 -> allocates s1 s3.
Proof.
  intros (Hn1 & Hl1 & Ho1 & Hw1) (Hn2 & Hl2 & Ho2 & Hw2).
  split; [lia|]. split; [congruence|]. split.
  - intros l Hl. rewrite Ho2 by lia. by apply Ho1.
  - intros l Hl. destruct (decide (l < next s2)%nat) as [Hlt|Hge].
    + rewrite Ho2 by done. apply Hw1. lia.
    + apply Hw2. lia.
Qed.

Lemma rewrites_refl (s : Store) : rewrites s s.
Proof. by split. Qed.

Lemma rewrites_trans (s1 s2 s3 : Store) :
  rewrites s1 s2 -> rewrites s2 s3 -> rewrites s1 s3.
Proof.
  intros [Hn1 Hm1] [Hn2 Hm2]. split; [congruence|].
  intros l. by rewrite Hm2.
Qed.

Lemma rewrites_ndim_of (s s' : Store) (l : loc) :
  rewrites s s' -> ndim_of s' l = ndim_of s l.
Proof.
  intros [_ Hm]. specialize (Hm l). unfold ndim_of, meta in *.
  destruct (cells s' !! l), (cells s !! l); simpl in Hm; by simplify_eq.
Qed.

Lemma rewrites_requires_grad (s s' : Store) (l : loc) :
  rewrites s s' ->
  requires_grad <$> cells s' !! l = requires_grad <$> cells s !! l.
Proof.
  intros [_ Hm]. specialize (Hm l). unfold meta in *.
  destruct (cells s' !! l), (cells s !! l); simpl in *; simplify_eq;
    congruence.
Qed.

Lemma within_weaken (lo hi lo' hi' : loc) (ps : params) :
  (lo' <= lo)%nat -> (hi <= hi')%nat -> within lo hi ps -> within lo' hi' ps.
Proof. intros ? ? Hw l Hl. specialize (Hw l Hl). lia. Qed.

Lemma within_app (lo hi : loc) (ps qs : params) :
  within lo hi (ps ++ qs) <-> within lo hi ps /\ within lo hi qs.
Proof.
  unfold within. setoid_rewrite fmap_app. setoid_rewrite elem_of_app.
  split; [intros Hw; split; intros l Hl; apply Hw; tauto|].
  intros [Hp Hq] l [Hl|Hl]; auto.
Qed.

Lemma prefixed_locs (p : string) (ps : params) : (prefixed p ps).*2 = ps.*2.
Proof.
  unfold prefixed. rewrite <- list_fmap_compose. by apply list_fmap_ext.
Qed.

Lemma within_prefixed (lo hi : loc) (p : string) (ps : params) :
  within lo hi (prefixed p ps) <-> within lo hi ps.
Proof. unfold within. by rewrite prefixed_locs. Qed.

Lemma within_nil (lo hi : loc) : within lo hi [].
Proof. intros l Hl. inversion Hl. Qed.

Lemma within_cons (lo hi : loc) (k : string) (l : loc) (ps : params) :
  within lo hi ((k, l) :: ps) <-> (lo <= l < hi)%nat /\ within lo hi ps.
Proof.
  unfold within. simpl. setoid_rewrite elem_of_cons. split.
  - intros Hw. split; [apply Hw; by left | intros l' Hl'; apply Hw; by right].
  - intros [Hl Hw] l' [->|Hl']; auto.
Qed.

(** ** Allocation *)

Lemma alloc_spec (nd : nat) (s : Store) :
  exists s', alloc nd s = Ok (next s, s') /\ allocates s s' /\
             next s' = S (next s).
Proof.
  eexists. split; [reflexivity|]. simpl. split; [|done].
  split; [simpl; lia|]. split; [done|]. split; simpl.
  - intros l Hl. apply lookup_insert_ne. lia.
  - intros l Hl. assert (l = next s) as -> by lia.
    exists nd. apply lookup_insert_eq.
Qed.

Lemma alloc_params_spec (layout : list (string * nat)) (s : Store) :
  exists ps s', alloc_params layout s = Ok (ps, s') /\ allocates s s' /\
                within (next s) (next s') ps /\ ps.*1 = layout.*1.
Proof.
  revert s. induction layout as [|[name nd] rest IH]; intros s.
  - exists [], s. split; [done|]. split; [apply allocates_refl|].
    split; [apply within_nil | done].
  - destruct (alloc_spec nd s) as (s1 & Ha & Hs1 & Hn1).
    destruct (IH s1) as (ps & s2 & Hr & Hs2 & Hw & Hk).
    exists ((name, next s) :: ps), s2. split.
    { simpl. rewrite (bind_run _ _ _ _ _ Ha). simpl.
      by rewrite (bind_run _ _ _ _ _ Hr). }
    split; [by eapply allocates_trans|].
    split; [|by simpl; f_equal].
    apply within_cons. destruct Hs2 as (Hle & _). split; [lia|].
    eapply within_weaken; [| |exact Hw]; lia.
Qed.

Section Construction.
Context `{Collaborators}.

Lemma new_Embeddings_spec (args : EmbeddingsArgs) (s : Store) :
  exists ps s', new_Embeddings args s = Ok (mkEmbeddings args (next s) ps, s') /\
                allocates s s' /\
                within (next s) (next s')
                  (Embeddings_named (mkEmbeddings args (next s) ps)).
Proof.
  destruct (alloc_spec 2 s) as (s1 & Ha & Hs1 & Hn1).
  destruct (alloc_params_spec (Embeddings_layout args) s1)
    as (ps & s2 & Hp & Hs2 & Hw & _).
  exists ps, s2. split.
  { unfold new_Embeddings. rewrite (bind_run _ _ _ _ _ Ha).
    by rewrite (bind_run _ _ _ _ _ Hp). }
  split; [by eapply allocates_trans|].
  unfold Embeddings_named. simpl. apply within_cons.
  destruct Hs2 as (Hle & _). split; [lia|].
  eapply within_weaken; [| |exact Hw]; lia.
Qed.

Lemma new_Encoder_spec (c : EncoderClass) (s : Store) :
  exists ps s', new_Encoder c s = Ok (mkEncoder c ps, s') /\
                allocates s s' /\ within (next s) (next s') ps.
Proof.
  destruct (alloc_params_spec (Encoder_layout c) s) as (ps & s1 & Hp & Hs & Hw & _).
  exists ps, s1. split; [|done].
  unfold new_Encoder. by rewrite (bind_run _ _ _ _ _ Hp).
Qed.

Lemma new_Decoder_spec (c : DecoderClass) (s : Store) :
  exists ps s', new_Decoder c s = Ok (mkDecoder c ps, s') /\
                allocates s s' /\ within (next s) (next s') ps.
Proof.
  destruct (alloc_params_spec (Decoder_layout c) s) as (ps & s1 & Hp & Hs & Hw & _).
  exists ps, s1. split; [|done].
  unfold new_Decoder. by rewrite (bind_run _ _ _ _ _ Hp).
Qed.

Lemma new_HierarchicalContext_spec (args : HierarchicalContextArgs) (s : Store) :
  exists ps s',
    new_HierarchicalContext args s = Ok (mkHierarchicalContext args ps, s') /\
    allocates s s' /\ within (next s) (next s') ps.
Proof.
  destruct (alloc_params_spec (HierarchicalContext_layout args) s)
    as (ps & s1 & Hp & Hs & Hw & _).
  exists ps, s1. split; [|done].
  unfold new_HierarchicalContext. by rewrite (bind_run _ _ _ _ _ Hp).
Qed.

Lemma new_Linear_spec (n_in n_out : Z) (s : Store) :
  exists s', new_Linear n_in n_out s
             = Ok (mkLinear n_in n_out (next s) (S (next s)), s') /\
             allocates s s' /\ next s' = S (S (next s)).
Proof.
  destruct (alloc_spec 2 s) as (s1 & Ha & Hs1 & Hn1).
  destruct (alloc_spec 1 s1) as (s2 & Hb & Hs2 & Hn2).
  exists s2. split.
  { unfold new_Linear. rewrite (bind_run _ _ _ _ _ Ha).
    rewrite (bind_run _ _ _ _ _ Hb). by rewrite Hn1. }
  split; [by eapply allocates_trans | congruence].
Qed.

Lemma new_CopyGenerator_spec (input_size : Z) (tgt_dict : Vocab) (s : Store) :
  exists ps s',
    new_CopyGenerator input_size tgt_dict s
    = Ok (CopyGenerator input_size tgt_dict ps, s') /\
    allocates s s' /\ within (next s) (next s') ps.
Proof.
  destruct (alloc_params_spec (CopyGenerator_layout input_size tgt_dict) s)
    as (ps & s1 & Hp & Hs & Hw & _).
  exists ps, s1. split; [|done].
  unfold new_CopyGenerator. by rewrite (bind_run _ _ _ _ _ Hp).
Qed.

(** [make_embeddings] always returns, with new parameters only. *)
Lemma make_embeddings_spec (opt : Opt) (word_dict : Vocab)
    (feature_dicts : list Vocab) (for_encoder : bool) (s : Store) :
  exists e s', make_embeddings opt word_dict feature_dicts for_encoder s
               = Ok (e, s') /\
               allocates s s' /\
               within (next s) (next s') (Embeddings_named e).
Proof.
  unfold make_embeddings.
  edestruct new_Embeddings_spec as (ps & s' & Hr & Hs & Hw).
  eexists _, s'. split; [exact Hr | done].
Qed.

(** [make_encoder] always returns an encoder over the embeddings it was
    given, with new parameters of its own. *)
Lemma make_encoder_spec (opt : Opt) (embeddings : Embeddings) (s : Store) :
  exists e s', make_encoder opt embeddings s = Ok (e, s') /\
               allocates s s' /\
               enc_embeddings e = Some embeddings /\
               within (next s) (next s') (enc_params e).
Proof.
  unfold make_encoder.
  repeat match goal with |- context [if ?b then _ else _] => destruct b end;
    edestruct new_Encoder_spec as (ps & s' & Hr & Hs & Hw);
    eexists _, s'; (split; [exact Hr | done]).
Qed.

Lemma make_decoder_spec (opt : Opt) (embeddings : Embeddings) (s : Store) :
  exists d s', make_decoder opt embeddings s = Ok (d, s') /\
               allocates s s' /\
               dec_embeddings d = embeddings /\
               within (next s) (next s') (dec_params d).
Proof.
  unfold make_decoder.
  repeat match goal with |- context [if ?b then _ else _] => destruct b end;
    edestruct new_Decoder_spec as (ps & s' & Hr & Hs & Hw);
    eexists _, s'; (split; [exact Hr | done]).
Qed.

Lemma ModuleList_named_within (lo hi : loc) (cs : list HierarchicalContext)
    (i : nat) :
  Forall (fun c => within lo hi (hc_params c)) cs ->
  within lo hi (ModuleList_named i cs).
Proof.
  intros Hcs. revert i. induction Hcs as [|c cs Hc _ IH]; intros i; simpl.
  - apply within_nil.
  - apply within_app. split; [by apply within_prefixed | apply IH].
Qed.

(** [make_context] always returns; a module it returns has new parameters
    only. *)
Lemma make_context_spec (opt : Opt) (tgt_dict : Vocab) (s : Store) :
  exists c s', make_context opt tgt_dict s = Ok (c, s') /\
               allocates s s' /\
               (c = None <-> context_type opt = None) /\
               (forall ctx, c = Some ctx ->
                  within (next s) (next s') (Context_named ctx)).
Proof.
  unfold make_context. destruct (context_type opt) as [ct|] eqn:Ect.
  - match goal with |- context [new_HierarchicalContext ?a] =>
      set (args := a) end.
    destruct (new_HierarchicalContext_spec args s) as (ps0 & s0 & Hr0 & Hs0 & Hw0).
    destruct (String.eqb ct "HAN_join").
    + destruct (new_HierarchicalContext_spec args s0)
        as (ps1 & s1 & Hr1 & Hs1 & Hw1).
      eexists _, s1. split.
      { rewrite (bind_run _ _ _ _ _ Hr0). rewrite (bind_run _ _ _ _ _ Hr1).
        reflexivity. }
      split; [by eapply allocates_trans|]. split; [done|].
      intros ctx [= <-]. unfold Context_named.
      destruct Hs0 as (Hle0 & _), Hs1 as (Hle1 & _).
      apply ModuleList_named_within.
      apply Forall_cons. split; [|apply Forall_cons; split; [|apply Forall_nil_2]].
      * simpl. eapply within_weaken; [| |exact Hw0]; lia.
      * simpl. eapply within_weaken; [| |exact Hw1]; lia.
    + eexists _, s0. split.
      { rewrite (bind_run _ _ _ _ _ Hr0). reflexivity. }
      split; [done|]. split; [done|].
      by intros ctx [= <-].
  - exists None, s. split; [done|]. split; [apply allocates_refl|].
    split; [done|]. by intros ctx.
Qed.

End Construction.

(** ** The blocks of [make_base_model] *)

Section Blocks.
Context `{Collaborators}.

Lemma getitem_Ok {A} (d : gmap string A) (key : string) (a : A) (s s' : Store) :
  getitem d key s = Ok (a, s') <-> d !! key = Some a /\ s' = s.
Proof.
  unfold getitem. destruct (d !! key); split.
  - by intros [= -> ->].
  - by intros [[= ->] ->].
  - done.
  - by intros [? _].
Qed.

Lemma getitem_run {A} (d : gmap string A) (key : string) (a : A) (s : Store) :
  d !! key = Some a -> getitem d key s = Ok (a, s).
Proof. intros Hd. by apply getitem_Ok. Qed.

Lemma Encoder_named_within (lo hi : loc) (e : Encoder) :
  (forall emb, enc_embeddings e = Some emb ->
               within lo hi (Embeddings_named emb)) ->
  within lo hi (enc_params e) ->
  within lo hi (Encoder_named e).
Proof.
  intros Hemb Hps. unfold Encoder_named. apply within_app. split; [|done].
  destruct (enc_embeddings e) as [emb|]; [|apply within_nil].
  apply within_prefixed. by apply Hemb.
Qed.

(** What a returned encoder is, by model type (lines 181-199). *)
Lemma build_encoder_inv (model_opt : Opt) (fields : gmap string (Field Vocab))
    (src_dict : option Vocab) (src_embeddings : option Embeddings)
    (e : Encoder) (s s1 : Store) :
  build_encoder model_opt fields s
  = Ok ((src_dict, src_embeddings, Some e), s1) ->
  allocates s s1 /\
  within (next s) (next s1) (Encoder_named e) /\
  (forall emb, src_embeddings = Some emb ->
               within (next s) (next s1) (Embeddings_named emb)) /\
  ((model_type model_opt = "text" /\
    exists src emb s0,
      fields !! "src" = Some src /\
      src_dict = Some (vocab src) /\ src_embeddings = Some emb /\
      make_embeddings model_opt (vocab src)
        (collect_feature_vocabs fields "src") true s = Ok (emb, s0) /\
      make_encoder model_opt emb s0 = Ok (e, s1) /\
      enc_embeddings e = Some emb) \/
   (model_type model_opt = "img" /\
    src_dict = None /\ src_embeddings = None /\
    enc_class e = ImageEncoder (enc_layers model_opt) (brnn model_opt)
                    (opt_rnn_size model_opt) (opt_dropout model_opt)) \/
   (model_type model_opt = "audio" /\
    src_dict = None /\ src_embeddings = None /\
    enc_class e = AudioEncoder (enc_layers model_opt) (brnn model_opt)
                    (opt_rnn_size model_opt) (opt_dropout model_opt)
                    (opt_sample_rate model_opt) (opt_window_size model_opt))).
Proof.
  unfold build_encoder. intros Hrun.
  destruct (String.eqb_spec (model_type model_opt) "text") as [Htext|_].
  - inv_bind Hrun. apply getitem_Ok in Hrun0 as [Hsrc ->].
    destruct (make_embeddings_spec model_opt (vocab a)
                (collect_feature_vocabs fields "src") true s)
      as (emb & s0' & Hemb & Hs0 & Hw0).
    rewrite (bind_run _ _ _ _ _ Hemb) in Hrun.
    destruct (make_encoder_spec model_opt emb s0') as (e' & s1' & Henc & Hs1 & He & Hw1).
    rewrite (bind_run _ _ _ _ _ Henc) in Hrun.
    injection Hrun as <- <- <- <-.
    pose proof Hs0 as (Hle0 & _). pose proof Hs1 as (Hle1 & _).
    assert (Hwemb : within (next s) (next s1') (Embeddings_named emb)).
    { eapply within_weaken; [| |exact Hw0]; lia. }
    split; [by eapply allocates_trans|]. split; [|split].
    + apply Encoder_named_within.
      * intros emb' Hemb'. rewrite He in Hemb'. by injection Hemb' as <-.
      * eapply within_weaken; [| |exact Hw1]; lia.
    + by intros emb' [= <-].
    + left. split; [done|]. by exists a, emb, s0'.
  - destruct (String.eqb_spec (model_type model_opt) "img") as [Himg|_].
    + match type of Hrun with context [new_Encoder ?c] =>
        destruct (new_Encoder_spec c s) as (ps & s' & Hr & Hs & Hw) end.
      rewrite (bind_run _ _ _ _ _ Hr) in Hrun.
      injection Hrun as <- <- <- <-.
      split; [done|]. split; [|split].
      * apply Encoder_named_within; [by intros emb|done].
      * by intros emb.
      * right. left. done.
    + destruct (String.eqb_spec (model_type model_opt) "audio") as [Haudio|_];
        [|done].
      match type of Hrun with context [new_Encoder ?c] =>
        destruct (new_Encoder_spec c s) as (ps & s' & Hr & Hs & Hw) end.
      rewrite (bind_run _ _ _ _ _ Hr) in Hrun.
      injection Hrun as <- <- <- <-.
      split; [done|]. split; [|split].
      * apply Encoder_named_within; [by intros emb|done].
      * by intros emb.
      * right. right. done.
Qed.

(** What a returned decoder is (lines 201-216): under [share_embeddings] the
    source vocabulary exists and equals the target one, and the decoder's
    word embedding matrix is the source one. *)
Lemma build_decoder_inv (model_opt : Opt) (fields : gmap string (Field Vocab))
    (src_dict : option Vocab) (src_embeddings : option Embeddings)
    (tgt_dict : Vocab) (d : Decoder) (lo : loc) (s1 s2 : Store) :
  build_decoder model_opt fields src_dict src_embeddings s1
  = Ok ((tgt_dict, d), s2) ->
  (lo <= next s1)%nat ->
  (forall emb, src_embeddings = Some emb ->
               within lo (next s1) (Embeddings_named emb)) ->
  exists tgt,
    fields !! "tgt" = Some tgt /\ tgt_dict = vocab tgt /\
    allocates s1 s2 /\
    within lo (next s2) (Decoder_named d) /\
    (share_embeddings model_opt = true ->
       exists emb, src_dict = Some (vocab tgt) /\ src_embeddings = Some emb /\
                   word_lut_weight (dec_embeddings d) = word_lut_weight emb) /\
    (share_embeddings model_opt = false ->
       (next s1 <= word_lut_weight (dec_embeddings d))%nat) /\
    (exists tgt_embeddings s1',
       make_decoder model_opt tgt_embeddings s1' = Ok (d, s2) /\
       dec_embeddings d = tgt_embeddings).
Proof.
  unfold build_decoder. intros Hrun Hlo Hsrc.
  inv_bind Hrun. apply getitem_Ok in Hrun0 as [Htgt ->].
  destruct (make_embeddings_spec model_opt (vocab a)
              (collect_feature_vocabs fields "tgt") false s1)
    as (temb & s1' & Hemb & Hs1 & Hw1).
  rewrite (bind_run _ _ _ _ _ Hemb) in Hrun.
  pose proof Hs1 as (Hle1 & _).
  inv_bind Hrun.
  assert (Hshared : s = s1' /\
            within lo (next s1') (Embeddings_named a0) /\
            (share_embeddings model_opt = true ->
               exists emb, src_dict = Some (vocab a) /\
                           src_embeddings = Some emb /\
                           word_lut_weight a0 = word_lut_weight emb) /\
            (share_embeddings model_opt = false ->
               (next s1 <= word_lut_weight a0)%nat)).
  { unfold share_embedding_matrix in Hrun0.
    destruct (share_embeddings model_opt).
    - destruct src_dict as [sd|]; [|done]. simpl in Hrun0.
      unfold mbind, M_bind in Hrun0. simpl in Hrun0.
      case_bool_decide as Hne; [done|]. simpl in Hrun0.
      destruct src_embeddings as [semb|]; [|done]. simpl in Hrun0.
      injection Hrun0 as <- <-.
      assert (sd = vocab a) as -> by (by destruct (decide (sd = vocab a))).
      split; [done|]. split; [|split; [|done]].
      + unfold Embeddings_named in *. simpl.
        specialize (Hsrc semb eq_refl).
        apply within_cons in Hsrc as [Hl _]. apply within_cons in Hw1 as [_ Hps].
        apply within_cons. split; [lia|].
        eapply within_weaken; [| |exact Hps]; lia.
      + intros _. by exists semb.
    - injection Hrun0 as <- <-. split; [done|]. split; [|split; [done|]].
      + eapply within_weaken; [| |exact Hw1]; lia.
      + intros _. unfold Embeddings_named in Hw1.
        apply within_cons in Hw1 as [Hl _]. lia. }
  destruct Hshared as (-> & Hwa & Hsh & Hnsh).
  destruct (make_decoder_spec model_opt a0 s1') as (d' & s2' & Hdec & Hs2 & Hd & Hw2).
  rewrite (bind_run _ _ _ _ _ Hdec) in Hrun.
  injection Hrun as <- <- <-.
  pose proof Hs2 as (Hle2 & _).
  exists a. split; [done|]. split; [done|].
  split; [by eapply allocates_trans|]. split.
  { unfold Decoder_named. apply within_app. split.
    - apply within_prefixed. rewrite Hd.
      eapply within_weaken; [| |exact Hwa]; lia.
    - eapply within_weaken; [| |exact Hw2]; lia. }
  rewrite Hd. split; [done|]. split; [done|]. by exists a0, s1'.
Qed.

Lemma build_model_inv (model_opt : Opt) (fields : gmap string (Field Vocab))
    (gpu : bool) (e : Encoder) (d : Decoder) (c : option Context)
    (m : NMTModel) (s s' : Store) :
  build_model model_opt fields gpu e d c s = Ok (m, s') ->
  s' = s /\ encoder m = e /\ decoder m = d /\ doc_context m = c /\
  generator m = None.
Proof.
  unfold build_model. intros Hrun. inv_bind Hrun.
  injection Hrun as <- <-.
  destruct (float_positive (RISK_ratio model_opt)).
  - inv_bind Hrun0. apply getitem_Ok in Hrun1 as [_ ->].
    by injection Hrun0 as <- <-.
  - by injection Hrun0 as <- <-.
Qed.

Lemma build_model_run (model_opt : Opt) (fields : gmap string (Field Vocab))
    (gpu : bool) (e : Encoder) (d : Decoder) (c : option Context)
    (tgt : Field Vocab) (s : Store) :
  fields !! "tgt" = Some tgt ->
  exists m, build_model model_opt fields gpu e d c s = Ok (m, s).
Proof.
  intros Htgt. unfold build_model.
  destruct (float_positive (RISK_ratio model_opt)).
  - rewrite (bind_run _ _ _ _ _ (bind_run _ _ _ _ _ (getitem_run _ _ _ s Htgt))).
    by eexists.
  - by eexists.
Qed.

(** What the generator is (lines 232-241). *)
Lemma build_generator_inv (model_opt : Opt)
    (fields : gmap string (Field Vocab)) (d : Decoder) (g : Generator)
    (s s' : Store) :
  build_generator model_opt fields d s = Ok (g, s') ->
  exists tgt,
    fields !! "tgt" = Some tgt /\ allocates s s' /\
    (opt_copy_attn model_opt = true ->
       exists ps, g = CopyGenerator (opt_rnn_size model_opt) (vocab tgt) ps /\
                  within (next s) (next s') ps) /\
    (opt_copy_attn model_opt = false ->
       exists lin, g = LinearLogSoftmax lin 1 /\
                   in_features lin = opt_rnn_size model_opt /\
                   out_features lin = vocab_len (vocab tgt) /\
                   bias lin = S (next s) /\ next s' = S (S (next s)) /\
                   weight lin = if share_decoder_embeddings model_opt
                                then word_lut_weight (dec_embeddings d)
                                else next s).
Proof.
  unfold build_generator. intros Hrun.
  destruct (opt_copy_attn model_opt); simpl in Hrun.
  - inv_bind Hrun. apply getitem_Ok in Hrun0 as [Htgt ->].
    destruct (new_CopyGenerator_spec (opt_rnn_size model_opt) (vocab a) s)
      as (ps & s1 & Hr & Hs & Hw).
    rewrite Hr in Hrun. injection Hrun as <- <-.
    exists a. split; [done|]. split; [done|]. split; [|done].
    intros _. by exists ps.
  - inv_bind Hrun. apply getitem_Ok in Hrun0 as [Htgt ->].
    destruct (new_Linear_spec (opt_rnn_size model_opt) (vocab_len (vocab a)) s)
      as (s1 & Hr & Hs & Hn).
    rewrite (bind_run _ _ _ _ _ Hr) in Hrun.
    exists a. split; [done|].
    destruct (share_decoder_embeddings model_opt);
      injection Hrun as <- <-; (split; [done|]); (split; [done|]);
      intros _; by eexists.
Qed.

End Blocks.

Section Modules.
Context `{Collaborators}.

Lemma assert_Ok (cond : bool) (msg : string) (s s' : Store) (u : unit) :
  assert_ cond msg s = Ok (u, s') <-> cond = true /\ s' = s.
Proof.
  unfold assert_. destruct cond, u; split; try done.
  - by intros [= ->].
  - by intros [_ ->].
  - by intros [? _].
Qed.

Lemma local_Ok {A} (name : string) (v : option A) (a : A) (s s' : Store) :
  local name v s = Ok (a, s') <-> v = Some a /\ s' = s.
Proof.
  unfold local. destruct v; split; try done.
  - by intros [= -> ->].
  - by intros [[= ->] ->].
  - by intros [? _].
Qed.

(** A successful run of lines 178-241, block by block: the stores between
    the blocks, and where the parameters of each part were allocated. *)
Lemma build_modules_inv (model_opt : Opt) (fields : gmap string (Field Vocab))
    (gpu : bool) (m : NMTModel) (g : Generator) (s s' : Store) :
  build_modules model_opt fields gpu s = Ok ((m, g), s') ->
  exists src_dict src_embeddings tgt s1 s2 s3,
    model_type model_opt ∈ ["text"; "img"; "audio"] /\
    build_encoder model_opt fields s
    = Ok ((src_dict, src_embeddings, Some (encoder m)), s1) /\
    fields !! "tgt" = Some tgt /\
    build_decoder model_opt fields src_dict src_embeddings s1
    = Ok ((vocab tgt, decoder m), s2) /\
    make_context model_opt (vocab tgt) s2 = Ok (doc_context m, s3) /\
    generator m = None /\
    build_generator model_opt fields (decoder m) s3 = Ok (g, s') /\
    allocates s s1 /\ allocates s1 s2 /\ allocates s2 s3 /\ allocates s3 s' /\
    within (next s) (next s2) (Encoder_named (encoder m)) /\
    within (next s) (next s2) (Decoder_named (decoder m)) /\
    (forall ctx, doc_context m = Some ctx ->
                 within (next s2) (next s3) (Context_named ctx)) /\
    (doc_context m = None <-> context_type model_opt = None).
Proof.
  unfold build_modules. intros Hrun.
  split_bind Hrun as Hassert. apply assert_Ok in Hassert as [Hsup ->].
  apply bool_decide_eq_true in Hsup.
  split_bind Hrun as Henc. destruct a0 as [[src_dict src_embeddings] enc].
  rename s0 into s1.
  split_bind Hrun as Hdec. destruct a0 as [tgt_dict dec]. rename s0 into s2.
  split_bind Hrun as Hctx. rename a0 into ctx. rename s0 into s3.
  split_bind Hrun as Hloc. apply local_Ok in Hloc as [-> ->].
  split_bind Hrun as Hmodel.
  apply build_model_inv in Hmodel as (-> & <- & <- & <- & Hgen).
  split_bind Hrun as Hg. injection Hrun as <- <- <-.
  destruct (build_encoder_inv _ _ _ _ _ _ _ Henc) as (Hs1 & Hwe & Hwemb & _).
  pose proof Hs1 as (Hle1 & _).
  destruct (build_decoder_inv _ _ _ _ _ _ (next s) _ _ Hdec Hle1 Hwemb)
    as (tgt & Htgt & -> & Hs2 & Hwd & _).
  pose proof Hs2 as (Hle2 & _).
  destruct (make_context_spec model_opt (vocab tgt) s2)
    as (c' & s3' & Hctx' & Hs3 & Hnone & Hwc).
  rewrite Hctx' in Hctx. injection Hctx as -> ->.
  destruct (build_generator_inv _ _ _ _ _ _ Hg) as (_ & _ & Hs4 & _).
  exists src_dict, src_embeddings, tgt, s1, s2, s3.
  repeat (split; [done|]).
  split; [|done].
  eapply within_weaken; [| |exact Hwe]; lia.
Qed.

(** Everything [build_modules] makes is new, and nothing is printed. *)
Lemma build_modules_allocates (model_opt : Opt)
    (fields : gmap string (Field Vocab)) (gpu : bool) (m : NMTModel)
    (g : Generator) (s s' : Store) :
  build_modules model_opt fields gpu s = Ok ((m, g), s') -> allocates s s'.
Proof.
  intros Hrun. apply build_modules_inv in Hrun
    as (? & ? & ? & s1 & s2 & s3 & _ & _ & _ & _ & _ & _ & _ &
        H1 & H2 & H3 & H4 & _).
  eauto using allocates_trans.
Qed.

(** The blocks run to the end as soon as the encoder and decoder blocks
    do. *)
Lemma build_modules_run (model_opt : Opt) (fields : gmap string (Field Vocab))
    (gpu : bool) (src_dict : option Vocab) (src_embeddings : option Embeddings)
    (e : Encoder) (tgt_dict : Vocab) (d : Decoder) (tgt : Field Vocab)
    (s s1 s2 : Store) :
  model_type model_opt ∈ ["text"; "img"; "audio"] ->
  fields !! "tgt" = Some tgt ->
  build_encoder model_opt fields s = Ok ((src_dict, src_embeddings, Some e), s1) ->
  build_decoder model_opt fields src_dict src_embeddings s1
  = Ok ((tgt_dict, d), s2) ->
  exists m g s', build_modules model_opt fields gpu s = Ok ((m, g), s') /\
                 encoder m = e /\ decoder m = d.
Proof.
  intros Hsup Htgt Henc Hdec. unfold build_modules.
  assert (Ha : assert_ (bool_decide (model_type model_opt ∈ ["text"; "img"; "audio"]))
                 ("Unsupported model type " +:+ model_type model_opt) s
               = Ok (tt, s)).
  { apply assert_Ok. split; [by apply bool_decide_eq_true | done]. }
  rewrite (bind_run _ _ _ _ _ Ha). rewrite (bind_run _ _ _ _ _ Henc).
  rewrite (bind_run _ _ _ _ _ Hdec).
  destruct (make_context_spec model_opt tgt_dict s2) as (c & s3 & Hctx & _).
  rewrite (bind_run _ _ _ _ _ Hctx).
  assert (Hl : local "encoder" (Some e) s3 = Ok (e, s3)) by done.
  rewrite (bind_run _ _ _ _ _ Hl).
  destruct (build_model_run model_opt fields gpu e d c tgt s3 Htgt) as (m & Hm).
  rewrite (bind_run _ _ _ _ _ Hm).
  apply build_model_inv in Hm as (_ & He & Hd & _).
  assert (Hg : exists g s', build_generator model_opt fields d s3 = Ok (g, s')).
  { unfold build_generator. destruct (negb (opt_copy_attn model_opt)).
    - rewrite (bind_run _ _ _ _ _ (getitem_run _ _ _ s3 Htgt)).
      destruct (new_Linear_spec (opt_rnn_size model_opt)
                  (vocab_len (vocab tgt)) s3) as (s4 & Hr & _).
      rewrite (bind_run _ _ _ _ _ Hr).
      destruct (share_decoder_embeddings model_opt); by eexists _, _.
    - rewrite (bind_run _ _ _ _ _ (getitem_run _ _ _ s3 Htgt)).
      destruct (new_CopyGenerator_spec (opt_rnn_size model_opt) (vocab tgt) s3)
        as (ps & s4 & Hr & _).
      by eexists _, _. }
  destruct Hg as (g & s' & Hg). rewrite (bind_run _ _ _ _ _ Hg).
  by exists m, g, s'.
Qed.

End Modules.

(** ** In-place operations *)

Lemma in_place_refl (s : Store) : in_place s s [].
Proof. split; [apply rewrites_refl | by rewrite app_nil_r]. Qed.

Lemma in_place_trans (s1 s2 s3 : Store) (e1 e2 : list event) :
  in_place s1 s2 e1 -> in_place s2 s3 e2 -> in_place s1 s3 (e1 ++ e2).
Proof.
  intros [Hr1 Hl1] [Hr2 Hl2]. split; [by eapply rewrites_trans|].
  by rewrite Hl2, Hl1, app_assoc.
Qed.

Lemma update_in_place (l : loc) (f : Param -> Param) (s : Store) :
  (forall p, meta (f p) = meta p) ->
  exists s', update l f s = Ok (tt, s') /\ in_place s s' [] /\
             cells s' = alter f l (cells s).
Proof.
  intros Hf. eexists. split; [reflexivity|]. split; [|done].
  split; [|by simpl; rewrite app_nil_r]. split; [done|]. simpl.
  intros l0. rewrite lookup_alter. case_decide as Hl; [subst l0|done].
  destruct (cells s !! l) as [p|]; simpl; [|done]. by rewrite Hf.
Qed.

Lemma emit_in_place (e : event) (s : Store) :
  exists s', emit e s = Ok (tt, s') /\ in_place s s' [e] /\ cells s' = cells s.
Proof. eexists. split; [reflexivity|]. by repeat split. Qed.

Lemma uniform_in_place (l : loc) (lo hi : float) (s : Store) :
  exists s', uniform_ l lo hi s = Ok (tt, s') /\
             in_place s s' [UniformInit l lo hi].
Proof.
  destruct (update_in_place l (set_data (Uniform lo hi)) s) as (s1 & Hu & Hp1 & _);
    [done|].
  destruct (emit_in_place (UniformInit l lo hi) s1) as (s2 & He & Hp2 & _).
  exists s2. split.
  - unfold uniform_. by rewrite (bind_run _ _ _ _ _ Hu).
  - apply (in_place_trans _ _ _ [] _ Hp1 Hp2).
Qed.

Lemma xavier_in_place (l : loc) (s : Store) :
  exists s', xavier_uniform l s = Ok (tt, s') /\ in_place s s' [XavierInit l].
Proof.
  destruct (update_in_place l (set_data Xavier) s) as (s1 & Hu & Hp1 & _);
    [done|].
  destruct (emit_in_place (XavierInit l) s1) as (s2 & He & Hp2 & _).
  exists s2. split.
  - unfold xavier_uniform. by rewrite (bind_run _ _ _ _ _ Hu).
  - apply (in_place_trans _ _ _ [] _ Hp1 Hp2).
Qed.

Lemma set_attr_meta (name : string) (v : bool) (p : Param) :
  name <> "requires_grad" -> meta (set_attr name v p) = meta p.
Proof.
  intros Hne. unfold set_attr.
  by destruct (String.eqb_spec name "requires_grad").
Qed.

(** A loop of in-place bodies: the events of the bodies in order.  A body
    may read what in-place operations keep (the number of dimensions). *)
Lemma for_each_in_place {A} (ev : A -> list event) (xs : list A)
    (body : A -> M unit) (s : Store) :
  (forall x s0, rewrites s s0 ->
     exists s1, body x s0 = Ok (tt, s1) /\ in_place s0 s1 (ev x)) ->
  exists s', for_each xs body s = Ok (tt, s') /\
             in_place s s' (flat_map ev xs).
Proof.
  intros Hbody.
  enough (Hgen : forall s0, rewrites s s0 ->
            exists s', for_each xs body s0 = Ok (tt, s') /\
                       in_place s0 s' (flat_map ev xs)).
  { apply Hgen, rewrites_refl. }
  induction xs as [|x xs IH]; intros s0 Hs0.
  - exists s0. split; [done | apply in_place_refl].
  - destruct (Hbody x s0 Hs0) as (s1 & Hx & Hp1).
    destruct (IH s1) as (s2 & Hxs & Hp2).
    { eapply rewrites_trans; [exact Hs0 | apply Hp1]. }
    exists s2. split.
    + simpl. by rewrite (bind_run _ _ _ _ _ Hx).
    + simpl. by eapply in_place_trans.
Qed.

Lemma flat_map_nil {A B} (xs : list A) :
  flat_map (fun _ : A => @nil B) xs = [].
Proof. by induction xs. Qed.

Lemma flat_map_singleton {A B} (f : A -> B) (xs : list A) :
  flat_map (fun x => [f x]) xs = map f xs.
Proof. induction xs as [|x xs IH]; [done|]. simpl. by rewrite IH. Qed.

Lemma flat_map_filter {A B} (f : A -> B) (P : A -> bool) (xs : list A) :
  flat_map (fun x => if P x then [f x] else []) xs = map f (List.filter P xs).
Proof.
  induction xs as [|x xs IH]; [done|]. simpl.
  destruct (P x); simpl; by rewrite IH.
Qed.

Lemma copy_in_place (l : loc) (src : tref) (s : Store) :
  exists s', copy_ l src s = Ok (tt, s') /\ in_place s s' [].
Proof.
  unfold copy_. destruct src as [l'|t].
  - destruct (cells s !! l') as [p|].
    + destruct (update_in_place l (set_data (data p)) s) as (s' & Hu & Hp & _);
        [done|]. by exists s'.
    + exists s. split; [done | apply in_place_refl].
  - destruct (update_in_place l (set_data t) s) as (s' & Hu & Hp & _); [done|].
    by exists s'.
Qed.

(** [load_state_dict(.., strict=False)] always returns. *)
Lemma load_state_dict_lenient (named : params) (sd : dict tref) (s : Store) :
  exists s', load_state_dict named sd false s = Ok (tt, s') /\ in_place s s' [].
Proof.
  unfold load_state_dict.
  match goal with |- context [for_each _ ?b] => set (body := b) end.
  destruct (for_each_in_place (fun _ => []) sd body s) as (s' & Hrun & Hp);
    [|rewrite (bind_run _ _ _ _ _ Hrun)].
  - intros [k src] s0 _. unfold body. simpl.
    destruct (dict_get k (state_dict named)) as [[l|t]|].
    + apply copy_in_place.
    + exists s0. split; [done | apply in_place_refl].
    + exists s0. split; [done | apply in_place_refl].
  - rewrite flat_map_nil in Hp. by exists s'.
Qed.

(** Under [strict] it returns or raises [KeyError]. *)
Lemma load_state_dict_strict (named : params) (sd : dict tref) (s : Store) :
  (exists s', load_state_dict named sd true s = Ok (tt, s') /\ in_place s s' []) \/
  (exists msg, load_state_dict named sd true s = Raise (KeyError msg)).
Proof.
  unfold load_state_dict.
  set (body := fun kv : string * tref => _).
  assert (Hloop : forall s0,
            (exists s1, for_each sd body s0 = Ok (tt, s1) /\ in_place s0 s1 []) \/
            (exists msg, for_each sd body s0 = Raise (KeyError msg))).
  { induction sd as [|[k src] sd IH]; intros s0.
    - left. exists s0. split; [done | apply in_place_refl].
    - assert (Hk : (exists s1, body (k, src) s0 = Ok (tt, s1) /\ in_place s0 s1 []) \/
                   (exists msg, body (k, src) s0 = Raise (KeyError msg))).
      { unfold body. simpl.
        destruct (dict_get k (state_dict named)) as [[l|t]|].
        - left. apply copy_in_place.
        - left. exists s0. split; [done | apply in_place_refl].
        - right. by eexists. }
      destruct Hk as [(s1 & Hx & Hp1)|(msg & Hx)].
      + destruct (IH s1) as [(s2 & Hxs & Hp2)|(msg & Hxs)].
        * left. exists s2. split.
          -- simpl. by rewrite (bind_run _ _ _ _ _ Hx).
          -- apply (in_place_trans _ _ _ [] [] Hp1 Hp2).
        * right. exists msg. simpl. by rewrite (bind_run _ _ _ _ _ Hx).
      + right. exists msg. simpl. by rewrite (bind_Raise _ _ _ _ Hx). }
  destruct (Hloop s) as [(s1 & Hrun & Hp)|(msg & Hrun)].
  - rewrite (bind_run _ _ _ _ _ Hrun).
    destruct (true && _).
    + right. by eexists.
    + left. by exists s1.
  - right. exists msg. by rewrite (bind_Raise _ _ _ _ Hrun).
Qed.

Section States.
Context `{Collaborators}.

Lemma dim_run (l : loc) (s : Store) : dim l s = Ok (ndim_of s l, s).
Proof. reflexivity. Qed.

(** Assigning [require_grad] on each parameter of a list. *)
Lemma set_require_grad_loop (v : bool) (ls : list loc) (s : Store) :
  exists s', for_each ls (fun param => update param (set_attr "require_grad" v)) s
             = Ok (tt, s') /\ in_place s s' [].
Proof.
  destruct (for_each_in_place (fun _ => []) ls
              (fun param => update param (set_attr "require_grad" v)) s)
    as (s' & Hrun & Hp).
  - intros l s0 _.
    destruct (update_in_place l (set_attr "require_grad" v) s0)
      as (s1 & Hu & Hp & _); [|by exists s1].
    intros p. by apply set_attr_meta.
  - rewrite flat_map_nil in Hp. by exists s'.
Qed.

Lemma uniform_loop (model_opt : Opt) (ls : list loc) (s : Store) :
  exists s',
    for_each ls (fun p => uniform_ p (PrimFloat.opp (param_init model_opt))
                            (param_init model_opt)) s = Ok (tt, s') /\
    in_place s s' (uniform_events model_opt ls).
Proof.
  destruct (for_each_in_place
              (fun l => [UniformInit l (PrimFloat.opp (param_init model_opt))
                           (param_init model_opt)]) ls
              (fun p => uniform_ p (PrimFloat.opp (param_init model_opt))
                          (param_init model_opt)) s) as (s' & Hrun & Hp).
  - intros l s0 _. apply uniform_in_place.
  - rewrite flat_map_singleton in Hp. by exists s'.
Qed.

Lemma xavier_loop (ls : list loc) (s0 s : Store) :
  rewrites s0 s ->
  exists s',
    for_each ls (fun p => d ← dim p;
                          if (1 <? d)%nat then xavier_uniform p else mret tt) s
    = Ok (tt, s') /\
    in_place s s' (xavier_events s0 ls).
Proof.
  intros Hs.
  destruct (for_each_in_place
              (fun l => if (1 <? ndim_of s0 l)%nat then [XavierInit l] else [])
              ls
              (fun p => d ← dim p;
                        if (1 <? d)%nat then xavier_uniform p else mret tt) s)
    as (s' & Hrun & Hp).
  - intros l s1 Hs1. rewrite (bind_run _ _ _ _ _ (dim_run l s1)).
    rewrite (rewrites_ndim_of s s1 l Hs1), (rewrites_ndim_of s0 s l Hs).
    destruct (1 <? ndim_of s0 l)%nat.
    + apply xavier_in_place.
    + exists s1. split; [done | apply in_place_refl].
  - unfold xavier_events. rewrite <- flat_map_filter. by exists s'.
Qed.

(** Lines 262-275. *)
Lemma freeze_main_unfreeze_context_spec (model_opt : Opt) (model : NMTModel)
    (generator : Generator) (s : Store) :
  match doc_context model with
  | None =>
      exists msg, freeze_main_unfreeze_context model_opt model generator s
                  = Raise (AttributeError msg)
  | Some context =>
      exists s', freeze_main_unfreeze_context model_opt model generator s
                 = Ok (tt, s') /\
                 in_place s s'
                   (Print "Freezing parameters of main model" ::
                    Print "Unfreezing parameters of context" ::
                    context_events model_opt context s)
  end.
Proof.
  unfold freeze_main_unfreeze_context.
  destruct (emit_in_place (Print "Freezing parameters of main model") s)
    as (s1 & He1 & Hp1 & _).
  rewrite (bind_run _ _ _ _ _ He1).
  destruct (set_require_grad_loop false (parameters (NMTModel_named model)) s1)
    as (s2 & Hl1 & Hp2).
  rewrite (bind_run _ _ _ _ _ Hl1).
  destruct (set_require_grad_loop false (parameters (Generator_named generator)) s2)
    as (s3 & Hl2 & Hp3).
  rewrite (bind_run _ _ _ _ _ Hl2).
  destruct (emit_in_place (Print "Unfreezing parameters of context") s3)
    as (s4 & He2 & Hp4 & _).
  rewrite (bind_run _ _ _ _ _ He2).
  pose proof (in_place_trans _ _ _ _ _ Hp1
               (in_place_trans _ _ _ _ _ Hp2
                  (in_place_trans _ _ _ _ _ Hp3 Hp4))) as Hp14.
  simpl in Hp14.
  destruct (doc_context model) as [context|]; [|by eexists].
  match goal with |- context [for_each _ ?b] => set (body := b) end.
  destruct (for_each_in_place
              (fun l =>
                 (if float_nonzero (param_init model_opt)
                  then [UniformInit l (PrimFloat.opp (param_init model_opt))
                          (param_init model_opt)]
                  else []) ++
                 (if param_init_glorot model_opt && (1 <? ndim_of s l)%nat
                  then [XavierInit l] else []))
              (parameters (Context_named context)) body s4)
    as (s5 & Hrun & Hp5).
  - intros l s0 Hs0. unfold body.
    destruct (update_in_place l (set_attr "require_grad" true) s0)
      as (sa & Hu & Hpa & _).
    { intros p. by apply set_attr_meta. }
    rewrite (bind_run _ _ _ _ _ Hu).
    assert (Hb : exists sb,
              (if float_nonzero (param_init model_opt)
               then uniform_ l (PrimFloat.opp (param_init model_opt))
                      (param_init model_opt)
               else mret tt) sa = Ok (tt, sb) /\
              in_place sa sb
                (if float_nonzero (param_init model_opt)
                 then [UniformInit l (PrimFloat.opp (param_init model_opt))
                         (param_init model_opt)]
                 else [])).
    { destruct (float_nonzero (param_init model_opt)).
      - apply uniform_in_place.
      - exists sa. split; [done | apply in_place_refl]. }
    destruct Hb as (sb & Hb & Hpb). rewrite (bind_run _ _ _ _ _ Hb).
    assert (Hnd : ndim_of sb l = ndim_of s l).
    { rewrite (rewrites_ndim_of sa sb l (proj1 Hpb)).
      rewrite (rewrites_ndim_of s0 sa l (proj1 Hpa)).
      rewrite (rewrites_ndim_of s4 s0 l Hs0).
      apply (rewrites_ndim_of s s4 l (proj1 Hp14)). }
    assert (Hc : exists sc,
              (if param_init_glorot model_opt
               then d ← dim l;
                    if (1 <? d)%nat then xavier_uniform l else mret tt
               else mret tt) sb = Ok (tt, sc) /\
              in_place sb sc
                (if param_init_glorot model_opt && (1 <? ndim_of s l)%nat
                 then [XavierInit l] else [])).
    { destruct (param_init_glorot model_opt); simpl.
      - rewrite (bind_run _ _ _ _ _ (dim_run l sb)). rewrite Hnd.
        destruct (1 <? ndim_of s l)%nat.
        + apply xavier_in_place.
        + exists sb. split; [done | apply in_place_refl].
      - exists sb. split; [done | apply in_place_refl]. }
    destruct Hc as (sc & Hc & Hpc). exists sc. split; [exact Hc|].
    apply (in_place_trans _ _ _ [] _ Hpa (in_place_trans _ _ _ _ _ Hpb Hpc)).
  - exists s5. split; [exact Hrun|].
    apply (in_place_trans _ _ _ _ _ Hp14 Hp5).
Qed.

(** Lines 277-296: the branch without checkpoint always returns, and does
    what the initialisation policy says, in that order. *)
Lemma init_parameters_spec (model_opt : Opt) (model : NMTModel)
    (generator : Generator) (s : Store) :
  exists s', init_parameters model_opt model generator s = Ok (tt, s') /\
             in_place s s' (init_events model_opt model generator s).
Proof.
  unfold init_parameters, init_events.
  assert (Hu : exists s1,
            (if float_nonzero (param_init model_opt) then
               emit (Print "Intializing model parameters.");;
               for_each (parameters (NMTModel_named model))
                 (fun p => uniform_ p (PrimFloat.opp (param_init model_opt))
                             (param_init model_opt));;
               for_each (parameters (Generator_named generator))
                 (fun p => uniform_ p (PrimFloat.opp (param_init model_opt))
                             (param_init model_opt))
             else mret tt) s = Ok (tt, s1) /\
            in_place s s1
              (if float_nonzero (param_init model_opt)
               then Print "Intializing model parameters." ::
                    uniform_events model_opt (parameters (NMTModel_named model)) ++
                    uniform_events model_opt (parameters (Generator_named generator))
               else [])).
  { destruct (float_nonzero (param_init model_opt)).
    - destruct (emit_in_place (Print "Intializing model parameters.") s)
        as (sa & Ha & Hpa & _).
      destruct (uniform_loop model_opt (parameters (NMTModel_named model)) sa)
        as (sb & Hb & Hpb).
      destruct (uniform_loop model_opt (parameters (Generator_named generator)) sb)
        as (sc & Hc & Hpc).
      exists sc. split.
      + rewrite (bind_run _ _ _ _ _ Ha). by rewrite (bind_run _ _ _ _ _ Hb).
      + apply (in_place_trans _ _ _ [_] _ Hpa (in_place_trans _ _ _ _ _ Hpb Hpc)).
    - exists s. split; [done | apply in_place_refl]. }
  destruct Hu as (s1 & Hu & Hp1). rewrite (bind_run _ _ _ _ _ Hu).
  assert (Hx : exists s2,
            (if param_init_glorot model_opt then
               for_each (parameters (NMTModel_named model))
                 (fun p => d ← dim p;
                           if (1 <? d)%nat then xavier_uniform p else mret tt);;
               for_each (parameters (Generator_named generator))
                 (fun p => d ← dim p;
                           if (1 <? d)%nat then xavier_uniform p else mret tt)
             else mret tt) s1 = Ok (tt, s2) /\
            in_place s1 s2
              (if param_init_glorot model_opt
               then xavier_events s (parameters (NMTModel_named model)) ++
                    xavier_events s (parameters (Generator_named generator))
               else [])).
  { destruct (param_init_glorot model_opt).
    - destruct (xavier_loop (parameters (NMTModel_named model)) s s1 (proj1 Hp1))
        as (sa & Ha & Hpa).
      destruct (xavier_loop (parameters (Generator_named generator)) s sa)
        as (sb & Hb & Hpb).
      { eapply rewrites_trans; [apply Hp1 | apply Hpa]. }
      exists sb. split.
      + by rewrite (bind_run _ _ _ _ _ Ha).
      + by eapply in_place_trans.
    - exists s1. split; [done | apply in_place_refl]. }
  destruct Hx as (s2 & Hx & Hp2). rewrite (bind_run _ _ _ _ _ Hx).
  assert (He : exists s3,
            match enc_embeddings (encoder model) with
            | Some embeddings =>
                load_pretrained_vectors embeddings (pre_word_vecs_enc model_opt)
                  (fix_word_vecs_enc model_opt)
            | None => mret tt
            end s2 = Ok (tt, s3) /\
            in_place s2 s3
              match enc_embeddings (encoder model) with
              | Some emb => [LoadPretrainedVectors emb (pre_word_vecs_enc model_opt)
                               (fix_word_vecs_enc model_opt)]
              | None => []
              end).
  { destruct (enc_embeddings (encoder model)) as [emb|].
    - destruct (emit_in_place (LoadPretrainedVectors emb
                  (pre_word_vecs_enc model_opt) (fix_word_vecs_enc model_opt)) s2)
        as (s3 & He & Hp & _). by exists s3.
    - exists s2. split; [done | apply in_place_refl]. }
  destruct He as (s3 & He & Hp3). rewrite (bind_run _ _ _ _ _ He).
  destruct (emit_in_place (LoadPretrainedVectors (dec_embeddings (decoder model))
              (pre_word_vecs_dec model_opt) (fix_word_vecs_dec model_opt)) s3)
    as (s4 & Hd & Hp4 & _).
  exists s4. split; [exact Hd|].
  unfold pretrained_events.
  apply (in_place_trans _ _ _ _ _ Hp1
           (in_place_trans _ _ _ _ _ Hp2 (in_place_trans _ _ _ _ _ Hp3 Hp4))).
Qed.

Lemma lift_Ok {A} (r : result A) (a : A) (s s' : Store) :
  lift r s = Ok (a, s') <-> r = Ok a /\ s' = s.
Proof.
  unfold lift. destruct r; split; try done.
  - by intros [= -> ->].
  - by intros [[= ->] ->].
  - by intros [? _].
Qed.

(** Lines 244-275: the checkpoint branch returns or raises one of the
    loading exceptions; when it returns, the only parameters it
    re-initialises are those of the context, and only under
    [train_part = "context"]. *)
Lemma load_checkpoint_spec (model_opt : Opt) (model : NMTModel)
    (generator : Generator) (checkpoint : Checkpoint) (train_part : string)
    (s : Store) :
  (exists e, load_checkpoint model_opt model generator checkpoint train_part s
             = Raise e /\ loading_exn e) \/
  (exists s', load_checkpoint model_opt model generator checkpoint train_part s
              = Ok (tt, s') /\
              if String.eqb train_part "context"
              then exists context,
                     doc_context model = Some context /\
                     in_place s s'
                       (Print "Loading model parameters." ::
                        Print "Freezing parameters of main model" ::
                        Print "Unfreezing parameters of context" ::
                        context_events model_opt context s)
              else in_place s s' [Print "Loading model parameters."]).
Proof.
  unfold load_checkpoint.
  destruct (emit_in_place (Print "Loading model parameters.") s)
    as (s1 & He & Hp1 & _).
  rewrite (bind_run _ _ _ _ _ He).
  destruct (checkpoint_model_dict model_opt model checkpoint train_part)
    as [model_dict|e] eqn:Hdict.
  2:{ left. exists e. split; [done|]. unfold checkpoint_model_dict in Hdict.
      destruct (String.eqb train_part "context"); [|done].
      destruct (context_type model_opt); [done|]. by injection Hdict as <-. }
  assert (Hl : lift (Ok model_dict) s1 = Ok (model_dict, s1)) by done.
  rewrite (bind_run _ _ _ _ _ Hl).
  destruct (load_state_dict_lenient (NMTModel_named model) model_dict s1)
    as (s2 & Hm & Hp2).
  rewrite (bind_run _ _ _ _ _ Hm).
  destruct (load_state_dict_strict (Generator_named generator)
              (map (fun kv => (kv.1, Value kv.2)) (ck_generator checkpoint)) s2)
    as [(s3 & Hg & Hp3)|(msg & Hg)].
  2:{ left. exists (KeyError msg). by rewrite (bind_Raise _ _ _ _ Hg). }
  rewrite (bind_run _ _ _ _ _ Hg).
  pose proof (in_place_trans _ _ _ _ _ Hp1 (in_place_trans _ _ _ _ _ Hp2 Hp3))
    as Hp13. simpl in Hp13.
  destruct (String.eqb train_part "context").
  - pose proof (freeze_main_unfreeze_context_spec model_opt model generator s3)
      as Hf.
    destruct (doc_context model) as [context|].
    + destruct Hf as (s4 & Hf & Hp4). right. exists s4. split; [done|].
      exists context. split; [done|].
      pose proof (in_place_trans _ _ _ _ _ Hp13 Hp4) as Hp. simpl in Hp.
      assert (Hev : context_events model_opt context s3
                    = context_events model_opt context s).
      { unfold context_events. apply flat_map_ext. intros l.
        by rewrite (rewrites_ndim_of s s3 l (proj1 Hp13)). }
      by rewrite Hev in Hp.
    + destruct Hf as (msg & Hf). left. by exists (AttributeError msg).
  - right. by exists s3.
Qed.

End States.

(** ** How [build_modules] and [make_base_model] can end *)

Section Outcomes.
Context `{Collaborators}.

Lemma getitem_Raise {A} (d : gmap string A) (key : string) (s : Store) :
  d !! key = None -> getitem d key s = Raise (KeyError key).
Proof. unfold getitem. by intros ->. Qed.

(** The encoder block, for a supported model type. *)
Lemma build_encoder_cases (model_opt : Opt) (fields : gmap string (Field Vocab))
    (s : Store) :
  model_type model_opt ∈ ["text"; "img"; "audio"] ->
  (model_type model_opt = "text" /\ fields !! "src" = None /\
   build_encoder model_opt fields s = Raise (KeyError "src")) \/
  (exists src_dict src_embeddings e s1,
     build_encoder model_opt fields s
     = Ok ((src_dict, src_embeddings, Some e), s1) /\
     (model_type model_opt = "text" ->
        exists src emb, fields !! "src" = Some src /\
                        src_dict = Some (vocab src) /\
                        src_embeddings = Some emb) /\
     (model_type model_opt <> "text" -> src_dict = None)).
Proof.
  intros Hsup. unfold build_encoder.
  destruct (String.eqb_spec (model_type model_opt) "text") as [Htext|Hntext].
  - destruct (fields !! "src") as [src|] eqn:Hsrc.
    + right. rewrite (bind_run _ _ _ _ _ (getitem_run _ _ _ s Hsrc)).
      destruct (make_embeddings_spec model_opt (vocab src)
                  (collect_feature_vocabs fields "src") true s)
        as (emb & s0 & Hemb & _).
      rewrite (bind_run _ _ _ _ _ Hemb).
      destruct (make_encoder_spec model_opt emb s0) as (e & s1 & Henc & _).
      rewrite (bind_run _ _ _ _ _ Henc).
      exists (Some (vocab src)), (Some emb), e, s1.
      split; [done|]. split; [|done]. intros _. by exists src, emb.
    + left. split; [done|]. split; [done|].
      by rewrite (bind_Raise _ _ _ _ (getitem_Raise _ _ s Hsrc)).
  - right.
    destruct (String.eqb_spec (model_type model_opt) "img") as [Himg|Hnimg].
    { match goal with |- context [new_Encoder ?c] =>
        destruct (new_Encoder_spec c s) as (ps & s1 & Hr & _) end.
      rewrite (bind_run _ _ _ _ _ Hr). by eexists None, None, _, s1. }
    destruct (String.eqb_spec (model_type model_opt) "audio") as [Haud|Hnaud].
    { match goal with |- context [new_Encoder ?c] =>
        destruct (new_Encoder_spec c s) as (ps & s1 & Hr & _) end.
      rewrite (bind_run _ _ _ _ _ Hr). by eexists None, None, _, s1. }
    exfalso.
    apply elem_of_cons in Hsup as [?|Hsup]; [done|].
    apply elem_of_cons in Hsup as [?|Hsup]; [done|].
    apply elem_of_cons in Hsup as [?|Hsup]; [done|].
    inversion Hsup.
Qed.

(** Lines 207-214: each way the sharing block ends. *)
Lemma share_embedding_matrix_cases (model_opt : Opt)
    (src_dict : option Vocab) (src_embeddings : option Embeddings)
    (tgt_dict : Vocab) (tgt_embeddings : Embeddings) (s : Store) :
  if share_embeddings model_opt then
    match src_dict with
    | None =>
        share_embedding_matrix model_opt src_dict src_embeddings tgt_dict
          tgt_embeddings s = Raise (UnboundLocalError "src_dict")
    | Some v =>
        if decide (v = tgt_dict) then
          match src_embeddings with
          | None =>
              share_embedding_matrix model_opt src_dict src_embeddings
                tgt_dict tgt_embeddings s
              = Raise (UnboundLocalError "src_embeddings")
          | Some semb =>
              share_embedding_matrix model_opt src_dict src_embeddings
                tgt_dict tgt_embeddings s
              = Ok (mkEmbeddings (emb_args tgt_embeddings)
                      (word_lut_weight semb) (emb_params tgt_embeddings), s)
          end
        else
          share_embedding_matrix model_opt src_dict src_embeddings tgt_dict
            tgt_embeddings s = Raise (AssertionError share_vocab_message)
    end
  else
    share_embedding_matrix model_opt src_dict src_embeddings tgt_dict
      tgt_embeddings s = Ok (tgt_embeddings, s).
Proof.
  unfold share_embedding_matrix. destruct (share_embeddings model_opt); [|done].
  destruct src_dict as [v|]; [|done].
  unfold mbind, M_bind. simpl.
  destruct (decide (v = tgt_dict)) as [->|Hne].
  - rewrite bool_decide_eq_false_2 by (intros Hc; by apply Hc).
    by destruct src_embeddings.
  - by rewrite bool_decide_eq_true_2.
Qed.

(** The decoder block: each way it ends, by what it was given. *)
Lemma build_decoder_cases (model_opt : Opt) (fields : gmap string (Field Vocab))
    (src_dict : option Vocab) (src_embeddings : option Embeddings) (s : Store) :
  match fields !! "tgt" with
  | None =>
      build_decoder model_opt fields src_dict src_embeddings s
      = Raise (KeyError "tgt")
  | Some tgt =>
      if share_embeddings model_opt then
        match src_dict with
        | None =>
            build_decoder model_opt fields src_dict src_embeddings s
            = Raise (UnboundLocalError "src_dict")
        | Some v =>
            if decide (v = vocab tgt) then
              match src_embeddings with
              | None =>
                  build_decoder model_opt fields src_dict src_embeddings s
                  = Raise (UnboundLocalError "src_embeddings")
              | Some _ =>
                  exists d s', build_decoder model_opt fields src_dict
                                 src_embeddings s = Ok ((vocab tgt, d), s')
              end
            else
              build_decoder model_opt fields src_dict src_embeddings s
              = Raise (AssertionError share_vocab_message)
        end
      else
        exists d s', build_decoder model_opt fields src_dict src_embeddings s
                     = Ok ((vocab tgt, d), s')
  end.
Proof.
  unfold build_decoder. destruct (fields !! "tgt") as [tgt|] eqn:Htgt.
  2:{ by rewrite (bind_Raise _ _ _ _ (getitem_Raise _ _ s Htgt)). }
  rewrite (bind_run _ _ _ _ _ (getitem_run _ _ _ s Htgt)).
  destruct (make_embeddings_spec model_opt (vocab tgt)
              (collect_feature_vocabs fields "tgt") false s)
    as (temb & s1 & Hemb & _).
  rewrite (bind_run _ _ _ _ _ Hemb).
  pose proof (share_embedding_matrix_cases model_opt src_dict src_embeddings
                (vocab tgt) temb s1) as Hblk.
  assert (Hgo : forall e,
            share_embedding_matrix model_opt src_dict src_embeddings
              (vocab tgt) temb s1 = Ok (e, s1) ->
            exists d s',
              (tgt_embeddings ← share_embedding_matrix model_opt src_dict
                                  src_embeddings (vocab tgt) temb;
               decoder ← make_decoder model_opt tgt_embeddings;
               mret (vocab tgt, decoder)) s1 = Ok ((vocab tgt, d), s')).
  { intros e He. rewrite (bind_run _ _ _ _ _ He).
    destruct (make_decoder_spec model_opt e s1) as (d & s2 & Hd & _).
    rewrite (bind_run _ _ _ _ _ Hd). by exists d, s2. }
  destruct (share_embeddings model_opt).
  - destruct src_dict as [v|]; [|by rewrite (bind_Raise _ _ _ _ Hblk)].
    destruct (decide (v = vocab tgt)) as [->|Hne];
      [|by rewrite (bind_Raise _ _ _ _ Hblk)].
    destruct src_embeddings as [semb|];
      [by eapply Hgo | by rewrite (bind_Raise _ _ _ _ Hblk)].
  - by eapply Hgo.
Qed.

(** Every way lines 178-241 can end. *)
Lemma build_modules_outcome (model_opt : Opt)
    (fields : gmap string (Field Vocab)) (gpu : bool) (s : Store) :
  if bool_decide (model_type model_opt ∈ ["text"; "img"; "audio"]) then
    ((fields !! "tgt" = None \/
      (model_type model_opt = "text" /\ fields !! "src" = None)) /\
     exists k, build_modules model_opt fields gpu s = Raise (KeyError k)) \/
    (share_embeddings model_opt = true /\ model_type model_opt <> "text" /\
     build_modules model_opt fields gpu s
     = Raise (UnboundLocalError "src_dict")) \/
    (share_embeddings model_opt = true /\ model_type model_opt = "text" /\
     (exists src tgt, fields !! "src" = Some src /\ fields !! "tgt" = Some tgt /\
                      vocab src <> vocab tgt) /\
     build_modules model_opt fields gpu s
     = Raise (AssertionError share_vocab_message)) \/
    ((exists m g s', build_modules model_opt fields gpu s = Ok ((m, g), s')) /\
     (share_embeddings model_opt = true ->
        model_type model_opt = "text" /\
        exists src tgt, fields !! "src" = Some src /\
                        fields !! "tgt" = Some tgt /\ vocab src = vocab tgt))
  else
    build_modules model_opt fields gpu s
    = Raise (AssertionError ("Unsupported model type " +:+ model_type model_opt)).
Proof.
  case_bool_decide as Hsup; [|unfold build_modules;
    by rewrite (proj2 (bool_decide_eq_false _) Hsup)].
  assert (Ha : assert_ (bool_decide (model_type model_opt ∈ ["text"; "img"; "audio"]))
                 ("Unsupported model type " +:+ model_type model_opt) s
               = Ok (tt, s)).
  { apply assert_Ok. split; [by apply bool_decide_eq_true | done]. }
  destruct (build_encoder_cases model_opt fields s Hsup)
    as [(Htext & Hsrc & Henc)|(sd & se & e & s1 & Henc & Htext & Hntext)].
  { left. split; [by right|]. exists "src". unfold build_modules.
    rewrite (bind_run _ _ _ _ _ Ha). by rewrite (bind_Raise _ _ _ _ Henc). }
  pose proof (build_decoder_cases model_opt fields sd se s1) as Hdec.
  assert (Hstop : forall x, build_decoder model_opt fields sd se s1 = Raise x ->
                            build_modules model_opt fields gpu s = Raise x).
  { intros x Hx. unfold build_modules. rewrite (bind_run _ _ _ _ _ Ha).
    rewrite (bind_run _ _ _ _ _ Henc). by rewrite (bind_Raise _ _ _ _ Hx). }
  destruct (fields !! "tgt") as [tgt|] eqn:Htgt.
  2:{ left. split; [by left|]. exists "tgt". by apply Hstop. }
  assert (Hgo : (exists d s2, build_decoder model_opt fields sd se s1
                              = Ok ((vocab tgt, d), s2)) ->
                exists m g s', build_modules model_opt fields gpu s
                               = Ok ((m, g), s')).
  { intros (d & s2 & Hd).
    destruct (build_modules_run model_opt fields gpu sd se e (vocab tgt) d tgt
                s s1 s2 Hsup Htgt Henc Hd) as (m & g & s' & Hrun & _).
    by exists m, g, s'. }
  destruct (share_embeddings model_opt) eqn:Hshare.
  2:{ right. right. right. split; [by apply Hgo | done]. }
  destruct (decide (model_type model_opt = "text")) as [Ht|Hnt].
  - destruct (Htext Ht) as (src & emb & Hsrc & -> & ->).
    destruct (decide (vocab src = vocab tgt)) as [Heq|Hne].
    + right. right. right. split; [by apply Hgo|].
      intros _. split; [done|]. by exists src, tgt.
    + right. right. left. split; [done|]. split; [done|].
      split; [by exists src, tgt | by apply Hstop].
  - rewrite (Hntext Hnt) in Hdec. right. left.
    split; [done|]. split; [done|]. apply Hstop. by rewrite (Hntext Hnt).
Qed.

(** A returned model is the built one with its generator attached, after
    the loading or the initialisation block and the device call. *)
Lemma make_base_model_inv (model_opt : Opt) (fields : gmap string (Field Vocab))
    (gpu : bool) (checkpoint : option Checkpoint) (train_part : string)
    (m : NMTModel) (s s' : Store) :
  make_base_model model_opt fields gpu checkpoint train_part s = Ok (m, s') ->
  exists m0 g s1 s2,
    build_modules model_opt fields gpu s = Ok ((m0, g), s1) /\
    m = set_generator g m0 /\
    match checkpoint with
    | Some ck => load_checkpoint model_opt m0 g ck train_part s1
    | None => init_parameters model_opt m0 g s1
    end = Ok (tt, s2) /\
    in_place s2 s' [if gpu then Cuda else Cpu].
Proof.
  unfold make_base_model. intros Hrun.
  split_bind Hrun as Hbuild. destruct a as [m0 g].
  split_bind Hrun as Hstates. destruct a.
  split_bind Hrun as Hdev. injection Hrun as <- <-.
  exists m0, g, s0, s1. split; [done|]. split; [done|].
  split; [by destruct checkpoint|].
  destruct gpu.
  - destruct (emit_in_place Cuda s1) as (sx & He & Hp & _).
    rewrite He in Hdev. by simplify_eq.
  - destruct (emit_in_place Cpu s1) as (sx & He & Hp & _).
    rewrite He in Hdev. by simplify_eq.
Qed.

(** An exception of [make_base_model] comes from the construction blocks or
    is one of the loading exceptions. *)
Lemma make_base_model_Raise (model_opt : Opt)
    (fields : gmap string (Field Vocab)) (gpu : bool)
    (checkpoint : option Checkpoint) (train_part : string) (e : exn)
    (s : Store) :
  make_base_model model_opt fields gpu checkpoint train_part s = Raise e ->
  build_modules model_opt fields gpu s = Raise e \/
  ((exists m g s1, build_modules model_opt fields gpu s = Ok ((m, g), s1)) /\
   loading_exn e).
Proof.
  unfold make_base_model. intros Hrun.
  destruct (build_modules model_opt fields gpu s) as [[[m0 g] s1]|e'] eqn:Hb.
  2:{ left. rewrite (bind_Raise _ _ _ _ Hb) in Hrun. by injection Hrun as ->. }
  right. split; [by exists m0, g, s1|].
  rewrite (bind_run _ _ _ _ _ Hb) in Hrun.
  destruct checkpoint as [ck|].
  - destruct (load_checkpoint_spec model_opt m0 g ck train_part s1)
      as [(e' & Hl & He')|(s2 & Hl & _)].
    + rewrite (bind_Raise _ _ _ _ Hl) in Hrun. by injection Hrun as <-.
    + rewrite (bind_run _ _ _ _ _ Hl) in Hrun. by destruct gpu.
  - destruct (init_parameters_spec model_opt m0 g s1) as (s2 & Hi & _).
    rewrite (bind_run _ _ _ _ _ Hi) in Hrun. by destruct gpu.
Qed.

(** The build block raised: so does [make_base_model]. *)
Lemma make_base_model_build_Raise (model_opt : Opt)
    (fields : gmap string (Field Vocab)) (gpu : bool)
    (checkpoint : option Checkpoint) (train_part : string) (e : exn)
    (s : Store) :
  build_modules model_opt fields gpu s = Raise e ->
  make_base_model model_opt fields gpu checkpoint train_part s = Raise e.
Proof. intros Hb. unfold make_base_model. by rewrite (bind_Raise _ _ _ _ Hb). Qed.

End Outcomes.

(** * The claims *)

Section Claims.
Context `{Collaborators}.

(** C9: for every [opt] and embeddings, [make_encoder] returns a
    [TransformerEncoder] when [opt.encoder_type] is "transformer", a
    [CNNEncoder] when it is "cnn", a [MeanEncoder] when it is "mean" and an
    [RNNEncoder] for every other encoder type; [make_decoder] returns a
    [TransformerDecoder] when [opt.decoder_type] is "transformer", a
    [CNNDecoder] when it is "cnn", an [InputFeedRNNDecoder] when it is neither
    and [opt.input_feed] is set, and a [StdRNNDecoder] otherwise.  Each is
    built over the given embeddings with the options the source passes. *)
Theorem make_encoder_make_decoder_dispatch (opt : Opt) (embeddings : Embeddings)
    (s : Store) :
  (exists e s',
     make_encoder opt embeddings s = Ok (e, s') /\
     (encoder_type opt = "transformer" ->
        enc_class e = TransformerEncoder (enc_layers opt) (opt_rnn_size opt)
                        (opt_dropout opt) embeddings) /\
     (encoder_type opt = "cnn" ->
        enc_class e = CNNEncoder (enc_layers opt) (opt_rnn_size opt)
                        (opt_cnn_kernel_width opt) (opt_dropout opt)
                        embeddings) /\
     (encoder_type opt = "mean" ->
        enc_class e = MeanEncoder (enc_layers opt) embeddings) /\
     (encoder_type opt ∉ ["transformer"; "cnn"; "mean"] ->
        enc_class e = RNNEncoder (opt_rnn_type opt) (brnn opt) (enc_layers opt)
                        (opt_rnn_size opt) (opt_dropout opt) embeddings
                        (bridge opt))) /\
  (exists d s',
     make_decoder opt embeddings s = Ok (d, s') /\
     (decoder_type opt = "transformer" ->
        dec_class d = TransformerDecoder (dec_layers opt) (opt_rnn_size opt)
                        (global_attention opt) (opt_copy_attn opt)
                        (opt_dropout opt) embeddings) /\
     (decoder_type opt = "cnn" ->
        dec_class d = CNNDecoder (dec_layers opt) (opt_rnn_size opt)
                        (global_attention opt) (opt_copy_attn opt)
                        (opt_cnn_kernel_width opt) (opt_dropout opt)
                        embeddings) /\
     (decoder_type opt ∉ ["transformer"; "cnn"] ->
        truthy (input_feed opt) = true ->
        dec_class d = InputFeedRNNDecoder (opt_rnn_type opt) (brnn opt)
                        (dec_layers opt) (opt_rnn_size opt)
                        (global_attention opt) (opt_coverage_attn opt)
                        (opt_context_gate opt) (opt_copy_attn opt)
                        (opt_dropout opt) embeddings
                        (opt_reuse_copy_attn opt)) /\
     (decoder_type opt ∉ ["transformer"; "cnn"] ->
        truthy (input_feed opt) = false ->
        dec_class d = StdRNNDecoder (opt_rnn_type opt) (brnn opt)
                        (dec_layers opt) (opt_rnn_size opt)
                        (global_attention opt) (opt_coverage_attn opt)
                        (opt_context_gate opt) (opt_copy_attn opt)
                        (opt_dropout opt) embeddings
                        (opt_reuse_copy_attn opt))).
Proof.
  split.
  - unfold make_encoder.
    destruct (String.eqb_spec (encoder_type opt) "transformer") as [Ht|Ht];
      [|destruct (String.eqb_spec (encoder_type opt) "cnn") as [Hc|Hc];
        [|destruct (String.eqb_spec (encoder_type opt) "mean") as [Hm|Hm]]];
      (match goal with |- context [new_Encoder ?c] =>
         destruct (new_Encoder_spec c s) as (ps & s' & Hr & _) end);
      eexists _, s'; (split; [exact Hr|]); simpl;
      repeat split; intros Hty; try done; try congruence.
    + destruct Hty. rewrite Ht. apply list_elem_of_here.
    + destruct Hty. rewrite Hc. apply list_elem_of_further, list_elem_of_here.
    + destruct Hty. rewrite Hm.
      apply list_elem_of_further, list_elem_of_further, list_elem_of_here.
  - unfold make_decoder.
    destruct (String.eqb_spec (decoder_type opt) "transformer") as [Ht|Ht];
      [|destruct (String.eqb_spec (decoder_type opt) "cnn") as [Hc|Hc];
        [|destruct (truthy (input_feed opt)) eqn:Hfeed]];
      (match goal with |- context [new_Decoder ?c] =>
         destruct (new_Decoder_spec c s) as (ps & s' & Hr & _) end);
      eexists _, s'; (split; [exact Hr|]); simpl;
      repeat split; intros Hty; try done; try congruence.
    + destruct Hty. rewrite Ht. apply list_elem_of_here.
    + destruct Hty. rewrite Ht. apply list_elem_of_here.
    + destruct Hty. rewrite Hc. apply list_elem_of_further, list_elem_of_here.
    + destruct Hty. rewrite Hc. apply list_elem_of_further, list_elem_of_here.
Qed.

(** C4: for every [opt] and target dictionary, [make_context] returns
    [None] exactly when [opt.context_type] is [None]; a [ModuleList] of
    exactly two [HierarchicalContext] modules when it is "HAN_join"; a single
    [HierarchicalContext] for every other context type; in all cases built
    with padding index [tgt_dict.stoi[PAD_WORD]] and token indices
    [[PAD, UNK, BOS, EOS]]. *)
Theorem make_context_cases (opt : Opt) (tgt_dict : Vocab) (s : Store) :
  let args :=
    mkHierarchicalContextArgs (opt_rnn_size opt) (opt_dropout opt)
      (context_type opt) (context_size opt) (stoi tgt_dict PAD_WORD)
      [stoi tgt_dict PAD_WORD; UNK; stoi tgt_dict BOS_WORD;
       stoi tgt_dict EOS_WORD] in
  exists c s',
    make_context opt tgt_dict s = Ok (c, s') /\
    (c = None <-> context_type opt = None) /\
    (context_type opt = Some "HAN_join" ->
       exists c0 c1, c = Some (ModuleList [c0; c1]) /\
                     hc_args c0 = args /\ hc_args c1 = args) /\
    (forall ct, context_type opt = Some ct -> ct <> "HAN_join" ->
       exists c0, c = Some (Single c0) /\ hc_args c0 = args).
Proof.
  intros args. unfold make_context. fold args.
  destruct (context_type opt) as [ct|] eqn:Ect.
  - destruct (new_HierarchicalContext_spec args s) as (ps0 & s0 & Hr0 & _).
    destruct (String.eqb_spec ct "HAN_join") as [->|Hne].
    + destruct (new_HierarchicalContext_spec args s0) as (ps1 & s1 & Hr1 & _).
      eexists _, s1. split.
      { rewrite (bind_run _ _ _ _ _ Hr0). rewrite (bind_run _ _ _ _ _ Hr1).
        reflexivity. }
      split; [done|]. split.
      * intros _. by eexists _, _.
      * intros ct' [= <-] Hct'. done.
    + eexists _, s0. split.
      { rewrite (bind_run _ _ _ _ _ Hr0). reflexivity. }
      split; [done|]. split.
      * intros [= ->]. done.
      * intros ct' _ _. by eexists.
  - exists None, s. split; [done|]. split; [done|]. split; [done|].
    intros ct Hct. done.
Qed.

(** C8: [make_base_model] fails with the assertion error whose message
    names the unsupported type exactly when [model_opt.model_type] is not one
    of "text", "img", "audio"; in a returned model the encoder is, for "text",
    the one [make_encoder] built over the source embeddings, for "img" an
    [ImageEncoder], for "audio" an [AudioEncoder]. *)
Theorem unsupported_model_type_assertion (model_opt : Opt)
    (fields : gmap string (Field Vocab)) (gpu : bool)
    (checkpoint : option Checkpoint) (train_part : string) (s : Store) :
  (make_base_model model_opt fields gpu checkpoint train_part s
   = Raise (AssertionError ("Unsupported model type " +:+ model_type model_opt))
   <-> model_type model_opt ∉ ["text"; "img"; "audio"]) /\
  (forall m s',
     make_base_model model_opt fields gpu checkpoint train_part s = Ok (m, s') ->
     (model_type model_opt = "text" ->
        exists src src_embeddings s0 s1,
          fields !! "src" = Some src /\
          make_embeddings model_opt (vocab src)
            (collect_feature_vocabs fields "src") true s
          = Ok (src_embeddings, s0) /\
          make_encoder model_opt src_embeddings s0 = Ok (encoder m, s1)) /\
     (model_type model_opt = "img" ->
        enc_class (encoder m)
        = ImageEncoder (enc_layers model_opt) (brnn model_opt)
            (opt_rnn_size model_opt) (opt_dropout model_opt)) /\
     (model_type model_opt = "audio" ->
        enc_class (encoder m)
        = AudioEncoder (enc_layers model_opt) (brnn model_opt)
            (opt_rnn_size model_opt) (opt_dropout model_opt)
            (opt_sample_rate model_opt) (opt_window_size model_opt))).
Proof.
  pose proof (build_modules_outcome model_opt fields gpu s) as Hout.
  split; [split|].
  - intros Hrun Hsup.
    rewrite bool_decide_eq_true_2 in Hout by done.
    apply make_base_model_Raise in Hrun as [Hb|[_ []]].
    destruct Hout as [(_ & k & Hk)|[(_ & _ & Hu)|[(_ & _ & _ & Ha)|((m & g & s' & Hok) & _)]]];
      rewrite Hb in *; done.
  - intros Hsup. rewrite bool_decide_eq_false_2 in Hout by done.
    by apply make_base_model_build_Raise.
  - intros m s' Hrun.
    apply make_base_model_inv in Hrun as (m0 & g & s1 & s2 & Hb & -> & _).
    apply build_modules_inv in Hb
      as (sd & se & tgt & sa & sb & sc & _ & Henc & _).
    apply build_encoder_inv in Henc as (_ & _ & _ & Hcases). simpl.
    destruct Hcases as [(Hty & src & emb & s0 & Hsrc & _ & _ & Hemb & Henc & _)
                       |[(Hty & _ & _ & Hcls)|(Hty & _ & _ & Hcls)]];
      rewrite Hty; (split; [|split]); intros Hty'; try done.
    by exists src, emb, s0, sa.
Qed.

(** C10: when [model_opt.share_embeddings] is set and the model type is
    "img" or "audio", [make_base_model] builds no model: it fails with an
    unbound local variable, [src_dict], which only the "text" branch assigns;
    so a call that shares embeddings and returns is a call for a text
    model. *)
Theorem share_embeddings_needs_text (model_opt : Opt)
    (fields : gmap string (Field Vocab)) (gpu : bool)
    (checkpoint : option Checkpoint) (train_part : string) (s : Store) :
  share_embeddings model_opt = true ->
  (model_type model_opt = "img" \/ model_type model_opt = "audio" ->
   (exists tgt, fields !! "tgt" = Some tgt) ->
   make_base_model model_opt fields gpu checkpoint train_part s
   = Raise (UnboundLocalError "src_dict")) /\
  (forall m s',
     make_base_model model_opt fields gpu checkpoint train_part s = Ok (m, s') ->
     model_type model_opt = "text").
Proof.
  intros Hshare.
  pose proof (build_modules_outcome model_opt fields gpu s) as Hout.
  split.
  - intros Hty [tgt Htgt].
    rewrite bool_decide_eq_true_2 in Hout.
    2:{ destruct Hty as [-> | ->];
          [apply list_elem_of_further, list_elem_of_here
          |apply list_elem_of_further, list_elem_of_further, list_elem_of_here]. }
    destruct Hout as [([Hn|[Ht _]] & _)|[(_ & _ & Hu)|[(_ & Ht & _)|(_ & Hsh)]]].
    + congruence.
    + destruct Hty; congruence.
    + by apply make_base_model_build_Raise.
    + destruct Hty; congruence.
    + destruct (Hsh Hshare) as [Ht _]. destruct Hty; congruence.
  - intros m s' Hrun.
    apply make_base_model_inv in Hrun as (m0 & g & s1 & s2 & Hb & _).
    case_bool_decide; [|congruence].
    destruct Hout as [(_ & k & Hk)|[(_ & _ & Hu)|[(_ & _ & _ & Ha)|(_ & Hsh)]]];
      try congruence.
    by destruct (Hsh Hshare).
Qed.

(** C3: when [model_opt.share_embeddings] is set and the model type is
    "text", [make_base_model] raises an [AssertionError] exactly when the
    source vocabulary differs from the target vocabulary; when they are equal
    the word-lookup weight of the target embeddings is the very object of the
    source embeddings' one, and the decoder is constructed over the target
    embeddings that already hold it. *)
Theorem share_embeddings_text (model_opt : Opt)
    (fields : gmap string (Field Vocab)) (gpu : bool)
    (checkpoint : option Checkpoint) (train_part : string) (s : Store)
    (src tgt : Field Vocab) :
  share_embeddings model_opt = true ->
  model_type model_opt = "text" ->
  fields !! "src" = Some src ->
  fields !! "tgt" = Some tgt ->
  let tied (m : NMTModel) :=
    exists src_embeddings tgt_embeddings s2 s3,
      enc_embeddings (encoder m) = Some src_embeddings /\
      word_lut_weight tgt_embeddings = word_lut_weight src_embeddings /\
      make_decoder model_opt tgt_embeddings s2 = Ok (decoder m, s3) /\
      dec_embeddings (decoder m) = tgt_embeddings in
  ((exists msg, make_base_model model_opt fields gpu checkpoint train_part s
                = Raise (AssertionError msg))
   <-> vocab src <> vocab tgt) /\
  (vocab src = vocab tgt ->
   exists m g s1, build_modules model_opt fields gpu s = Ok ((m, g), s1) /\
                  tied m) /\
  (forall m s',
     make_base_model model_opt fields gpu checkpoint train_part s = Ok (m, s') ->
     tied m).
Proof.
  intros Hshare Hty Hsrc Htgt tied.
  pose proof (build_modules_outcome model_opt fields gpu s) as Hout.
  rewrite bool_decide_eq_true_2 in Hout by (rewrite Hty; apply list_elem_of_here).
  assert (Htied : forall m g s1,
            build_modules model_opt fields gpu s = Ok ((m, g), s1) -> tied m).
  { intros m g s1 Hb.
    apply build_modules_inv in Hb
      as (sd & se & tgt' & sa & sb & sc & _ & Henc & _ & Hdec & _).
    pose proof (build_encoder_inv _ _ _ _ _ _ _ Henc) as (Hsa & _ & Hwemb & Hcases).
    destruct Hcases as [(_ & src' & emb & s0 & _ & _ & -> & _ & _ & Hemb)
                       |[(Hty' & _)|(Hty' & _)]]; try congruence.
    destruct (build_decoder_inv _ _ _ _ _ _ (next s) _ _ Hdec (proj1 Hsa) Hwemb)
      as (tgt'' & _ & _ & _ & _ & Hsh & _ & temb & s1' & Hmk & Hde).
    destruct (Hsh Hshare) as (emb' & _ & [= <-] & Hw).
    exists emb, temb, s1', sb. rewrite Hde in Hw. done. }
  split; [split|split].
  - intros [msg Hrun].
    apply make_base_model_Raise in Hrun as [Hb|[_ []]].
    destruct Hout as [(_ & k & Hk)|[(_ & _ & Hu)|[(_ & _ & Hne & _)|((m & g & s' & Hok) & _)]]];
      try congruence.
    destruct Hne as (src' & tgt' & Hsrc' & Htgt' & Hne). congruence.
  - intros Hne.
    destruct Hout as [([Hn|[_ Hn]] & _)|[(_ & Ht & _)|[(_ & _ & _ & Ha)|(_ & Hsh)]]];
      try congruence.
    + exists share_vocab_message. by apply make_base_model_build_Raise.
    + destruct (Hsh Hshare) as (_ & src' & tgt' & Hsrc' & Htgt' & Heq). congruence.
  - intros Heq.
    destruct Hout as [([Hn|[_ Hn]] & _)|[(_ & Ht & _)|[(_ & _ & Hne & _)|((m & g & s1 & Hok) & _)]]];
      try congruence.
    + destruct Hne as (src' & tgt' & Hsrc' & Htgt' & Hne). congruence.
    + exists m, g, s1. split; [done|]. by eapply Htied.
  - intros m s' Hrun.
    apply make_base_model_inv in Hrun as (m0 & g & s1 & s2 & Hb & -> & _).
    by eapply (Htied m0).
Qed.

Lemma decoder_word_lut_named (d : Decoder) :
  word_lut_weight (dec_embeddings d) ∈ (Decoder_named d).*2.
Proof.
  unfold Decoder_named. rewrite fmap_app, prefixed_locs. apply elem_of_app.
  left. unfold Embeddings_named. simpl. apply list_elem_of_here.
Qed.

(** C6: in [make_base_model] the weight of the generator's linear layer is
    the very object of the decoder embeddings' word-lookup weight exactly
    when [model_opt.share_decoder_embeddings] is set and [model_opt.copy_attn]
    is not; with [copy_attn] the generator is a [CopyGenerator] over the
    target vocabulary and nothing is tied; otherwise it is a [Linear] layer
    from [rnn_size] to the size of the target vocabulary followed by
    [LogSoftmax]. *)
Theorem generator_weight_tying (model_opt : Opt)
    (fields : gmap string (Field Vocab)) (gpu : bool)
    (checkpoint : option Checkpoint) (train_part : string) (m : NMTModel)
    (s s' : Store) :
  make_base_model model_opt fields gpu checkpoint train_part s = Ok (m, s') ->
  exists g tgt,
    generator m = Some g /\ fields !! "tgt" = Some tgt /\
    (word_lut_weight (dec_embeddings (decoder m)) ∈ (Generator_named g).*2
     <-> share_decoder_embeddings model_opt = true /\
         opt_copy_attn model_opt = false) /\
    (opt_copy_attn model_opt = true ->
       exists ps, g = CopyGenerator (opt_rnn_size model_opt) (vocab tgt) ps) /\
    (opt_copy_attn model_opt = false ->
       exists lin, g = LinearLogSoftmax lin 1 /\
                   in_features lin = opt_rnn_size model_opt /\
                   out_features lin = vocab_len (vocab tgt) /\
                   (weight lin = word_lut_weight (dec_embeddings (decoder m))
                    <-> share_decoder_embeddings model_opt = true)).
Proof.
  intros Hrun.
  apply make_base_model_inv in Hrun as (m0 & g & s1 & s2 & Hb & -> & _).
  apply build_modules_inv in Hb
    as (sd & se & tgt & sa & sb & sc & _ & _ & Htgt & _ & _ & _ & Hg &
        _ & _ & Hbc & _ & _ & Hwd & _).
  apply build_generator_inv in Hg as (tgt' & Htgt' & Hcd & Hcopy & Hlin).
  assert (tgt' = tgt) as -> by congruence.
  pose proof (Hwd _ (decoder_word_lut_named (decoder m0))) as Hw.
  destruct Hbc as (Hle & _).
  exists g, tgt. simpl. split; [done|]. split; [done|].
  destruct (opt_copy_attn model_opt).
  - destruct (Hcopy eq_refl) as (ps & -> & Hps).
    split; [|split; [by exists ps | done]].
    split; [|by intros [_ ?]].
    intros Hin. apply Hps in Hin. lia.
  - destruct (Hlin eq_refl) as (lin & -> & Hi & Ho & Hbias & Hn & Hweight).
    assert (Htie : weight lin = word_lut_weight (dec_embeddings (decoder m0))
                   <-> share_decoder_embeddings model_opt = true).
    { destruct (share_decoder_embeddings model_opt); [done|].
      split; [|done]. intros Heq. rewrite Hweight in Heq. lia. }
    split; [|split; [done | by exists lin]].
    simpl. rewrite !elem_of_cons, elem_of_nil. split.
    + intros [Heq|[Heq|[]]].
      * split; [by apply Htie | done].
      * rewrite Hbias in Heq. lia.
    + intros [Hsh _]. left. symmetry. by apply Htie.
Qed.

(** ** Loading under [train_part = "context"] *)

Lemma prefixed_elem (p k : string) (l : loc) (ps : params) :
  (k, l) ∈ prefixed p ps -> exists k', k = p +:+ "." +:+ k' /\ (k', l) ∈ ps.
Proof.
  unfold prefixed. intros Hin. apply list_elem_of_fmap in Hin as ([k' l'] & Heq & Hin).
  simpl in Heq. injection Heq as -> ->. by exists k'.
Qed.

Lemma named_loc (k : string) (l : loc) (ps : params) : (k, l) ∈ ps -> l ∈ ps.*2.
Proof. intros Hin. apply list_elem_of_fmap. by exists (k, l). Qed.

Lemma state_dict_elem (k : string) (l : loc) (named : params) :
  dict_get k (state_dict named) = Some (DataOf l) -> (k, l) ∈ named.
Proof.
  unfold state_dict. intros Hg. apply dict_of_items_elem_inv in Hg.
  apply list_elem_of_fmap in Hg as ([k' l'] & Heq & Hin). simpl in Heq.
  by injection Heq as -> ->.
Qed.

Lemma state_dict_values (k : string) (v : tref) (named : params) :
  dict_get k (state_dict named) = Some v -> exists l, v = DataOf l.
Proof.
  unfold state_dict. intros Hg. apply dict_of_items_elem_inv in Hg.
  apply list_elem_of_fmap in Hg as ([k' l'] & Heq & Hin). simpl in Heq.
  injection Heq as -> ->. by exists l'.
Qed.

(** The names under which a model built by [build_modules] holds the
    parameters of its context all contain "doc_context". *)
Lemma context_parameter_names (model_opt : Opt)
    (fields : gmap string (Field Vocab)) (gpu : bool) (m : NMTModel)
    (g : Generator) (context : Context) (k : string) (l : loc) (s s1 : Store) :
  build_modules model_opt fields gpu s = Ok ((m, g), s1) ->
  doc_context m = Some context ->
  l ∈ (Context_named context).*2 ->
  (k, l) ∈ NMTModel_named m ->
  str_contains "doc_context" k = true.
Proof.
  intros Hb Hctx Hl Hk.
  apply build_modules_inv in Hb
    as (sd & se & tgt & sa & sb & sc & _ & _ & _ & _ & _ & Hgen & _ &
        _ & _ & _ & _ & Hwe & Hwd & Hwc & _).
  specialize (Hwc context Hctx l Hl).
  unfold NMTModel_named in Hk. rewrite Hctx, Hgen, app_nil_r in Hk.
  apply elem_of_app in Hk as [Hk|Hk]; [|apply elem_of_app in Hk as [Hk|Hk]].
  - apply prefixed_elem in Hk as (k' & _ & Hk). apply named_loc, Hwe in Hk. lia.
  - apply prefixed_elem in Hk as (k' & _ & Hk). apply named_loc, Hwd in Hk. lia.
  - apply prefixed_elem in Hk as (k' & -> & _). apply str_contains_app.
Qed.


Lemma for_each_invariant {A} (I : Store -> Prop) (xs : list A)
    (body : A -> M unit) (s : Store) :
  I s ->
  (forall x s0, x ∈ xs -> I s0 -> exists s1, body x s0 = Ok (tt, s1) /\ I s1) ->
  exists s', for_each xs body s = Ok (tt, s') /\ I s'.
Proof.
  revert s. induction xs as [|x xs IH]; intros s Hs Hbody.
  - by exists s.
  - destruct (Hbody x s) as (s1 & Hx & Hs1); [apply list_elem_of_here | done |].
    destruct (IH s1 Hs1) as (s2 & Hxs & Hs2).
    { intros y s0 Hy. apply Hbody. by apply list_elem_of_further. }
    exists s2. split; [|done]. simpl. by rewrite (bind_run _ _ _ _ _ Hx).
Qed.

(** [copy_] writes one parameter, and nothing when a parameter is copied
    into itself. *)
Lemma copy_frame (l l0 : loc) (src : tref) (s : Store) :
  (l0 = l -> src = DataOf l) ->
  exists s', copy_ l src s = Ok (tt, s') /\ cells s' !! l0 = cells s !! l0.
Proof.
  intros Hself. destruct (decide (l0 = l)) as [->|Hne].
  - rewrite (Hself eq_refl). unfold copy_.
    destruct (cells s !! l) as [p|] eqn:Hp; [|by exists s].
    eexists. split; [reflexivity|]. simpl.
    rewrite lookup_alter_eq, Hp. by destruct p.
  - unfold copy_. destruct src as [l'|t].
    + destruct (cells s !! l') as [p|]; [|by exists s].
      eexists. split; [reflexivity|]. simpl. by apply lookup_alter_ne.
    + eexists. split; [reflexivity|]. simpl. by apply lookup_alter_ne.
Qed.

(** Loading leaves alone every parameter whose entries in the loaded
    dictionary are its own live data. *)
Lemma load_state_dict_frame (named : params) (sd : dict tref) (l0 : loc)
    (s : Store) :
  (forall k src, (k, src) ∈ sd ->
                 dict_get k (state_dict named) = Some (DataOf l0) ->
                 src = DataOf l0) ->
  exists s', load_state_dict named sd false s = Ok (tt, s') /\
             cells s' !! l0 = cells s !! l0.
Proof.
  intros Hown. unfold load_state_dict.
  match goal with |- context [for_each _ ?b] => set (body := b) end.
  destruct (for_each_invariant (fun s0 => cells s0 !! l0 = cells s !! l0)
              sd body s) as (s' & Hrun & Hs'); [done| |].
  - intros [k src] s0 Hin Hs0. unfold body. simpl.
    destruct (dict_get k (state_dict named)) as [[l|t]|] eqn:Hk;
      [|by exists s0..].
    destruct (copy_frame l l0 src s0) as (s1 & Hc & Hs1).
    { intros ->. by eapply Hown. }
    exists s1. split; [done | congruence].
  - exists s'. split; [|done]. by rewrite (bind_run _ _ _ _ _ Hrun).
Qed.

Lemma for_each_Ok_invariant {A} (I : Store -> Prop) (xs : list A)
    (body : A -> M unit) (s s' : Store) :
  for_each xs body s = Ok (tt, s') ->
  I s ->
  (forall x s0 s1, x ∈ xs -> I s0 -> body x s0 = Ok (tt, s1) -> I s1) ->
  I s'.
Proof.
  revert s. induction xs as [|x xs IH]; intros s Hrun Hs Hbody.
  - by injection Hrun as <-.
  - simpl in Hrun. inv_bind Hrun. destruct a.
    apply (IH s0); [done| |].
    + eapply Hbody; [apply list_elem_of_here | exact Hs | done].
    + intros y sa sb Hy. apply Hbody. by apply list_elem_of_further.
Qed.

(** Loading into a module, strictly or not, leaves alone a parameter that is
    not one of the module's. *)
Lemma load_state_dict_other (named : params) (sd : dict tref) (strict : bool)
    (l0 : loc) (s s' : Store) :
  l0 ∉ named.*2 ->
  load_state_dict named sd strict s = Ok (tt, s') ->
  cells s' !! l0 = cells s !! l0.
Proof.
  intros Hl0 Hrun. unfold load_state_dict in Hrun.
  inv_bind Hrun. destruct a.
  assert (s' = s0) as ->.
  { destruct (strict && _); [done | by injection Hrun as <-]. }
  revert Hrun0. match goal with |- for_each _ ?b _ = _ -> _ => set (body := b) end.
  intros Hloop.
  apply (for_each_Ok_invariant (fun sx => cells sx !! l0 = cells s !! l0)
           sd body s s0 Hloop); [done|].
  intros [k src] sa sb _ Hsa. unfold body. simpl.
  destruct (dict_get k (state_dict named)) as [[l|t]|] eqn:Hk.
  - intros Hc. destruct (copy_frame l l0 src sa) as (sb' & Hc' & Hframe).
    { intros ->. destruct Hl0. eapply named_loc, state_dict_elem, Hk. }
    rewrite Hc in Hc'. injection Hc' as <-. congruence.
  - by intros [= <-].
  - destruct strict; [done | by intros [= <-]].
Qed.

(** The generator of a built model holds no parameter of the context. *)
Lemma generator_not_context (model_opt : Opt)
    (fields : gmap string (Field Vocab)) (gpu : bool) (m : NMTModel)
    (g : Generator) (context : Context) (l : loc) (s s1 : Store) :
  build_modules model_opt fields gpu s = Ok ((m, g), s1) ->
  doc_context m = Some context ->
  l ∈ (Context_named context).*2 ->
  l ∉ (Generator_named g).*2.
Proof.
  intros Hb Hctx Hl Hin.
  apply build_modules_inv in Hb
    as (sd & se & tgt & sa & sb & sc & _ & _ & _ & _ & _ & _ & Hg &
        _ & _ & _ & _ & _ & Hwd & Hwc & _).
  specialize (Hwc context Hctx l Hl).
  pose proof (Hwd _ (decoder_word_lut_named (decoder m))) as Hw.
  apply build_generator_inv in Hg as (tgt' & _ & _ & Hcopy & Hlin).
  destruct (opt_copy_attn model_opt).
  - destruct (Hcopy eq_refl) as (ps & -> & Hps). apply Hps in Hin. lia.
  - destruct (Hlin eq_refl) as (lin & -> & _ & _ & Hbias & _ & Hweight).
    simpl in Hin. rewrite !elem_of_cons, elem_of_nil in Hin.
    destruct Hin as [->|[->|[]]]; [|lia].
    rewrite Hweight in Hwc. destruct (share_decoder_embeddings model_opt); lia.
Qed.


Lemma filter_pretrained_get (model_dict : dict tref) (items : dict tensor)
    (k : string) (v : tensor) :
  NoDup (dict_keys items) ->
  dict_get k items = Some v ->
  dict_has k model_dict = true ->
  str_contains "doc_context" k = false ->
  dict_get k (filter_pretrained model_dict items) = Some (Value v).
Proof.
  intros Hnd Hg Hhas Hdoc. unfold filter_pretrained, dict_of_items.
  apply dict_get_update_elem.
  - unfold dict_keys. rewrite <- list_fmap_compose.
    eapply sublist_NoDup; [exact Hnd|].
    unfold dict_keys. apply (fmap_sublist fst). apply sublist_filter.
  - apply list_elem_of_fmap. exists (k, v). split; [done|].
    apply list_elem_of_filter. split; [|by apply dict_get_Some_elem].
    simpl. by rewrite Hhas, Hdoc.
Qed.

(** ** The renaming of lines 249-255 *)

Lemma remap_pretrained_NoDup (model_dict : dict tref) (items : dict tensor) :
  NoDup (dict_keys (remap_pretrained model_dict items)).
Proof.
  unfold remap_pretrained.
  assert (Hgen : forall acc, NoDup (dict_keys acc) ->
            NoDup (dict_keys
              (fold_left
                 (fun pretrained_dict kv =>
                    if dict_has kv.1 model_dict then
                      let k :=
                        if str_contains "doc_context" kv.1
                        then str_replace "doc_context" "doc_context.0" kv.1
                        else kv.1 in
                      dict_set k (Value kv.2) pretrained_dict
                    else pretrained_dict) items acc))).
  { induction items as [|[k0 v] items IH]; intros acc Hacc; [done|].
    simpl. apply IH. destruct (dict_has k0 model_dict); [|done].
    by apply dict_set_NoDup. }
  apply Hgen, NoDup_nil_2.
Qed.

(** An entry of the renamed dictionary comes from a checkpoint entry whose
    own key, before renaming, is a key of the model. *)
Lemma remap_pretrained_entry (model_dict : dict tref) (items : dict tensor)
    (k : string) (x : tref) :
  dict_get k (remap_pretrained model_dict items) = Some x ->
  exists k0 v,
    (k0, v) ∈ items /\ dict_has k0 model_dict = true /\ x = Value v /\
    k = if str_contains "doc_context" k0
        then str_replace "doc_context" "doc_context.0" k0 else k0.
Proof.
  unfold remap_pretrained.
  assert (Hgen : forall acc,
            dict_get k
              (fold_left
                 (fun pretrained_dict kv =>
                    if dict_has kv.1 model_dict then
                      let k :=
                        if str_contains "doc_context" kv.1
                        then str_replace "doc_context" "doc_context.0" kv.1
                        else kv.1 in
                      dict_set k (Value kv.2) pretrained_dict
                    else pretrained_dict) items acc) = Some x ->
            dict_get k acc = Some x \/
            exists k0 v,
              (k0, v) ∈ items /\ dict_has k0 model_dict = true /\
              x = Value v /\
              k = if str_contains "doc_context" k0
                  then str_replace "doc_context" "doc_context.0" k0 else k0).
  { induction items as [|[k0 v] items IH]; intros acc Hg; [by left|].
    simpl in Hg. apply IH in Hg as [Hg|(k1 & v1 & Hin & Hrest)].
    - destruct (dict_has k0 model_dict) eqn:Hhas; [|by left].
      rewrite dict_get_set in Hg.
      match type of Hg with context [String.eqb ?a k] =>
        destruct (String.eqb_spec a k) as [Heq|_] end; [|by left].
      right. exists k0, v. split; [apply list_elem_of_here|].
      split; [done|]. split; [congruence | done].
    - right. exists k1, v1. split; [by apply list_elem_of_further | done]. }
  intros Hg. by apply Hgen in Hg as [?|?].
Qed.

(** With "join" in the context type, an entry of the dictionary handed to
    [load_state_dict] is the model's own, or a checkpoint tensor whose key
    in the checkpoint is already a key of the model. *)
Lemma join_model_dict_entry (model_opt : Opt) (m : NMTModel)
    (checkpoint : Checkpoint) (ct : string) :
  context_type model_opt = Some ct ->
  str_contains "join" ct = true ->
  exists model_dict,
    checkpoint_model_dict model_opt m checkpoint "context" = Ok model_dict /\
    forall k x,
      dict_get k model_dict = Some x ->
      dict_get k (state_dict (NMTModel_named m)) = Some x \/
      exists k0 v,
        (k0, v) ∈ ck_model checkpoint /\
        dict_has k0 (state_dict (NMTModel_named m)) = true /\
        x = Value v /\
        k = if str_contains "doc_context" k0
            then str_replace "doc_context" "doc_context.0" k0 else k0.
Proof.
  intros Hct Hjoin. eexists. split.
  { unfold checkpoint_model_dict. simpl. rewrite Hct, Hjoin. reflexivity. }
  intros k x Hg. apply dict_update_elem_inv in Hg as [Hin|Hg]; [|by left].
  right. apply remap_pretrained_entry.
  apply dict_get_elem; [apply remap_pretrained_NoDup | done].
Qed.

(** Without a context type, [train_part = "context"] stops at the test of
    line 249. *)
Lemma no_context_type_TypeError (model_opt : Opt) (m : NMTModel)
    (checkpoint : Checkpoint) :
  context_type model_opt = None ->
  checkpoint_model_dict model_opt m checkpoint "context"
  = Raise (TypeError "argument of type 'NoneType' is not iterable").
Proof. intros Hct. unfold checkpoint_model_dict. simpl. by rewrite Hct. Qed.

(** ** What the freezing loops leave as it was *)

(** Every parameter of a built model and of its generator was made by the
    call. *)
Lemma build_modules_within (model_opt : Opt)
    (fields : gmap string (Field Vocab)) (gpu : bool) (m : NMTModel)
    (g : Generator) (s s1 : Store) :
  build_modules model_opt fields gpu s = Ok ((m, g), s1) ->
  within (next s) (next s1) (NMTModel_named (set_generator g m)).
Proof.
  intros Hb.
  apply build_modules_inv in Hb
    as (sd & se & tgt & sa & sb & sc & _ & _ & _ & _ & _ & _ & Hg &
        (Hsa & _) & (Hab & _) & (Hbc & _) & (Hc1 & _) & Hwe & Hwd & Hwc & _).
  pose proof (Hwd _ (decoder_word_lut_named (decoder m))) as Hw.
  apply build_generator_inv in Hg as (tgt' & _ & _ & Hcopy & Hlin).
  unfold NMTModel_named, set_generator.
  cbn [encoder decoder doc_context generator].
  apply within_app. split.
  { apply within_prefixed. eapply within_weaken; [| |exact Hwe]; lia. }
  apply within_app. split.
  { apply within_prefixed. eapply within_weaken; [| |exact Hwd]; lia. }
  apply within_app. split.
  { destruct (doc_context m) as [context|]; [|apply within_nil].
    apply within_prefixed. eapply within_weaken; [| |exact (Hwc _ eq_refl)]; lia. }
  apply within_prefixed.
  destruct (opt_copy_attn model_opt).
  - destruct (Hcopy eq_refl) as (ps & -> & Hps). simpl.
    eapply within_weaken; [| |exact Hps]; lia.
  - destruct (Hlin eq_refl) as (lin & -> & _ & _ & Hbias & Hn & Hweight). simpl.
    apply within_cons. split.
    + rewrite Hweight. destruct (share_decoder_embeddings model_opt); lia.
    + apply within_cons. split; [lia | apply within_nil].
Qed.

(** With a checkpoint, whatever [train_part] is, every parameter of the
    returned model, generator included, still has [requires_grad] set: the
    loops of lines 264-270 assign another attribute, [require_grad]. *)
Lemma requires_grad_after_checkpoint (model_opt : Opt)
    (fields : gmap string (Field Vocab)) (gpu : bool) (checkpoint : Checkpoint)
    (train_part : string) (m : NMTModel) (l : loc) (s s' : Store) :
  make_base_model model_opt fields gpu (Some checkpoint) train_part s
  = Ok (m, s') ->
  l ∈ (NMTModel_named m).*2 ->
  requires_grad <$> cells s' !! l = Some true.
Proof.
  intros Hrun Hl.
  apply make_base_model_inv in Hrun as (m0 & g & s1 & s2 & Hb & -> & Hload & Hp3).
  pose proof (build_modules_within _ _ _ _ _ _ _ Hb l Hl) as Hrange.
  pose proof (build_modules_allocates _ _ _ _ _ _ _ Hb) as (_ & _ & _ & Hnew).
  destruct (Hnew l Hrange) as (nd & Hcell).
  destruct (load_checkpoint_spec model_opt m0 g checkpoint train_part s1)
    as [(e & Hl' & _)|(s2' & Hl' & Hp2)]; [congruence|].
  rewrite Hload in Hl'. injection Hl' as <-.
  assert (Hr12 : rewrites s1 s2).
  { destruct (String.eqb train_part "context");
      [destruct Hp2 as (? & _ & Hp2)|]; apply Hp2. }
  rewrite (rewrites_requires_grad s2 s' l (proj1 Hp3)).
  rewrite (rewrites_requires_grad s1 s2 l Hr12).
  transitivity (requires_grad <$> Some (mkParam (Initial l) true nd []));
    [f_equal; exact Hcell | done].
Qed.

End Claims.

(** * Further properties of the file *)

(** ** Membership among the parameters a loop visits *)

Lemma distinct_elem (seen ls : list loc) (l : loc) :
  l ∈ distinct seen ls <-> l ∈ ls /\ l ∉ seen.
Proof.
  revert seen. induction ls as [|x ls IH]; intros seen; simpl.
  - rewrite elem_of_nil. tauto.
  - case_bool_decide as Hx.
    + rewrite IH, elem_of_cons. split; [tauto|].
      intros [[->|Hin] Hseen]; [done | tauto].
    + rewrite !elem_of_cons, IH, not_elem_of_cons. split.
      * intros [->|(Hin & Hne & Hseen)]; tauto.
      * intros [[->|Hin] Hseen]; [by left|].
        destruct (decide (l = x)) as [->|Hne]; [by left | right; tauto].
Qed.

Lemma distinct_NoDup (seen ls : list loc) : NoDup (distinct seen ls).
Proof.
  revert seen. induction ls as [|x ls IH]; intros seen; simpl.
  - apply NoDup_nil_2.
  - case_bool_decide as Hx; [apply IH|].
    apply NoDup_cons. split; [|apply IH].
    rewrite distinct_elem, not_elem_of_cons. tauto.
Qed.

Lemma parameters_elem (named : params) (l : loc) :
  l ∈ parameters named <-> l ∈ named.*2.
Proof.
  unfold parameters. rewrite distinct_elem, elem_of_nil. tauto.
Qed.

Lemma parameters_NoDup (named : params) : NoDup (parameters named).
Proof. apply distinct_NoDup. Qed.

Lemma distinct_NoDup_id (seen ls : list loc) :
  NoDup ls -> (forall l, l ∈ ls -> l ∉ seen) -> distinct seen ls = ls.
Proof.
  revert seen. induction ls as [|x ls IH]; intros seen Hnd Hseen; [done|].
  apply NoDup_cons in Hnd as [Hx Hnd]. simpl.
  rewrite bool_decide_eq_false_2 by (apply Hseen; apply list_elem_of_here).
  f_equal. apply IH; [done|]. intros l Hl. rewrite not_elem_of_cons. split.
  - by intros ->.
  - apply Hseen. by apply list_elem_of_further.
Qed.

(** A module whose parameters are pairwise distinct objects yields them in
    the order of their names. *)
Lemma parameters_NoDup_id (named : params) :
  NoDup named.*2 -> parameters named = named.*2.
Proof.
  intros Hnd. apply distinct_NoDup_id; [done|]. intros l _. apply not_elem_of_nil.
Qed.

(** ** What a loop over parameters does to the store *)

Lemma rewrites_is_Some (s s' : Store) (l : loc) :
  rewrites s s' -> is_Some (cells s !! l) -> is_Some (cells s' !! l).
Proof.
  intros [_ Hm] [p Hp]. specialize (Hm l). rewrite Hp in Hm.
  destruct (cells s' !! l); [by eexists | done].
Qed.

Lemma applies_ext (f : Param -> Param) (ls ls' : list loc) (s s' : Store) :
  (forall l, l ∈ ls <-> l ∈ ls') -> applies f ls s s' -> applies f ls' s s'.
Proof.
  intros Heq Happ l. rewrite (Happ l).
  by rewrite (bool_decide_ext _ _ (Heq l)).
Qed.

Lemma applies_other (f : Param -> Param) (ls : list loc) (s s' : Store)
    (l : loc) :
  applies f ls s s' -> l ∉ ls -> cells s' !! l = cells s !! l.
Proof. intros Happ Hl. rewrite (Happ l). by rewrite bool_decide_eq_false_2. Qed.

Lemma applies_elem (f : Param -> Param) (ls : list loc) (s s' : Store)
    (l : loc) :
  applies f ls s s' -> l ∈ ls -> cells s' !! l = f <$> cells s !! l.
Proof. intros Happ Hl. rewrite (Happ l). by rewrite bool_decide_eq_true_2. Qed.

Lemma applies_nil (f : Param -> Param) (s s' : Store) :
  cells s' = cells s -> applies f [] s s'.
Proof. intros Hc l. rewrite Hc. by rewrite bool_decide_eq_false_2 by apply not_elem_of_nil. Qed.

Lemma update_applies (l : loc) (f : Param -> Param) (s : Store) :
  exists s', update l f s = Ok (tt, s') /\ applies f [l] s s'.
Proof.
  eexists. split; [reflexivity|]. intros l0. simpl. rewrite lookup_alter.
  case_decide as Hl.
  - subst l0. by rewrite bool_decide_eq_true_2 by apply list_elem_of_here.
  - rewrite bool_decide_eq_false_2; [done|].
    rewrite list_elem_of_singleton. congruence.
Qed.

(** A loop whose body rewrites the parameter it visits, over parameters
    that are pairwise distinct. *)
Lemma for_each_applies (f : Param -> Param) (xs : list loc)
    (body : loc -> M unit) (s : Store) :
  (forall l s0, exists s1, body l s0 = Ok (tt, s1) /\ applies f [l] s0 s1) ->
  NoDup xs ->
  exists s', for_each xs body s = Ok (tt, s') /\ applies f xs s s'.
Proof.
  intros Hbody. revert s. induction xs as [|x xs IH]; intros s Hnd.
  - exists s. split; [done|]. by apply applies_nil.
  - apply NoDup_cons in Hnd as [Hx Hnd].
    destruct (Hbody x s) as (s1 & Hrun & H1).
    destruct (IH s1 Hnd) as (s2 & Hloop & H2).
    exists s2. split; [simpl; by rewrite (bind_run _ _ _ _ _ Hrun)|].
    intros l. rewrite (H2 l), (H1 l).
    destruct (decide (l = x)) as [->|Hne].
    + rewrite (bool_decide_eq_false_2 (x ∈ xs)) by done.
      rewrite (bool_decide_eq_true_2 (x ∈ [x])) by apply list_elem_of_here.
      by rewrite (bool_decide_eq_true_2 (x ∈ x :: xs)) by apply list_elem_of_here.
    + rewrite (bool_decide_eq_false_2 (l ∈ [x]))
        by (rewrite list_elem_of_singleton; done).
      apply (f_equal (fun b : bool => if b then _ else _)).
      apply bool_decide_ext. rewrite elem_of_cons. tauto.
Qed.

(** The loop [for p in module.parameters()]. *)
Lemma parameters_loop_applies (f : Param -> Param) (named : params)
    (body : loc -> M unit) (s : Store) :
  (forall l s0, exists s1, body l s0 = Ok (tt, s1) /\ applies f [l] s0 s1) ->
  exists s', for_each (parameters named) body s = Ok (tt, s') /\
             applies f named.*2 s s'.
Proof.
  intros Hbody.
  destruct (for_each_applies f (parameters named) body s Hbody
              (parameters_NoDup named)) as (s' & Hrun & Happ).
  exists s'. split; [done|].
  eapply applies_ext; [|exact Happ]. apply parameters_elem.
Qed.

Lemma emit_cells (e : event) (s s' : Store) (u : unit) :
  emit e s = Ok (u, s') -> cells s' = cells s.
Proof. by intros [= <- <-]. Qed.

Lemma uniform_applies (l : loc) (lo hi : float) (s : Store) :
  exists s', uniform_ l lo hi s = Ok (tt, s') /\
             applies (set_data (Uniform lo hi)) [l] s s'.
Proof.
  destruct (update_applies l (set_data (Uniform lo hi)) s) as (s1 & Hu & H1).
  eexists. split.
  - unfold uniform_. rewrite (bind_run _ _ _ _ _ Hu). reflexivity.
  - exact H1.
Qed.

Lemma xavier_applies (l : loc) (s : Store) :
  exists s',
    (d ← dim l; if (1 <? d)%nat then xavier_uniform l else mret tt) s
    = Ok (tt, s') /\
    applies (fun p => if (1 <? ndim p)%nat then set_data Xavier p else p) [l]
      s s'.
Proof.
  rewrite (bind_run _ _ _ _ _ (dim_run l s)). unfold ndim_of.
  destruct (cells s !! l) as [p|] eqn:Hp.
  - destruct (1 <? ndim p)%nat eqn:Hd.
    + destruct (update_applies l (set_data Xavier) s) as (s1 & Hu & H1).
      eexists. split.
      * unfold xavier_uniform. rewrite (bind_run _ _ _ _ _ Hu). reflexivity.
      * intros l0. simpl. rewrite (H1 l0). case_bool_decide as Hl0; [|done].
        apply list_elem_of_singleton in Hl0 as ->. rewrite Hp. simpl.
        by rewrite Hd.
    + exists s. split; [done|]. intros l0. case_bool_decide as Hl0; [|done].
      apply list_elem_of_singleton in Hl0 as ->. rewrite Hp. simpl.
      by rewrite Hd.
  - exists s. split; [done|]. intros l0. case_bool_decide as Hl0; [|done].
    apply list_elem_of_singleton in Hl0 as ->. by rewrite Hp.
Qed.

Lemma applies_refl (ls : list loc) (s s' : Store) :
  cells s' = cells s -> applies (fun p => p) ls s s'.
Proof.
  intros Hc l. rewrite Hc. destruct (bool_decide (l ∈ ls)); [|done].
  by destruct (cells s !! l).
Qed.

Lemma applies_fext (f g : Param -> Param) (ls : list loc) (s s' : Store) :
  (forall p, f p = g p) -> applies f ls s s' -> applies g ls s s'.
Proof.
  intros Hfg Happ l. rewrite (Happ l). destruct (bool_decide (l ∈ ls)); [|done].
  destruct (cells s !! l); simpl; [by rewrite Hfg | done].
Qed.

Lemma applies_cells (f : Param -> Param) (ls : list loc) (s s1 s2 : Store) :
  applies f ls s s1 -> cells s2 = cells s1 -> applies f ls s s2.
Proof. intros Happ Hc l. rewrite Hc. apply Happ. Qed.

Lemma applies_compose (f g : Param -> Param) (ls : list loc)
    (s s1 s2 : Store) :
  applies f ls s s1 -> applies g ls s1 s2 ->
  applies (fun p => g (f p)) ls s s2.
Proof.
  intros H1 H2 l. rewrite (H2 l), (H1 l).
  destruct (bool_decide (l ∈ ls)); [|done]. by destruct (cells s !! l).
Qed.

(** The same idempotent rewriting over one list, then over another. *)
Lemma applies_app (f : Param -> Param) (ls ls' : list loc) (s s1 s2 : Store) :
  (forall p, f (f p) = f p) ->
  applies f ls s s1 -> applies f ls' s1 s2 -> applies f (ls ++ ls') s s2.
Proof.
  intros Hf H1 H2 l. rewrite (H2 l), (H1 l).
  destruct (decide (l ∈ ls)) as [Hl|Hl];
    destruct (decide (l ∈ ls')) as [Hl'|Hl'].
  - rewrite (bool_decide_eq_true_2 (l ∈ ls)) by done.
    rewrite (bool_decide_eq_true_2 (l ∈ ls')) by done.
    rewrite (bool_decide_eq_true_2 (l ∈ ls ++ ls'))
      by (apply elem_of_app; tauto).
    destruct (cells s !! l); simpl; [by rewrite Hf | done].
  - rewrite (bool_decide_eq_true_2 (l ∈ ls)) by done.
    rewrite (bool_decide_eq_false_2 (l ∈ ls')) by done.
    by rewrite (bool_decide_eq_true_2 (l ∈ ls ++ ls'))
      by (apply elem_of_app; tauto).
  - rewrite (bool_decide_eq_false_2 (l ∈ ls)) by done.
    rewrite (bool_decide_eq_true_2 (l ∈ ls')) by done.
    by rewrite (bool_decide_eq_true_2 (l ∈ ls ++ ls'))
      by (apply elem_of_app; tauto).
  - rewrite (bool_decide_eq_false_2 (l ∈ ls)) by done.
    rewrite (bool_decide_eq_false_2 (l ∈ ls')) by done.
    by rewrite (bool_decide_eq_false_2 (l ∈ ls ++ ls'))
      by (rewrite elem_of_app; tauto).
Qed.

Section Cells.
Context `{Collaborators}.

(** The parameters of the context are parameters of the model. *)
Lemma context_parameters_named (m : NMTModel) (context : Context) (l : loc) :
  doc_context m = Some context ->
  l ∈ (Context_named context).*2 -> l ∈ (NMTModel_named m).*2.
Proof.
  intros Hctx Hl. unfold NMTModel_named. rewrite Hctx.
  rewrite !fmap_app, !elem_of_app, !prefixed_locs. tauto.
Qed.

(** The parameters of the returned model: those of the built one, and those
    of the generator. *)
Lemma set_generator_named (g : Generator) (m : NMTModel) (l : loc) :
  generator m = None ->
  l ∈ (NMTModel_named (set_generator g m)).*2
  <-> l ∈ (NMTModel_named m).*2 \/ l ∈ (Generator_named g).*2.
Proof.
  intros Hg. unfold NMTModel_named, set_generator.
  cbn [encoder decoder doc_context generator]. rewrite Hg.
  rewrite !fmap_app, !elem_of_app, !prefixed_locs. simpl.
  rewrite elem_of_nil. tauto.
Qed.

(** Lines 264-275 on the store: [require_grad = False] on every parameter of
    the model, then of the generator; then each parameter of the context
    takes [require_grad = True] and is re-initialised. *)
Lemma freeze_main_unfreeze_context_applies (model_opt : Opt) (model : NMTModel)
    (generator : Generator) (context : Context) (s : Store) :
  doc_context model = Some context ->
  exists s1 s2 s',
    freeze_main_unfreeze_context model_opt model generator s = Ok (tt, s') /\
    applies (set_attr "require_grad" false) (NMTModel_named model).*2 s s1 /\
    applies (set_attr "require_grad" false)
      (Generator_named generator).*2 s1 s2 /\
    applies (fun p => initialise model_opt (set_attr "require_grad" true p))
      (Context_named context).*2 s2 s'.
Proof.
  intros Hctx. unfold freeze_main_unfreeze_context. rewrite Hctx.
  destruct (emit_in_place (Print "Freezing parameters of main model") s)
    as (sa & Hea & _ & Hca).
  rewrite (bind_run _ _ _ _ _ Hea).
  destruct (parameters_loop_applies (set_attr "require_grad" false)
              (NMTModel_named model)
              (fun param => update param (set_attr "require_grad" false)) sa)
    as (s1 & Hl1 & H1); [intros l s0; apply update_applies|].
  rewrite (bind_run _ _ _ _ _ Hl1).
  destruct (parameters_loop_applies (set_attr "require_grad" false)
              (Generator_named generator)
              (fun param => update param (set_attr "require_grad" false)) s1)
    as (s2 & Hl2 & H2); [intros l s0; apply update_applies|].
  rewrite (bind_run _ _ _ _ _ Hl2).
  destruct (emit_in_place (Print "Unfreezing parameters of context") s2)
    as (sb & Heb & _ & Hcb).
  rewrite (bind_run _ _ _ _ _ Heb).
  match goal with |- context [for_each _ ?b] => set (body := b) end.
  destruct (parameters_loop_applies
              (fun p => initialise model_opt (set_attr "require_grad" true p))
              (Context_named context) body sb) as (s3 & Hl3 & H3).
  { intros l s0. unfold body.
    destruct (update_applies l (set_attr "require_grad" true) s0)
      as (sx & Hx & Hax).
    rewrite (bind_run _ _ _ _ _ Hx).
    assert (Hy : exists sy,
              (if float_nonzero (param_init model_opt)
               then uniform_ l (PrimFloat.opp (param_init model_opt))
                      (param_init model_opt)
               else mret tt) sx = Ok (tt, sy) /\
              applies (fun p => if float_nonzero (param_init model_opt)
                                then set_data
                                       (Uniform (PrimFloat.opp (param_init model_opt))
                                          (param_init model_opt)) p
                                else p) [l] sx sy).
    { destruct (float_nonzero (param_init model_opt)).
      - apply uniform_applies.
      - exists sx. split; [done | by apply applies_refl]. }
    destruct Hy as (sy & Hy & Hay). rewrite (bind_run _ _ _ _ _ Hy).
    assert (Hz : exists sz,
              (if param_init_glorot model_opt
               then d ← dim l;
                    if (1 <? d)%nat then xavier_uniform l else mret tt
               else mret tt) sy = Ok (tt, sz) /\
              applies (fun p => if param_init_glorot model_opt && (1 <? ndim p)%nat
                                then set_data Xavier p else p) [l] sy sz).
    { destruct (param_init_glorot model_opt); simpl.
      - apply xavier_applies.
      - exists sy. split; [done | by apply applies_refl]. }
    destruct Hz as (sz & Hz & Haz). exists sz. split; [exact Hz|].
    pose proof (applies_compose _ _ _ _ _ _
                  (applies_compose _ _ _ _ _ _ Hax Hay) Haz) as Hall.
    eapply applies_fext; [|exact Hall]. intros p. reflexivity. }
  exists s1, s2, s3. split; [exact Hl3|]. split.
  - intros l. rewrite (H1 l). by rewrite Hca.
  - split; [done|]. intros l. rewrite (H3 l). by rewrite Hcb.
Qed.

(** Lines 277-296 in two stages.  Lines 277-289: every parameter of the
    model and of the generator is initialised, a parameter they share as any
    other; this gives the store [s2].  Lines 291-296: the two calls of
    [load_pretrained_vectors]. *)
Lemma init_parameters_stages (model_opt : Opt) (model : NMTModel)
    (generator : Generator) (s : Store) :
  exists s2 s',
    init_parameters model_opt model generator s = Ok (tt, s') /\
    applies (initialise model_opt)
      ((NMTModel_named model).*2 ++ (Generator_named generator).*2) s s2 /\
    (match enc_embeddings (encoder model) with
     | Some embeddings =>
         load_pretrained_vectors embeddings (pre_word_vecs_enc model_opt)
           (fix_word_vecs_enc model_opt)
     | None => mret tt
     end;;
     load_pretrained_vectors (dec_embeddings (decoder model))
       (pre_word_vecs_dec model_opt) (fix_word_vecs_dec model_opt)) s2
    = Ok (tt, s') /\
    next s' = next s2 /\ cells s' = cells s2 /\
    log s' = log s2 ++ pretrained_events model_opt model.
Proof.
  unfold init_parameters.
  set (ls := ((NMTModel_named model).*2 ++ (Generator_named generator).*2)).
  set (u := fun p => if float_nonzero (param_init model_opt)
                     then set_data (Uniform (PrimFloat.opp (param_init model_opt))
                                      (param_init model_opt)) p
                     else p).
  set (x := fun p => if param_init_glorot model_opt && (1 <? ndim p)%nat
                     then set_data Xavier p else p).
  assert (Hu : exists s1,
            (if float_nonzero (param_init model_opt) then
               emit (Print "Intializing model parameters.");;
               for_each (parameters (NMTModel_named model))
                 (fun p => uniform_ p (PrimFloat.opp (param_init model_opt))
                             (param_init model_opt));;
               for_each (parameters (Generator_named generator))
                 (fun p => uniform_ p (PrimFloat.opp (param_init model_opt))
                             (param_init model_opt))
             else mret tt) s = Ok (tt, s1) /\ applies u ls s s1).
  { unfold u. destruct (float_nonzero (param_init model_opt)).
    - destruct (emit_in_place (Print "Intializing model parameters.") s)
        as (sa & Hea & _ & Hca).
      rewrite (bind_run _ _ _ _ _ Hea).
      destruct (parameters_loop_applies
                  (set_data (Uniform (PrimFloat.opp (param_init model_opt))
                               (param_init model_opt)))
                  (NMTModel_named model)
                  (fun p => uniform_ p (PrimFloat.opp (param_init model_opt))
                              (param_init model_opt)) sa)
        as (sb & Hlb & Hb); [intros l s0; apply uniform_applies|].
      rewrite (bind_run _ _ _ _ _ Hlb).
      destruct (parameters_loop_applies
                  (set_data (Uniform (PrimFloat.opp (param_init model_opt))
                               (param_init model_opt)))
                  (Generator_named generator)
                  (fun p => uniform_ p (PrimFloat.opp (param_init model_opt))
                              (param_init model_opt)) sb)
        as (sc & Hlc & Hc); [intros l s0; apply uniform_applies|].
      exists sc. split; [exact Hlc|].
      apply (applies_app _ _ _ s sb sc); [done| |done].
      intros l. rewrite (Hb l). by rewrite Hca.
    - exists s. split; [done | by apply applies_refl]. }
  destruct Hu as (s1 & Hu & Hau). rewrite (bind_run _ _ _ _ _ Hu).
  assert (Hx : exists s2,
            (if param_init_glorot model_opt then
               for_each (parameters (NMTModel_named model))
                 (fun p => d ← dim p;
                           if (1 <? d)%nat then xavier_uniform p else mret tt);;
               for_each (parameters (Generator_named generator))
                 (fun p => d ← dim p;
                           if (1 <? d)%nat then xavier_uniform p else mret tt)
             else mret tt) s1 = Ok (tt, s2) /\ applies x ls s1 s2).
  { unfold x. destruct (param_init_glorot model_opt); simpl.
    - destruct (parameters_loop_applies
                  (fun p => if (1 <? ndim p)%nat then set_data Xavier p else p)
                  (NMTModel_named model)
                  (fun p => d ← dim p;
                            if (1 <? d)%nat then xavier_uniform p else mret tt) s1)
        as (sb & Hlb & Hb); [intros l s0; apply xavier_applies|].
      rewrite (bind_run _ _ _ _ _ Hlb).
      destruct (parameters_loop_applies
                  (fun p => if (1 <? ndim p)%nat then set_data Xavier p else p)
                  (Generator_named generator)
                  (fun p => d ← dim p;
                            if (1 <? d)%nat then xavier_uniform p else mret tt) sb)
        as (sc & Hlc & Hc); [intros l s0; apply xavier_applies|].
      exists sc. split; [exact Hlc|].
      apply (applies_app _ _ _ s1 sb sc); [|done|done].
      intros p. simpl. by destruct (1 <? ndim p)%nat eqn:Hd; simpl; rewrite ?Hd.
    - exists s1. split; [done | by apply applies_refl]. }
  destruct Hx as (s2 & Hx & Hax). rewrite (bind_run _ _ _ _ _ Hx).
  pose proof (applies_compose _ _ _ _ _ _ Hau Hax) as Hall.
  assert (Hinit : applies (initialise model_opt) ls s s2).
  { eapply applies_fext; [|exact Hall]. intros p. reflexivity. }
  exists s2.
  destruct (enc_embeddings (encoder model)) as [emb|] eqn:Hemb.
  - eexists. split; [reflexivity|]. split; [exact Hinit|].
    split; [reflexivity|]. unfold pretrained_events. rewrite Hemb. simpl.
    split; [done|]. split; [done|]. by rewrite <- app_assoc.
  - eexists. split; [reflexivity|]. split; [exact Hinit|].
    split; [reflexivity|]. unfold pretrained_events. rewrite Hemb. simpl.
    done.
Qed.

(** Lines 277-296 on the store, [load_pretrained_vectors] being the call it
    is. *)
Lemma init_parameters_applies (model_opt : Opt) (model : NMTModel)
    (generator : Generator) (s : Store) :
  exists s',
    init_parameters model_opt model generator s = Ok (tt, s') /\
    applies (initialise model_opt)
      ((NMTModel_named model).*2 ++ (Generator_named generator).*2) s s'.
Proof.
  destruct (init_parameters_stages model_opt model generator s)
    as (s2 & s' & Hrun & Happ & _ & _ & Hc & _).
  exists s'. split; [done|]. by eapply applies_cells.
Qed.


(** The checkpoint branch, step by step. *)
Lemma load_checkpoint_inv (model_opt : Opt) (model : NMTModel)
    (generator : Generator) (checkpoint : Checkpoint) (train_part : string)
    (s s' : Store) :
  load_checkpoint model_opt model generator checkpoint train_part s
  = Ok (tt, s') ->
  exists model_dict sa sb sc,
    emit (Print "Loading model parameters.") s = Ok (tt, sa) /\
    checkpoint_model_dict model_opt model checkpoint train_part
    = Ok model_dict /\
    load_state_dict (NMTModel_named model) model_dict false sa = Ok (tt, sb) /\
    load_state_dict (Generator_named generator)
      (map (fun kv => (kv.1, Value kv.2)) (ck_generator checkpoint)) true sb
    = Ok (tt, sc) /\
    (if String.eqb train_part "context"
     then freeze_main_unfreeze_context model_opt model generator
     else mret tt) sc = Ok (tt, s') /\
    rewrites s sc.
Proof.
  unfold load_checkpoint. intros Hrun.
  split_bind Hrun as Hemit. destruct a. rename s0 into sa.
  split_bind Hrun as Hdict. apply lift_Ok in Hdict as [Hdict ->].
  rename a into model_dict.
  split_bind Hrun as Hm. destruct a. rename s0 into sb.
  split_bind Hrun as Hg. destruct a. rename s0 into sc.
  exists model_dict, sa, sb, sc. repeat (split; [done|]).
  destruct (emit_in_place (Print "Loading model parameters.") s)
    as (sa' & He' & [Hr1 _] & _).
  rewrite He' in Hemit. injection Hemit as ->.
  destruct (load_state_dict_lenient (NMTModel_named model) model_dict sa)
    as (sb' & Hm' & [Hr2 _]).
  rewrite Hm' in Hm. injection Hm as ->.
  destruct (load_state_dict_strict (Generator_named generator)
              (map (fun kv => (kv.1, Value kv.2)) (ck_generator checkpoint)) sb)
    as [(sc' & Hg' & [Hr3 _])|(msg & Hg')]; rewrite Hg' in Hg; [|done].
  injection Hg as ->.
  eapply rewrites_trans; [exact Hr1|]. by eapply rewrites_trans.
Qed.

(** A returned call, step by step, with what the device call leaves. *)
Lemma make_base_model_cells (model_opt : Opt)
    (fields : gmap string (Field Vocab)) (gpu : bool)
    (checkpoint : option Checkpoint) (train_part : string)
    (m : NMTModel) (s s' : Store) :
  make_base_model model_opt fields gpu checkpoint train_part s = Ok (m, s') ->
  exists m0 g s1 s2,
    build_modules model_opt fields gpu s = Ok ((m0, g), s1) /\
    m = set_generator g m0 /\
    match checkpoint with
    | Some ck => load_checkpoint model_opt m0 g ck train_part s1
    | None => init_parameters model_opt m0 g s1
    end = Ok (tt, s2) /\
    cells s' = cells s2 /\ next s' = next s2.
Proof.
  unfold make_base_model. intros Hrun.
  split_bind Hrun as Hbuild. destruct a as [m0 g].
  split_bind Hrun as Hstates. destruct a.
  split_bind Hrun as Hdev. injection Hrun as <- <-.
  exists m0, g, s0, s1. split; [done|]. split; [done|].
  split; [by destruct checkpoint|].
  destruct gpu; unfold emit in Hdev; by simplify_eq.
Qed.

(** The parameters of a built model and of its generator, as construction
    left them. *)
Lemma build_modules_cells (model_opt : Opt)
    (fields : gmap string (Field Vocab)) (gpu : bool) (m : NMTModel)
    (g : Generator) (s s1 : Store) (l : loc) :
  build_modules model_opt fields gpu s = Ok ((m, g), s1) ->
  l ∈ (NMTModel_named m).*2 \/ l ∈ (Generator_named g).*2 ->
  (next s <= l < next s1)%nat /\
  exists nd, cells s1 !! l = Some (mkParam (Initial l) true nd []).
Proof.
  intros Hb Hl.
  pose proof (build_modules_within _ _ _ _ _ _ _ Hb) as Hw.
  pose proof (build_modules_allocates _ _ _ _ _ _ _ Hb) as (_ & _ & _ & Hnew).
  apply build_modules_inv in Hb
    as (? & ? & ? & ? & ? & ? & _ & _ & _ & _ & _ & Hg & _).
  assert (Hrange : (next s <= l < next s1)%nat).
  { apply Hw. by apply set_generator_named. }
  split; [done|]. by apply Hnew.
Qed.

(** The loading block and the initialisation block write to parameters of
    the model or of the generator, and to nothing else. *)
Lemma states_other (model_opt : Opt) (m : NMTModel) (g : Generator)
    (checkpoint : option Checkpoint) (train_part : string) (s s' : Store)
    (l : loc) :
  match checkpoint with
  | Some ck => load_checkpoint model_opt m g ck train_part s
  | None => init_parameters model_opt m g s
  end = Ok (tt, s') ->
  l ∉ (NMTModel_named m).*2 -> l ∉ (Generator_named g).*2 ->
  cells s' !! l = cells s !! l.
Proof.
  intros Hrun Hm Hg. destruct checkpoint as [ck|].
  - apply load_checkpoint_inv in Hrun
      as (model_dict & sa & sb & sc & Hemit & _ & Hlm & Hlg & Hfreeze & _).
    apply emit_cells in Hemit.
    apply (load_state_dict_other _ _ _ l _ _ Hm) in Hlm.
    apply (load_state_dict_other _ _ _ l _ _ Hg) in Hlg.
    transitivity (cells sc !! l); [|by rewrite Hlg, Hlm, Hemit].
    destruct (String.eqb train_part "context"); [|by injection Hfreeze as <-].
    destruct (doc_context m) as [context|] eqn:Hctx.
    + destruct (freeze_main_unfreeze_context_applies model_opt m g context sc
                  Hctx) as (s1 & s2 & s3 & Hf & H1 & H2 & H3).
      rewrite Hf in Hfreeze. injection Hfreeze as ->.
      rewrite (applies_other _ _ _ _ _ H3).
      * rewrite (applies_other _ _ _ _ _ H2 Hg).
        apply (applies_other _ _ _ _ _ H1 Hm).
      * intros Hin. apply Hm. by eapply context_parameters_named.
    + pose proof (freeze_main_unfreeze_context_spec model_opt m g sc) as Hf.
      rewrite Hctx in Hf. destruct Hf as (msg & Hf). congruence.
  - destruct (init_parameters_applies model_opt m g s) as (s2 & Hi & Happ).
    rewrite Hi in Hrun. injection Hrun as ->.
    apply (applies_other _ _ _ _ _ Happ). rewrite elem_of_app. tauto.
Qed.

Lemma grad_flags_require_grad (v : bool) (p : Param) :
  grad_flags (set_attr "require_grad" v p) = (requires_grad p, Some v).
Proof.
  unfold grad_flags, set_attr. simpl. f_equal.
  rewrite dict_get_set. by rewrite String.eqb_refl.
Qed.

Lemma initialise_flags (model_opt : Opt) (p : Param) :
  grad_flags (initialise model_opt p) = grad_flags p /\
  ndim (initialise model_opt p) = ndim p.
Proof.
  unfold initialise.
  destruct (float_nonzero (param_init model_opt));
    destruct (param_init_glorot model_opt); simpl;
    try destruct (1 <? ndim p)%nat; done.
Qed.

Lemma initialise_data (model_opt : Opt) (p : Param) :
  data (initialise model_opt p)
  = if param_init_glorot model_opt && (1 <? ndim p)%nat then Xavier
    else if float_nonzero (param_init model_opt)
         then Uniform (PrimFloat.opp (param_init model_opt))
                (param_init model_opt)
         else data p.
Proof.
  unfold initialise.
  destruct (float_nonzero (param_init model_opt));
    destruct (param_init_glorot model_opt); simpl;
    try destruct (1 <? ndim p)%nat; done.
Qed.

(** ** The parameters after a call *)

(** X1: after a call without checkpoint, every parameter of the returned
    model, generator included, that is not a parameter of the encoder's or
    of the decoder's embeddings (those are handed to
    [load_pretrained_vectors]) still requires its gradient, carries no other
    attribute, and holds: Xavier values when [param_init_glorot] is set and
    it has more than one dimension; otherwise a uniform draw in
    [-param_init, param_init] when [param_init] is not zero; otherwise what
    its constructor put there. *)
Theorem parameters_without_checkpoint (model_opt : Opt)
    (fields : gmap string (Field Vocab)) (gpu : bool) (train_part : string)
    (m : NMTModel) (s s' : Store) (l : loc) :
  make_base_model model_opt fields gpu None train_part s = Ok (m, s') ->
  l ∈ (NMTModel_named m).*2 ->
  (forall emb, enc_embeddings (encoder m) = Some emb ->
               l ∉ (Embeddings_named emb).*2) ->
  l ∉ (Embeddings_named (dec_embeddings (decoder m))).*2 ->
  exists nd,
    cells s' !! l
    = Some (mkParam
              (if param_init_glorot model_opt && (1 <? nd)%nat then Xavier
               else if float_nonzero (param_init model_opt)
                    then Uniform (PrimFloat.opp (param_init model_opt))
                           (param_init model_opt)
                    else Initial l)
              true nd []).
Proof.
  intros Hrun Hl _ _.
  apply make_base_model_cells in Hrun
    as (m0 & g & s1 & s2 & Hb & -> & Hinit & Hc & _).
  pose proof Hb as Hb'.
  apply build_modules_inv in Hb'
    as (? & ? & ? & ? & ? & ? & _ & _ & _ & _ & _ & Hg & _).
  apply (set_generator_named _ _ _ Hg) in Hl.
  destruct (build_modules_cells _ _ _ _ _ _ _ l Hb Hl) as (_ & nd & Hcell).
  exists nd. rewrite Hc.
  destruct (init_parameters_applies model_opt m0 g s1) as (s2' & Hi & Happ).
  rewrite Hi in Hinit. injection Hinit as ->.
  rewrite (applies_elem _ _ _ _ _ Happ) by (rewrite elem_of_app; tauto).
  rewrite Hcell. simpl. f_equal. unfold initialise.
  destruct (float_nonzero (param_init model_opt));
    destruct (param_init_glorot model_opt); simpl;
    try destruct (1 <? nd)%nat; done.
Qed.

(** The store after the loading block under [train_part = "context"]. *)
Lemma load_checkpoint_context_cells (model_opt : Opt)
    (fields : gmap string (Field Vocab)) (gpu : bool) (checkpoint : Checkpoint)
    (m : NMTModel) (g : Generator) (s s1 s2 : Store) :
  build_modules model_opt fields gpu s = Ok ((m, g), s1) ->
  load_checkpoint model_opt m g checkpoint "context" s1 = Ok (tt, s2) ->
  exists context,
    doc_context m = Some context /\
    forall l, l ∈ (NMTModel_named m).*2 \/ l ∈ (Generator_named g).*2 ->
      exists p0 p,
        requires_grad p0 = true /\ cells s2 !! l = Some p /\
        if bool_decide (l ∈ (Context_named context).*2)
        then exists q, ndim q = ndim p0 /\ requires_grad q = true /\
                       p = initialise model_opt (set_attr "require_grad" true q)
        else grad_flags p = (true, Some false).
Proof.
  intros Hb Hload.
  apply load_checkpoint_inv in Hload
    as (model_dict & sa & sb & sc & _ & _ & _ & _ & Hfreeze & Hrw).
  simpl in Hfreeze.
  destruct (doc_context m) as [context|] eqn:Hctx.
  2:{ pose proof (freeze_main_unfreeze_context_spec model_opt m g sc) as Hf.
      rewrite Hctx in Hf. destruct Hf as (msg & Hf). congruence. }
  exists context. split; [done|]. intros l Hl.
  destruct (build_modules_cells _ _ _ _ _ _ _ l Hb Hl) as (_ & nd & Hcell).
  destruct (freeze_main_unfreeze_context_applies model_opt m g context sc Hctx)
    as (t1 & t2 & t3 & Hf & H1 & H2 & H3).
  rewrite Hf in Hfreeze. injection Hfreeze as ->.
  pose proof (proj2 Hrw l) as Hmeta. rewrite Hcell in Hmeta.
  destruct (cells sc !! l) as [p0|] eqn:Hp0; [|done].
  injection Hmeta as Hrg Hnd. simpl in Hrg, Hnd.
  exists p0. rewrite (H3 l), (H2 l), (H1 l), Hp0.
  set (F := set_attr "require_grad" false).
  assert (HF : forall q, ndim (F q) = ndim q /\ requires_grad (F q) = requires_grad q)
    by done.
  destruct (bool_decide (l ∈ (Context_named context).*2)) eqn:Hc.
  - destruct (bool_decide (l ∈ (NMTModel_named m).*2));
      destruct (bool_decide (l ∈ (Generator_named g).*2)); simpl;
      (eexists; split; [done|]; split; [reflexivity|];
       eexists; split; [|split; [|reflexivity]]; done).
  - assert (Hor : bool_decide (l ∈ (NMTModel_named m).*2)
                  || bool_decide (l ∈ (Generator_named g).*2) = true).
    { apply orb_true_iff.
      destruct Hl; [left | right]; by apply bool_decide_eq_true. }
    destruct (bool_decide (l ∈ (NMTModel_named m).*2));
      destruct (bool_decide (l ∈ (Generator_named g).*2)); simpl in *;
      try done;
      (eexists; split; [done|]; split; [reflexivity|];
       unfold F; rewrite grad_flags_require_grad; simpl; by rewrite ?Hrg).
Qed.

(** X2: after a returned call with a checkpoint and [train_part = "context"],
    the model has a context, and every parameter of the returned model,
    generator included, still requires its gradient; what the loops of lines
    264-270 have set is the attribute [require_grad]: true on the parameters
    of the context, false on all the others. *)
Theorem flags_after_context_training (model_opt : Opt)
    (fields : gmap string (Field Vocab)) (gpu : bool) (checkpoint : Checkpoint)
    (m : NMTModel) (s s' : Store) :
  make_base_model model_opt fields gpu (Some checkpoint) "context" s
  = Ok (m, s') ->
  exists context,
    doc_context m = Some context /\
    forall l, l ∈ (NMTModel_named m).*2 ->
      grad_flags <$> cells s' !! l
      = Some (true, Some (bool_decide (l ∈ (Context_named context).*2))).
Proof.
  intros Hrun.
  apply make_base_model_cells in Hrun
    as (m0 & g & s1 & s2 & Hb & -> & Hload & Hc & _).
  destruct (load_checkpoint_context_cells _ _ _ _ _ _ _ _ _ Hb Hload)
    as (context & Hctx & Hcells).
  exists context. split; [done|]. intros l Hl.
  pose proof Hb as Hb'.
  apply build_modules_inv in Hb'
    as (? & ? & ? & ? & ? & ? & _ & _ & _ & _ & _ & Hg & _).
  apply (set_generator_named _ _ _ Hg) in Hl.
  destruct (Hcells l Hl) as (p0 & p & Hrg & Hp & Hcase).
  rewrite Hc, Hp. simpl. f_equal.
  destruct (bool_decide (l ∈ (Context_named context).*2)); [|done].
  destruct Hcase as (q & _ & Hq & ->).
  rewrite (proj1 (initialise_flags _ _)), grad_flags_require_grad.
  by rewrite Hq.
Qed.

(** X3: after a returned call with a checkpoint and [train_part = "context"],
    every parameter of the context has been initialised anew, whatever the
    checkpoint held for it: it holds Xavier values when [param_init_glorot]
    is set and it has more than one dimension, and otherwise a uniform draw
    in [-param_init, param_init] when [param_init] is not zero. *)
Theorem context_reinitialised (model_opt : Opt)
    (fields : gmap string (Field Vocab)) (gpu : bool) (checkpoint : Checkpoint)
    (m : NMTModel) (s s' : Store) :
  make_base_model model_opt fields gpu (Some checkpoint) "context" s
  = Ok (m, s') ->
  exists context,
    doc_context m = Some context /\
    forall l, l ∈ (Context_named context).*2 ->
      exists p,
        cells s' !! l = Some p /\
        (param_init_glorot model_opt && (1 <? ndim p)%nat = true ->
         data p = Xavier) /\
        (param_init_glorot model_opt && (1 <? ndim p)%nat = false ->
         float_nonzero (param_init model_opt) = true ->
         data p = Uniform (PrimFloat.opp (param_init model_opt))
                    (param_init model_opt)).
Proof.
  intros Hrun.
  apply make_base_model_cells in Hrun
    as (m0 & g & s1 & s2 & Hb & -> & Hload & Hc & _).
  destruct (load_checkpoint_context_cells _ _ _ _ _ _ _ _ _ Hb Hload)
    as (context & Hctx & Hcells).
  exists context. split; [done|]. intros l Hl.
  destruct (Hcells l) as (p0 & p & Hrg & Hp & Hcase).
  { left. by eapply context_parameters_named. }
  rewrite bool_decide_eq_true_2 in Hcase by done.
  destruct Hcase as (q & Hnd & Hq & ->).
  eexists. split; [by rewrite Hc|].
  rewrite (proj2 (initialise_flags _ _)), initialise_data.
  change (ndim (set_attr "require_grad" true q)) with (ndim q).
  split; [by intros -> | by intros -> ->].
Qed.

(** A returned call on the store: the modules are built in new parameters,
    which the rest of the call rewrites in place; what the returned model
    does not hold is as construction left it. *)
Lemma make_base_model_store (model_opt : Opt)
    (fields : gmap string (Field Vocab)) (gpu : bool)
    (checkpoint : option Checkpoint) (train_part : string)
    (m : NMTModel) (s s' : Store) :
  make_base_model model_opt fields gpu checkpoint train_part s = Ok (m, s') ->
  exists s1,
    allocates s s1 /\ rewrites s1 s' /\
    within (next s) (next s1) (NMTModel_named m) /\
    (forall l, l ∉ (NMTModel_named m).*2 -> cells s' !! l = cells s1 !! l).
Proof.
  intros Hrun.
  pose proof (make_base_model_inv _ _ _ _ _ _ _ _ Hrun)
    as (m0' & g' & s1' & s2' & Hb' & _ & Hst' & [Hrw2 _]).
  apply make_base_model_cells in Hrun
    as (m0 & g & s1 & s2 & Hb & -> & Hstates & Hc & Hn).
  rewrite Hb in Hb'. injection Hb' as <- <- <-.
  rewrite Hstates in Hst'. injection Hst' as <-.
  assert (Hrw : rewrites s1 s2).
  { destruct checkpoint as [ck|].
    - destruct (load_checkpoint_spec model_opt m0 g ck train_part s1)
        as [(e & Hl & _)|(s2' & Hl & Hp)]; [congruence|].
      rewrite Hl in Hstates. injection Hstates as ->.
      destruct (String.eqb train_part "context").
      + by destruct Hp as (? & _ & [? _]).
      + by destruct Hp.
    - destruct (init_parameters_spec model_opt m0 g s1) as (s2' & Hi & [Hp _]).
      rewrite Hi in Hstates. by injection Hstates as ->. }
  exists s1. split; [by eapply build_modules_allocates|].
  split; [by eapply rewrites_trans|].
  split; [by eapply build_modules_within|].
  apply build_modules_inv in Hb
    as (? & ? & ? & ? & ? & ? & _ & _ & _ & _ & _ & Hg & _).
  intros l Hl. rewrite Hc.
  apply (states_other _ _ _ _ _ _ _ _ Hstates);
    intros Hin; apply Hl; apply (set_generator_named _ _ _ Hg); tauto.
Qed.

(** X4: a call that returns leaves every parameter that existed before it
    as it was, and every parameter it made is in the store; one that the
    returned model does not hold (a matrix that sharing has replaced) still
    holds what its constructor put there. *)
Theorem make_base_model_frame (model_opt : Opt)
    (fields : gmap string (Field Vocab)) (gpu : bool)
    (checkpoint : option Checkpoint) (train_part : string)
    (m : NMTModel) (s s' : Store) :
  make_base_model model_opt fields gpu checkpoint train_part s = Ok (m, s') ->
  (next s <= next s')%nat /\
  within (next s) (next s') (NMTModel_named m) /\
  (forall l : loc, (l < next s)%nat -> cells s' !! l = cells s !! l) /\
  (forall l : loc, (next s <= l < next s')%nat ->
     is_Some (cells s' !! l) /\
     (l ∉ (NMTModel_named m).*2 ->
      exists nd, cells s' !! l = Some (mkParam (Initial l) true nd []))).
Proof.
  intros Hrun.
  apply make_base_model_store in Hrun
    as (s1 & (Hle & _ & Hold & Hnew) & Hrw & Hw & Hother).
  rewrite (proj1 Hrw). split; [done|]. split; [done|]. split.
  - intros l Hlt. rewrite Hother; [by apply Hold|].
    intros Hin. apply Hw in Hin. lia.
  - intros l Hrange. destruct (Hnew l Hrange) as (nd & Hcell). split.
    + apply (rewrites_is_Some s1 s' l Hrw).
      exists (mkParam (Initial l) true nd []). exact Hcell.
    + intros Hl. exists nd. by rewrite Hother.
Qed.

(** X5: models built by successive calls share no parameter, and the later
    call leaves the parameters of the earlier model as they were. *)
Theorem separate_calls_share_nothing (opt1 opt2 : Opt)
    (fields1 fields2 : gmap string (Field Vocab)) (gpu1 gpu2 : bool)
    (checkpoint1 checkpoint2 : option Checkpoint) (train_part1 train_part2 : string)
    (m1 m2 : NMTModel) (s s1 s2 : Store) (l : loc) :
  make_base_model opt1 fields1 gpu1 checkpoint1 train_part1 s = Ok (m1, s1) ->
  make_base_model opt2 fields2 gpu2 checkpoint2 train_part2 s1 = Ok (m2, s2) ->
  l ∈ (NMTModel_named m1).*2 ->
  (l ∉ (NMTModel_named m2).*2) /\ cells s2 !! l = cells s1 !! l.
Proof.
  intros Hrun1 Hrun2 Hl.
  apply make_base_model_store in Hrun1 as (sa & _ & Hrw1 & Hw1 & _).
  apply make_base_model_store in Hrun2
    as (sb & (_ & _ & Hold & _) & _ & Hw2 & Hother).
  apply Hw1 in Hl. rewrite <- (proj1 Hrw1) in Hl.
  assert (Hnot : l ∉ (NMTModel_named m2).*2).
  { intros Hin. apply Hw2 in Hin. lia. }
  split; [done|]. rewrite (Hother l Hnot). apply Hold. lia.
Qed.

End Cells.

(** ** What [load_state_dict] writes *)

Lemma for_each_app {A} (xs ys : list A) (body : A -> M unit) (s : Store) :
  for_each (xs ++ ys) body s
  = match for_each xs body s with
    | Ok (_, s1) => for_each ys body s1
    | Raise e => Raise e
    end.
Proof.
  revert s. induction xs as [|x xs IH]; intros s; simpl; [done|].
  unfold mbind, M_bind. destruct (body x s) as [[[] s1]|e]; [apply IH | done].
Qed.

Lemma copy_is_Some (l l0 : loc) (src : tref) (s s' : Store) :
  copy_ l src s = Ok (tt, s') ->
  is_Some (cells s !! l0) -> is_Some (cells s' !! l0).
Proof.
  intros Hrun. destruct (copy_in_place l src s) as (s1 & Hc & [Hr _]).
  rewrite Hc in Hrun. injection Hrun as <-. by apply rewrites_is_Some.
Qed.

Lemma copy_other (l l0 : loc) (src : tref) (s s' : Store) :
  copy_ l src s = Ok (tt, s') -> l0 <> l -> cells s' !! l0 = cells s !! l0.
Proof.
  intros Hrun Hne. destruct (copy_frame l l0 src s) as (s1 & Hc & Hs1); [done|].
  rewrite Hc in Hrun. by injection Hrun as <-.
Qed.

(** A parameter that the module's state dictionary holds under the key [k]
    and under no other name, loaded from a dictionary with an entry for [k],
    ends holding the tensor of that entry. *)
Lemma load_state_dict_data (named : params) (sd : dict tref) (strict : bool)
    (k : string) (l : loc) (t : tensor) (s s' : Store) :
  NoDup (dict_keys sd) ->
  dict_get k (state_dict named) = Some (DataOf l) ->
  (forall k', (k', l) ∈ named -> k' = k) ->
  (k, Value t) ∈ sd ->
  is_Some (cells s !! l) ->
  load_state_dict named sd strict s = Ok (tt, s') ->
  data <$> cells s' !! l = Some t.
Proof.
  intros Hnd Hk Huniq Hin Hcell Hrun. unfold load_state_dict in Hrun.
  inv_bind Hrun. destruct a.
  assert (s' = s0) as ->.
  { destruct (strict && _); [done | by injection Hrun as <-]. }
  clear Hrun. revert Hrun0.
  match goal with |- for_each _ ?b _ = _ -> _ => set (body := b) end.
  intros Hloop.
  apply list_elem_of_split in Hin as (sd1 & sd2 & ->).
  rewrite for_each_app in Hloop.
  destruct (for_each sd1 body s) as [[[] sa]|e] eqn:H1; [|done].
  simpl in Hloop. inv_bind Hloop. destruct a. rename s1 into sb.
  unfold body in Hloop0 at 1. simpl in Hloop0. rewrite Hk in Hloop0.
  assert (Hsa : is_Some (cells sa !! l)).
  { apply (for_each_Ok_invariant (fun s0 => is_Some (cells s0 !! l))
             sd1 body s sa H1 Hcell).
    intros [k0 src0] s1 s2 _ Hs1. unfold body. simpl.
    destruct (dict_get k0 (state_dict named)) as [[l0|t0]|].
    - intros Hc. by eapply copy_is_Some.
    - by intros [= <-].
    - destruct strict; [done | by intros [= <-]]. }
  assert (Hsb : data <$> cells sb !! l = Some t).
  { destruct Hsa as [p Hp]. unfold copy_, update in Hloop0.
    injection Hloop0 as <-. simpl. by rewrite lookup_alter_eq, Hp. }
  apply (for_each_Ok_invariant (fun s0 => data <$> cells s0 !! l = Some t)
           sd2 body sb s0 Hloop Hsb).
  intros [k0 src0] s1 s2 Hin0 Hs1. unfold body. simpl.
  destruct (dict_get k0 (state_dict named)) as [[l0|t0]|] eqn:Hk0.
  - intros Hc. rewrite (copy_other _ _ _ _ _ Hc); [done|].
    intros <-. apply state_dict_elem in Hk0. apply Huniq in Hk0 as ->.
    unfold dict_keys in Hnd. rewrite fmap_app, fmap_cons in Hnd.
    apply NoDup_app in Hnd as (_ & _ & Hnd). apply NoDup_cons in Hnd as [Hnd _].
    apply Hnd. simpl. apply list_elem_of_fmap. by exists (k, src0).
  - by intros [= <-].
  - destruct strict; [done | by intros [= <-]].
Qed.

(** [load_state_dict(state_dict)], strict, returns exactly when the keys of
    the dictionary are the names of the module. *)
Lemma load_state_dict_strict_returns (named : params) (sd : dict tref)
    (s : Store) :
  (exists s', load_state_dict named sd true s = Ok (tt, s')) <->
  (forall k, k ∈ dict_keys sd <-> k ∈ named.*1).
Proof.
  assert (Hown : forall k, dict_has k (state_dict named) = true <-> k ∈ named.*1).
  { intros k. rewrite dict_has_true. unfold state_dict.
    rewrite dict_of_items_keys. rewrite <- list_fmap_compose.
    by apply reflexive_eq; f_equal. }
  unfold load_state_dict.
  match goal with |- context [for_each _ ?b] => set (body := b) end.
  assert (Hloop : forall s0,
            (exists s1, for_each sd body s0 = Ok (tt, s1)) <->
            (forall k, k ∈ dict_keys sd -> k ∈ named.*1)).
  { unfold dict_keys. induction sd as [|[k0 src0] sd IH]; intros s0.
    - split; [intros _ k Hk; inversion Hk | by exists s0].
    - simpl. split.
      + intros (s1 & Hrun) k Hin. inv_bind Hrun. destruct a.
        apply elem_of_cons in Hin as [->|Hin].
        * apply Hown. unfold body in Hrun0. simpl in Hrun0. unfold dict_has.
          by destruct (dict_get k0 (state_dict named)).
        * apply (proj1 (IH s2)); [by exists s1 | done].
      + intros Hall.
        assert (Hk0 : dict_has k0 (state_dict named) = true).
        { apply Hown, Hall. apply list_elem_of_here. }
        assert (Hb : exists s1, body (k0, src0) s0 = Ok (tt, s1)).
        { unfold body. simpl. unfold dict_has in Hk0.
          destruct (dict_get k0 (state_dict named)) as [[l|t]|]; [| |done].
          - destruct (copy_in_place l src0 s0) as (s1 & Hc & _). by exists s1.
          - by exists s0. }
        destruct Hb as (s1 & Hb).
        destruct (proj2 (IH s1)) as (s2 & Hrun).
        { intros k Hk. apply Hall. by apply list_elem_of_further. }
        exists s2. by rewrite (bind_run _ _ _ _ _ Hb). }
  assert (Hmiss : forallb (fun k => dict_has k sd) (dict_keys (state_dict named))
                  = true <-> (forall k, k ∈ named.*1 -> k ∈ dict_keys sd)).
  { rewrite forallb_forall. split.
    - intros Hall k Hk. apply dict_has_true. apply Hall.
      apply list_elem_of_In. apply dict_has_true. by apply Hown.
    - intros Hall k Hk. apply dict_has_true. apply Hall.
      apply Hown. apply dict_has_true. by apply list_elem_of_In. }
  split.
  - intros (s' & Hrun). inv_bind Hrun. destruct a.
    assert (Hall : forall k, k ∈ dict_keys sd -> k ∈ named.*1).
    { apply (proj1 (Hloop s)). by exists s0. }
    simpl in Hrun.
    destruct (forallb _ _) eqn:Hf; [|done].
    intros k. split; [apply Hall | by apply Hmiss].
  - intros Hall.
    destruct (proj2 (Hloop s)) as (s1 & Hrun); [intros k; apply Hall|].
    exists s1. rewrite (bind_run _ _ _ _ _ Hrun). simpl.
    rewrite (proj2 Hmiss); [done|]. intros k. apply Hall.
Qed.

(** ** Parameters are allocated one after the other *)

Lemma alloc_params_locs (layout : list (string * nat)) (ps : params)
    (s s' : Store) :
  alloc_params layout s = Ok (ps, s') ->
  ps.*2 = seq (next s) (length layout) /\
  next s' = (next s + length layout)%nat /\
  ps.*1 = layout.*1.
Proof.
  revert ps s. induction layout as [|[name nd] layout IH]; intros ps s Hrun.
  - injection Hrun as <- <-. simpl. split; [done|]. split; [lia | done].
  - simpl in Hrun. inv_bind Hrun. injection Hrun0 as <- <-.
    inv_bind Hrun. injection Hrun as <- <-.
    apply IH in Hrun0 as (Hlocs & Hnext & Hnames). simpl in *.
    split; [f_equal; exact Hlocs|]. split; [lia | f_equal; exact Hnames].
Qed.

Lemma unique_name (ps : params) (k k' : string) (l : loc) :
  NoDup ps.*2 -> (k, l) ∈ ps -> (k', l) ∈ ps -> k' = k.
Proof.
  induction ps as [|[k0 l0] ps IH]; simpl; intros Hnd Hin Hin'.
  - inversion Hin.
  - apply NoDup_cons in Hnd as [Hl0 Hnd].
    apply elem_of_cons in Hin as [Heq|Hin];
      apply elem_of_cons in Hin' as [Heq'|Hin']; simplify_eq.
    + done.
    + destruct Hl0. by eapply named_loc.
    + destruct Hl0. by eapply named_loc.
    + by apply IH.
Qed.

(** A name that a module gives to one parameter only is the key of that
    parameter in the module's state dictionary. *)
Lemma state_dict_get (named : params) (k : string) (l : loc) :
  (k, l) ∈ named -> (forall l', (k, l') ∈ named -> l' = l) ->
  dict_get k (state_dict named) = Some (DataOf l).
Proof.
  intros Hin Huniq.
  assert (Hk : k ∈ dict_keys (state_dict named)).
  { unfold state_dict. apply dict_of_items_keys. rewrite <- list_fmap_compose.
    apply list_elem_of_fmap. by exists (k, l). }
  apply dict_has_true in Hk. unfold dict_has in Hk.
  destruct (dict_get k (state_dict named)) as [v|] eqn:Hg; [|done].
  destruct (state_dict_values _ _ _ Hg) as (l' & ->).
  apply state_dict_elem in Hg. by rewrite (Huniq l' Hg).
Qed.

Lemma checkpoint_keys (items : dict tensor) :
  dict_keys (map (fun kv => (kv.1, Value kv.2)) items) = dict_keys items.
Proof. unfold dict_keys. rewrite <- list_fmap_compose. done. Qed.

Section Checkpoint.
Context `{Collaborators}.

(** The parameters of the generator are pairwise distinct objects. *)
Lemma generator_parameters_NoDup (model_opt : Opt)
    (fields : gmap string (Field Vocab)) (gpu : bool) (m : NMTModel)
    (g : Generator) (s s1 : Store) :
  build_modules model_opt fields gpu s = Ok ((m, g), s1) ->
  NoDup (Generator_named g).*2.
Proof.
  intros Hb.
  apply build_modules_inv in Hb
    as (sd & se & tgt & sa & sb & sc & _ & _ & _ & _ & _ & _ & Hg &
        _ & _ & Hbc & _ & _ & Hwd & _).
  pose proof (Hwd _ (decoder_word_lut_named (decoder m))) as Hw.
  destruct Hbc as (Hle & _).
  destruct (opt_copy_attn model_opt) eqn:Hcopy.
  - unfold build_generator in Hg. rewrite Hcopy in Hg. simpl in Hg.
    inv_bind Hg. unfold new_CopyGenerator in Hg. inv_bind Hg.
    injection Hg as <- <-. simpl.
    apply alloc_params_locs in Hg1 as (-> & _). apply NoDup_seq.
  - apply build_generator_inv in Hg as (tgt' & _ & _ & _ & Hlin).
    destruct (Hlin Hcopy) as (lin & -> & _ & _ & Hbias & _ & Hweight).
    simpl. rewrite Hbias, Hweight. apply NoDup_cons. split.
    + rewrite list_elem_of_singleton.
      destruct (share_decoder_embeddings model_opt); lia.
    + apply NoDup_singleton.
Qed.

Lemma set_generator_named_app (g : Generator) (m : NMTModel) :
  generator m = None ->
  NMTModel_named (set_generator g m)
  = NMTModel_named m ++ prefixed "generator" (Generator_named g).
Proof.
  intros Hg. unfold NMTModel_named, set_generator.
  cbn [encoder decoder doc_context generator]. rewrite Hg.
  by rewrite app_nil_r, <- !app_assoc.
Qed.

(** X6: once the modules are built, a call with a checkpoint returns
    exactly when the keys of [checkpoint['generator']] are the names of the
    generator's parameters (it is loaded strictly) and, under
    [train_part = "context"], the model has a context type; no key of
    [checkpoint['model']] can make it fail. *)
Theorem checkpoint_call_returns (model_opt : Opt)
    (fields : gmap string (Field Vocab)) (gpu : bool) (checkpoint : Checkpoint)
    (train_part : string) (m0 : NMTModel) (g : Generator) (s s1 : Store) :
  build_modules model_opt fields gpu s = Ok ((m0, g), s1) ->
  (exists m s',
     make_base_model model_opt fields gpu (Some checkpoint) train_part s
     = Ok (m, s'))
  <->
  (forall k, k ∈ dict_keys (ck_generator checkpoint)
             <-> k ∈ (Generator_named g).*1) /\
  (train_part = "context" -> is_Some (context_type model_opt)).
Proof.
  intros Hb. split.
  - intros (m & s' & Hrun).
    apply make_base_model_cells in Hrun
      as (m0' & g' & s1' & s2 & Hb' & _ & Hload & _).
    rewrite Hb in Hb'. injection Hb' as <- <- <-.
    apply load_checkpoint_inv in Hload
      as (model_dict & sa & sb & sc & _ & Hdict & _ & Hlg & _).
    split.
    + rewrite <- (checkpoint_keys (ck_generator checkpoint)).
      apply (load_state_dict_strict_returns (Generator_named g) _ sb).
      by exists sc.
    + intros ->. unfold checkpoint_model_dict in Hdict. simpl in Hdict.
      by destruct (context_type model_opt).
  - intros [Hkeys Hctx].
    assert (Hload : exists s2,
              load_checkpoint model_opt m0 g checkpoint train_part s1
              = Ok (tt, s2)).
    { unfold load_checkpoint.
      destruct (emit_in_place (Print "Loading model parameters.") s1)
        as (sa & He & _).
      rewrite (bind_run _ _ _ _ _ He).
      assert (Hdict : exists model_dict,
                checkpoint_model_dict model_opt m0 checkpoint train_part
                = Ok model_dict).
      { unfold checkpoint_model_dict.
        destruct (String.eqb_spec train_part "context") as [Htp|_];
          [|by eexists].
        destruct (Hctx Htp) as [ct ->]. by eexists. }
      destruct Hdict as (model_dict & Hdict). rewrite Hdict.
      assert (Hl : lift (Ok model_dict) sa = Ok (model_dict, sa)) by done.
      rewrite (bind_run _ _ _ _ _ Hl).
      destruct (load_state_dict_lenient (NMTModel_named m0) model_dict sa)
        as (sb & Hm & _).
      rewrite (bind_run _ _ _ _ _ Hm).
      destruct (proj2 (load_state_dict_strict_returns (Generator_named g)
                         (map (fun kv => (kv.1, Value kv.2))
                            (ck_generator checkpoint)) sb)) as (sc & Hg).
      { intros k. rewrite checkpoint_keys. apply Hkeys. }
      rewrite (bind_run _ _ _ _ _ Hg).
      destruct (String.eqb_spec train_part "context") as [Htp|_];
        [|by eexists].
      destruct (Hctx Htp) as [ct Hct].
      apply build_modules_inv in Hb
        as (? & ? & ? & ? & ? & ? & _ & _ & _ & _ & _ & _ & _ &
            _ & _ & _ & _ & _ & _ & _ & Hnone).
      destruct (doc_context m0) as [context|] eqn:Hdoc.
      - destruct (freeze_main_unfreeze_context_applies model_opt m0 g context
                    sc Hdoc) as (? & ? & s2 & Hf & _).
        by exists s2.
      - rewrite (proj1 Hnone eq_refl) in Hct. done. }
    destruct Hload as (s2 & Hload). unfold make_base_model.
    rewrite (bind_run _ _ _ _ _ Hb). cbv beta iota.
    rewrite (bind_run _ _ _ _ _ Hload).
    destruct gpu; by eexists _, _.
Qed.

(** X7: after a returned call with a checkpoint, each parameter of the
    generator holds the tensor that [checkpoint['generator']] has under its
    name, whatever [train_part] is; so does the word-lookup matrix of the
    decoder when the generator shares it, whatever [checkpoint['model']]
    holds for it. *)
Theorem generator_loaded_from_checkpoint (model_opt : Opt)
    (fields : gmap string (Field Vocab)) (gpu : bool) (checkpoint : Checkpoint)
    (train_part : string) (m : NMTModel) (g : Generator) (s s' : Store)
    (k : string) (l : loc) :
  make_base_model model_opt fields gpu (Some checkpoint) train_part s
  = Ok (m, s') ->
  NoDup (dict_keys (ck_generator checkpoint)) ->
  generator m = Some g ->
  dict_get k (state_dict (Generator_named g)) = Some (DataOf l) ->
  exists t, dict_get k (ck_generator checkpoint) = Some t /\
            data <$> cells s' !! l = Some t.
Proof.
  intros Hrun Hnd Hgen Hk.
  apply make_base_model_cells in Hrun
    as (m0 & g0 & s1 & s2 & Hb & -> & Hload & Hc & _).
  simpl in Hgen. injection Hgen as ->.
  apply load_checkpoint_inv in Hload
    as (model_dict & sa & sb & sc & Hemit & _ & Hlm & Hlg & Hfreeze & _).
  pose proof (state_dict_elem _ _ _ Hk) as Hin.
  pose proof (named_loc _ _ _ Hin) as Hl.
  assert (Hkey : k ∈ dict_keys (ck_generator checkpoint)).
  { rewrite <- (checkpoint_keys (ck_generator checkpoint)).
    apply (proj1 (load_state_dict_strict_returns (Generator_named g) _ sb));
      [by exists sc|].
    apply list_elem_of_fmap. by exists (k, l). }
  apply dict_has_true in Hkey. unfold dict_has in Hkey.
  destruct (dict_get k (ck_generator checkpoint)) as [t|] eqn:Ht; [|done].
  exists t. split; [done|]. rewrite Hc.
  assert (Hsb : is_Some (cells sb !! l)).
  { destruct (build_modules_cells _ _ _ _ _ _ _ l Hb (or_intror Hl))
      as (_ & nd & Hcell).
    destruct (load_state_dict_lenient (NMTModel_named m0) model_dict sa)
      as (sb' & Hm' & [Hr _]).
    rewrite Hm' in Hlm. injection Hlm as ->.
    apply (rewrites_is_Some sa sb l Hr).
    rewrite (emit_cells _ _ _ _ Hemit). by eexists. }
  assert (Hsc : data <$> cells sc !! l = Some t).
  { eapply (load_state_dict_data (Generator_named g)); [| | | |exact Hsb|exact Hlg].
    - by rewrite checkpoint_keys.
    - exact Hk.
    - intros k' Hin'.
      eapply unique_name; [|exact Hin|exact Hin'].
      by eapply generator_parameters_NoDup.
    - apply dict_get_Some_elem in Ht. apply list_elem_of_fmap.
      by exists (k, t). }
  destruct (String.eqb train_part "context"); [|by injection Hfreeze as <-].
  destruct (doc_context m0) as [context|] eqn:Hctx.
  2:{ pose proof (freeze_main_unfreeze_context_spec model_opt m0 g sc) as Hf.
      rewrite Hctx in Hf. destruct Hf as (msg & Hf). congruence. }
  destruct (freeze_main_unfreeze_context_applies model_opt m0 g context sc Hctx)
    as (t1 & t2 & t3 & Hf & H1 & H2 & H3).
  rewrite Hf in Hfreeze. injection Hfreeze as ->.
  rewrite (applies_other _ _ _ _ _ H3).
  2:{ intros Hinc. by apply (generator_not_context _ _ _ _ _ _ l _ _ Hb Hctx). }
  rewrite (H2 l), (H1 l).
  destruct (cells sc !! l) as [p|]; [|done]. simpl in Hsc.
  destruct (bool_decide (l ∈ (Generator_named g).*2));
    destruct (bool_decide (l ∈ (NMTModel_named m0).*2)); simpl; done.
Qed.

(** X8: after a returned call with a checkpoint and [train_part] other
    than "context", a parameter of the model that the generator does not
    hold, with one name, holds the tensor [checkpoint['model']] has under
    that name; when the checkpoint has no such key nothing is reported, and
    the parameter holds what its constructor put there. *)
Theorem model_loaded_from_checkpoint (model_opt : Opt)
    (fields : gmap string (Field Vocab)) (gpu : bool) (checkpoint : Checkpoint)
    (train_part : string) (m : NMTModel) (s s' : Store)
    (k : string) (l : loc) :
  make_base_model model_opt fields gpu (Some checkpoint) train_part s
  = Ok (m, s') ->
  train_part <> "context" ->
  NoDup (dict_keys (ck_model checkpoint)) ->
  (k, l) ∈ NMTModel_named m ->
  (forall k' l', (k', l') ∈ NMTModel_named m -> k' = k <-> l' = l) ->
  (forall g, generator m = Some g -> l ∉ (Generator_named g).*2) ->
  data <$> cells s' !! l
  = Some (match dict_get k (ck_model checkpoint) with
          | Some t => t
          | None => Initial l
          end).
Proof.
  intros Hrun Htp Hnd Hin Huniq Hgen.
  apply make_base_model_cells in Hrun
    as (m0 & g & s1 & s2 & Hb & -> & Hload & Hc & _).
  specialize (Hgen g eq_refl).
  pose proof Hb as Hb'.
  apply build_modules_inv in Hb'
    as (? & ? & ? & ? & ? & ? & _ & _ & _ & _ & _ & Hg0 & _).
  rewrite (set_generator_named_app _ _ Hg0) in Hin, Huniq.
  assert (Hin0 : (k, l) ∈ NMTModel_named m0).
  { apply elem_of_app in Hin as [Hin|Hin]; [done|].
    destruct Hgen. apply named_loc in Hin. by rewrite prefixed_locs in Hin. }
  assert (Hk : dict_get k (state_dict (NMTModel_named m0)) = Some (DataOf l)).
  { apply state_dict_get; [done|]. intros l' Hin'.
    apply (Huniq k l'); [|done]. apply elem_of_app. by left. }
  apply load_checkpoint_inv in Hload
    as (model_dict & sa & sb & sc & Hemit & Hdict & Hlm & Hlg & Hfreeze & _).
  apply emit_cells in Hemit.
  unfold checkpoint_model_dict in Hdict.
  destruct (String.eqb_spec train_part "context") as [|_]; [done|].
  injection Hdict as <-. injection Hfreeze as <-.
  rewrite Hc, (load_state_dict_other _ _ _ l _ _ Hgen Hlg).
  destruct (build_modules_cells _ _ _ _ _ _ _ l Hb
              (or_introl (named_loc _ _ _ Hin0))) as (_ & nd & Hcell).
  destruct (dict_get k (ck_model checkpoint)) as [t|] eqn:Ht.
  - eapply (load_state_dict_data (NMTModel_named m0)); [| | | | |exact Hlm].
    + by rewrite checkpoint_keys.
    + exact Hk.
    + intros k' Hin'. apply (Huniq k' l); [|done]. apply elem_of_app. by left.
    + apply dict_get_Some_elem in Ht. apply list_elem_of_fmap. by exists (k, t).
    + rewrite Hemit. by eexists.
  - destruct (load_state_dict_frame (NMTModel_named m0)
                (map (fun kv => (kv.1, Value kv.2)) (ck_model checkpoint)) l sa)
      as (sb' & Hlm' & Hsame).
    { intros k0 src Hin' Hk0. apply state_dict_elem in Hk0.
      assert (k0 = k) as ->.
      { apply (Huniq k0 l); [|done]. apply elem_of_app. by left. }
      apply dict_get_None_keys in Ht. destruct Ht.
      rewrite <- (checkpoint_keys (ck_model checkpoint)).
      apply list_elem_of_fmap. by exists (k, src). }
    rewrite Hlm' in Hlm. injection Hlm as ->.
    rewrite Hsame, Hemit. transitivity (data <$> Some (mkParam (Initial l) true nd []));
      [f_equal; exact Hcell | done].
Qed.

End Checkpoint.

Section ContextTraining.
Context `{Collaborators}.

Lemma filter_pretrained_from (model_dict : dict tref) (items : dict tensor)
    (k : string) :
  k ∈ dict_keys (filter_pretrained model_dict items) -> k ∈ dict_keys items.
Proof.
  unfold filter_pretrained. intros Hk.
  apply (proj1 (dict_of_items_keys _ _)) in Hk.
  apply list_elem_of_fmap in Hk as ([k' v] & -> & Hin).
  apply list_elem_of_fmap in Hin as ([k0 v0] & [= -> ->] & Hin).
  apply list_elem_of_filter in Hin as [_ Hin].
  apply list_elem_of_fmap. by exists (k0, v0).
Qed.

(** X9: training the context on top of a pretrained model.  After a
    returned call with a checkpoint, [train_part = "context"] and a context
    type without "join", a parameter of the main model (its one name does
    not contain "doc_context", and the generator does not hold it) holds the
    tensor [checkpoint['model']] has under that name, and what its
    constructor put there when the checkpoint has no such key: the
    re-initialisation of the context does not reach it. *)
Theorem main_model_loaded_for_context_training (model_opt : Opt)
    (fields : gmap string (Field Vocab)) (gpu : bool) (checkpoint : Checkpoint)
    (ct : string) (m : NMTModel) (s s' : Store) (k : string) (l : loc) :
  make_base_model model_opt fields gpu (Some checkpoint) "context" s
  = Ok (m, s') ->
  context_type model_opt = Some ct ->
  str_contains "join" ct = false ->
  NoDup (dict_keys (ck_model checkpoint)) ->
  (k, l) ∈ NMTModel_named m ->
  (forall k' l', (k', l') ∈ NMTModel_named m -> k' = k <-> l' = l) ->
  (forall g, generator m = Some g -> l ∉ (Generator_named g).*2) ->
  str_contains "doc_context" k = false ->
  data <$> cells s' !! l
  = Some (match dict_get k (ck_model checkpoint) with
          | Some t => t
          | None => Initial l
          end).
Proof.
  intros Hrun Hct Hjoin Hnd Hin Huniq Hgen Hdoc.
  apply make_base_model_cells in Hrun
    as (m0 & g & s1 & s2 & Hb & -> & Hload & Hc & _).
  specialize (Hgen g eq_refl).
  pose proof Hb as Hb'.
  apply build_modules_inv in Hb'
    as (? & ? & ? & ? & ? & ? & _ & _ & _ & _ & _ & Hg0 & _).
  rewrite (set_generator_named_app _ _ Hg0) in Hin, Huniq.
  assert (Hin0 : (k, l) ∈ NMTModel_named m0).
  { apply elem_of_app in Hin as [Hin|Hin]; [done|].
    destruct Hgen. apply named_loc in Hin. by rewrite prefixed_locs in Hin. }
  assert (Hname : forall k', (k', l) ∈ NMTModel_named m0 -> k' = k).
  { intros k' Hin'. apply (Huniq k' l); [|done]. apply elem_of_app. by left. }
  set (own := state_dict (NMTModel_named m0)).
  assert (Hk : dict_get k own = Some (DataOf l)).
  { apply state_dict_get; [done|]. intros l' Hin'.
    apply (Huniq k l'); [|done]. apply elem_of_app. by left. }
  apply load_checkpoint_inv in Hload
    as (model_dict & sa & sb & sc & Hemit & Hdict & Hlm & Hlg & Hfreeze & _).
  apply emit_cells in Hemit.
  unfold checkpoint_model_dict in Hdict. simpl in Hdict.
  rewrite Hct, Hjoin in Hdict. injection Hdict as <-. fold own in Hlm.
  set (pretrained := filter_pretrained own (ck_model checkpoint)) in *.
  assert (Hkeys : NoDup (dict_keys (dict_update own pretrained))).
  { apply dict_update_NoDup, dict_of_items_NoDup. }
  destruct (build_modules_cells _ _ _ _ _ _ _ l Hb
              (or_introl (named_loc _ _ _ Hin0))) as (_ & nd & Hcell).
  assert (Hsb : data <$> cells sb !! l
                = Some (match dict_get k (ck_model checkpoint) with
                        | Some t => t
                        | None => Initial l
                        end)).
  { destruct (dict_get k (ck_model checkpoint)) as [t|] eqn:Ht.
    - eapply (load_state_dict_data (NMTModel_named m0));
        [exact Hkeys|exact Hk|exact Hname| |
         rewrite Hemit; by eexists|exact Hlm].
      apply dict_get_Some_elem. apply dict_get_update_elem.
      + apply dict_of_items_NoDup.
      + apply dict_get_Some_elem. apply filter_pretrained_get; try done.
        unfold dict_has. by rewrite Hk.
    - destruct (load_state_dict_frame (NMTModel_named m0)
                  (dict_update own pretrained) l sa) as (sb' & Hlm' & Hsame).
      { intros k0 src Hin' Hk0. apply state_dict_elem in Hk0.
        apply Hname in Hk0 as ->.
        apply (dict_get_elem _ _ _ Hkeys) in Hin'.
        rewrite dict_get_update_other in Hin'; [congruence|].
        intros Hfrom. apply filter_pretrained_from in Hfrom.
        by apply dict_get_None_keys in Ht. }
      rewrite Hlm' in Hlm. injection Hlm as ->.
      rewrite Hsame, Hemit.
      transitivity (data <$> Some (mkParam (Initial l) true nd []));
        [f_equal; exact Hcell | done]. }
  rewrite Hc. rewrite <- Hsb.
  rewrite <- (load_state_dict_other _ _ _ l _ _ Hgen Hlg).
  simpl in Hfreeze.
  destruct (doc_context m0) as [context|] eqn:Hctx.
  2:{ pose proof (freeze_main_unfreeze_context_spec model_opt m0 g sc) as Hf.
      rewrite Hctx in Hf. destruct Hf as (msg & Hf). congruence. }
  destruct (freeze_main_unfreeze_context_applies model_opt m0 g context sc Hctx)
    as (t1 & t2 & t3 & Hf & H1 & H2 & H3).
  rewrite Hf in Hfreeze. injection Hfreeze as ->.
  rewrite (applies_other _ _ _ _ _ H3).
  2:{ intros Hinc.
      pose proof (context_parameter_names _ _ _ _ _ _ _ _ _ _ Hb Hctx Hinc Hin0).
      congruence. }
  rewrite (H2 l), (H1 l).
  destruct (bool_decide (l ∈ (Generator_named g).*2));
    destruct (bool_decide (l ∈ (NMTModel_named m0).*2));
    by destruct (cells sc !! l).
Qed.

End ContextTraining.

(** ** Every parameter a call creates, in order *)

Lemma consecutive_nil (lo : loc) : consecutive lo lo [].
Proof. split; [done|]. by rewrite Nat.sub_diag. Qed.

Lemma consecutive_app (a b c : loc) (ps qs : params) :
  consecutive a b ps -> consecutive b c qs -> consecutive a c (ps ++ qs).
Proof.
  intros [Hab Hps] [Hbc Hqs]. split; [lia|].
  rewrite fmap_app, Hps, Hqs.
  replace (c - a)%nat with ((b - a) + (c - b))%nat by lia.
  rewrite List.seq_app. do 2 f_equal. lia.
Qed.

Lemma consecutive_prefixed (a b : loc) (p : string) (ps : params) :
  consecutive a b ps -> consecutive a b (prefixed p ps).
Proof. intros [Hab Hps]. split; [done|]. by rewrite prefixed_locs. Qed.

Lemma consecutive_NoDup (a b : loc) (ps : params) :
  consecutive a b ps -> NoDup ps.*2.
Proof. intros [_ ->]. apply NoDup_seq. Qed.

Lemma alloc_params_consecutive (layout : list (string * nat)) (ps : params)
    (s s' : Store) :
  alloc_params layout s = Ok (ps, s') -> consecutive (next s) (next s') ps.
Proof.
  intros Hrun. apply alloc_params_locs in Hrun as (Hlocs & Hnext & _).
  split; [lia|]. rewrite Hlocs. f_equal. lia.
Qed.

Section Allocation.
Context `{Collaborators}.

Lemma new_Embeddings_consecutive (args : EmbeddingsArgs) (e : Embeddings)
    (s s' : Store) :
  new_Embeddings args s = Ok (e, s') ->
  emb_args e = args /\ word_lut_weight e = next s /\
  consecutive (next s) (next s') (Embeddings_named e).
Proof.
  unfold new_Embeddings. intros Hrun. inv_bind Hrun.
  injection Hrun0 as <- <-. inv_bind Hrun. injection Hrun as <- <-.
  apply alloc_params_consecutive in Hrun0 as [Hle Hlocs]. simpl in *.
  split; [done|]. split; [done|]. split; [lia|].
  replace (next s0 - next s)%nat with (S (next s0 - S (next s)))%nat by lia.
  unfold Embeddings_named. simpl. f_equal. exact Hlocs.
Qed.

Lemma new_Encoder_consecutive (c : EncoderClass) (e : Encoder) (s s' : Store) :
  new_Encoder c s = Ok (e, s') ->
  enc_class e = c /\ consecutive (next s) (next s') (enc_params e).
Proof.
  unfold new_Encoder. intros Hrun. inv_bind Hrun. injection Hrun as <- <-.
  split; [done|]. by eapply alloc_params_consecutive.
Qed.

Lemma new_Decoder_consecutive (c : DecoderClass) (d : Decoder) (s s' : Store) :
  new_Decoder c s = Ok (d, s') ->
  dec_class d = c /\ consecutive (next s) (next s') (dec_params d).
Proof.
  unfold new_Decoder. intros Hrun. inv_bind Hrun. injection Hrun as <- <-.
  split; [done|]. by eapply alloc_params_consecutive.
Qed.

Lemma new_HierarchicalContext_consecutive (args : HierarchicalContextArgs)
    (c : HierarchicalContext) (s s' : Store) :
  new_HierarchicalContext args s = Ok (c, s') ->
  hc_args c = args /\ consecutive (next s) (next s') (hc_params c) /\
  (hc_params c).*1 = (HierarchicalContext_layout args).*1.
Proof.
  unfold new_HierarchicalContext. intros Hrun. inv_bind Hrun.
  injection Hrun as <- <-. split; [done|].
  split; [by eapply alloc_params_consecutive|].
  by apply alloc_params_locs in Hrun0 as (_ & _ & ?).
Qed.

Lemma make_encoder_consecutive (opt : Opt) (embeddings : Embeddings)
    (e : Encoder) (s s' : Store) :
  make_encoder opt embeddings s = Ok (e, s') ->
  enc_embeddings e = Some embeddings /\
  consecutive (next s) (next s') (enc_params e).
Proof.
  unfold make_encoder. intros Hrun.
  repeat match type of Hrun with
         | (if ?b then _ else _) _ = _ => destruct b
         end;
    apply new_Encoder_consecutive in Hrun as [Hc Hp];
    (split; [|done]); unfold enc_embeddings; by rewrite Hc.
Qed.

Lemma make_decoder_consecutive (opt : Opt) (embeddings : Embeddings)
    (d : Decoder) (s s' : Store) :
  make_decoder opt embeddings s = Ok (d, s') ->
  dec_embeddings d = embeddings /\
  consecutive (next s) (next s') (dec_params d).
Proof.
  unfold make_decoder. intros Hrun.
  repeat match type of Hrun with
         | (if ?b then _ else _) _ = _ => destruct b
         end;
    apply new_Decoder_consecutive in Hrun as [Hc Hp];
    (split; [|done]); unfold dec_embeddings; by rewrite Hc.
Qed.

Lemma build_encoder_consecutive (model_opt : Opt)
    (fields : gmap string (Field Vocab)) (src_dict : option Vocab)
    (src_embeddings : option Embeddings) (e : Encoder) (s s1 : Store) :
  build_encoder model_opt fields s
  = Ok ((src_dict, src_embeddings, Some e), s1) ->
  consecutive (next s) (next s1) (Encoder_named e).
Proof.
  unfold build_encoder. intros Hrun.
  destruct (String.eqb (model_type model_opt) "text").
  - inv_bind Hrun. apply getitem_Ok in Hrun0 as [_ ->].
    inv_bind Hrun. unfold make_embeddings in Hrun0.
    apply new_Embeddings_consecutive in Hrun0 as (_ & _ & Hemb).
    inv_bind Hrun. injection Hrun as <- <- <- <-.
    apply make_encoder_consecutive in Hrun0 as [Hsome Hp].
    unfold Encoder_named. rewrite Hsome.
    eapply consecutive_app; [|exact Hp]. by apply consecutive_prefixed.
  - destruct (String.eqb (model_type model_opt) "img").
    + inv_bind Hrun. injection Hrun as <- <- <- <-.
      apply new_Encoder_consecutive in Hrun0 as [Hc Hp].
      unfold Encoder_named, enc_embeddings. by rewrite Hc.
    + destruct (String.eqb (model_type model_opt) "audio"); [|done].
      inv_bind Hrun. injection Hrun as <- <- <- <-.
      apply new_Encoder_consecutive in Hrun0 as [Hc Hp].
      unfold Encoder_named, enc_embeddings. by rewrite Hc.
Qed.

Lemma build_decoder_consecutive (model_opt : Opt)
    (fields : gmap string (Field Vocab)) (src_dict : option Vocab)
    (src_embeddings : option Embeddings) (tgt_dict : Vocab) (d : Decoder)
    (s s1 : Store) :
  share_embeddings model_opt = false ->
  build_decoder model_opt fields src_dict src_embeddings s
  = Ok ((tgt_dict, d), s1) ->
  consecutive (next s) (next s1) (Decoder_named d).
Proof.
  unfold build_decoder. intros Hshare Hrun.
  inv_bind Hrun. apply getitem_Ok in Hrun0 as [_ ->].
  inv_bind Hrun. unfold make_embeddings in Hrun0.
  apply new_Embeddings_consecutive in Hrun0 as (_ & _ & Hemb).
  inv_bind Hrun. unfold share_embedding_matrix in Hrun0.
  rewrite Hshare in Hrun0. injection Hrun0 as <- <-.
  inv_bind Hrun. injection Hrun as <- <- <-.
  apply make_decoder_consecutive in Hrun0 as [Hsome Hp].
  unfold Decoder_named. rewrite Hsome.
  eapply consecutive_app; [|exact Hp]. by apply consecutive_prefixed.
Qed.

Lemma make_context_consecutive (opt : Opt) (tgt_dict : Vocab)
    (c : option Context) (s s' : Store) :
  make_context opt tgt_dict s = Ok (c, s') ->
  consecutive (next s) (next s')
    (match c with Some c => Context_named c | None => [] end).
Proof.
  unfold make_context. intros Hrun.
  destruct (context_type opt) as [ct|].
  - destruct (String.eqb ct "HAN_join").
    + inv_bind Hrun. inv_bind Hrun. injection Hrun as <- <-.
      apply new_HierarchicalContext_consecutive in Hrun0 as (_ & H0 & _).
      apply new_HierarchicalContext_consecutive in Hrun1 as (_ & H1 & _).
      simpl. rewrite app_nil_r.
      eapply consecutive_app; by apply consecutive_prefixed.
    + inv_bind Hrun. injection Hrun as <- <-.
      by apply new_HierarchicalContext_consecutive in Hrun0 as (_ & H0 & _).
  - injection Hrun as <- <-. apply consecutive_nil.
Qed.

Lemma build_generator_consecutive (model_opt : Opt)
    (fields : gmap string (Field Vocab)) (d : Decoder) (g : Generator)
    (s s' : Store) :
  opt_copy_attn model_opt = true \/ share_decoder_embeddings model_opt = false ->
  build_generator model_opt fields d s = Ok (g, s') ->
  consecutive (next s) (next s') (Generator_named g).
Proof.
  intros Hcase Hrun.
  destruct (opt_copy_attn model_opt) eqn:Hcopy.
  - unfold build_generator in Hrun. rewrite Hcopy in Hrun. simpl in Hrun.
    inv_bind Hrun. apply getitem_Ok in Hrun0 as [_ ->].
    unfold new_CopyGenerator in Hrun. inv_bind Hrun.
    injection Hrun as <- <-. simpl. by eapply alloc_params_consecutive.
  - destruct Hcase as [|Hshare]; [done|].
    apply build_generator_inv in Hrun as (tgt & _ & _ & _ & Hlin).
    destruct (Hlin Hcopy) as (lin & -> & _ & _ & Hbias & Hnext & Hweight).
    rewrite Hshare in Hweight. split; [lia|]. simpl.
    rewrite Hbias, Hweight, Hnext.
    by replace (S (S (next s)) - next s)%nat with 2%nat by lia.
Qed.

(** X10: when neither the embeddings nor the decoder embeddings and the
    generator are shared, the parameters of the returned model, in the order
    of their names, are exactly the parameters the call created, in the
    order of their creation: each has one name, and the call created none
    that the model does not hold. *)
Theorem parameters_are_the_created_ones (model_opt : Opt)
    (fields : gmap string (Field Vocab)) (gpu : bool)
    (checkpoint : option Checkpoint) (train_part : string)
    (m : NMTModel) (s s' : Store) :
  share_embeddings model_opt = false ->
  opt_copy_attn model_opt = true \/ share_decoder_embeddings model_opt = false ->
  make_base_model model_opt fields gpu checkpoint train_part s = Ok (m, s') ->
  (NMTModel_named m).*2 = seq (next s) (next s' - next s) /\
  NoDup (NMTModel_named m).*2 /\
  parameters (NMTModel_named m) = (NMTModel_named m).*2.
Proof.
  intros Hshare Hgen Hrun.
  assert (Hcons : consecutive (next s) (next s') (NMTModel_named m)).
  { pose proof (make_base_model_inv _ _ _ _ _ _ _ _ Hrun)
      as (m0 & g & s1 & s2 & Hb & -> & Hst & [[Hn2 _] _]).
    assert (Hn1 : next s2 = next s1).
    { destruct checkpoint as [ck|].
      - destruct (load_checkpoint_spec model_opt m0 g ck train_part s1)
          as [(e & Hl & _)|(s2' & Hl & Hp)]; [congruence|].
        rewrite Hl in Hst. injection Hst as ->.
        destruct (String.eqb train_part "context").
        + by destruct Hp as (? & _ & [[? _] _]).
        + by destruct Hp as [[? _] _].
      - destruct (init_parameters_spec model_opt m0 g s1)
          as (s2' & Hi & [[Hp _] _]).
        rewrite Hi in Hst. by injection Hst as ->. }
    rewrite Hn2, Hn1.
    apply build_modules_inv in Hb
      as (sd & se & tgt & sa & sb & sc & _ & Henc & _ & Hdec & Hctx & Hg0 &
          Hbg & _).
    rewrite (set_generator_named_app _ _ Hg0).
    unfold NMTModel_named. rewrite Hg0, app_nil_r.
    apply build_encoder_consecutive in Henc.
    apply (build_decoder_consecutive _ _ _ _ _ _ _ _ Hshare) in Hdec.
    apply make_context_consecutive in Hctx.
    apply (build_generator_consecutive _ _ _ _ _ _ Hgen) in Hbg.
    rewrite <- !app_assoc.
    eapply consecutive_app; [by apply consecutive_prefixed|].
    eapply consecutive_app; [by apply consecutive_prefixed|].
    eapply consecutive_app; [|by apply consecutive_prefixed].
    destruct (doc_context m0); [by apply consecutive_prefixed | done]. }
  split; [apply Hcons|].
  assert (Hnd : NoDup (NMTModel_named m).*2) by by eapply consecutive_NoDup.
  split; [done|].
  by apply parameters_NoDup_id.
Qed.

End Allocation.

(** ** What the constructors are given *)

Section Built.
Context `{Collaborators}.

(** X11: [make_embeddings] always returns an [Embeddings] object: its
    dimension is [src_word_vec_size] for an encoder and [tgt_word_vec_size]
    for a decoder; the padding index and the size are those of the word
    dictionary; the feature padding indices and sizes are those of the
    feature dictionaries, one each and in their order; it is sparse exactly
    when the optimiser is "sparseadam"; its word-lookup matrix and its other
    parameters are new objects, created one after the other. *)
Theorem make_embeddings_builds (opt : Opt) (word_dict : Vocab)
    (feature_dicts : list Vocab) (for_encoder : bool) (s : Store) :
  exists e s',
    make_embeddings opt word_dict feature_dicts for_encoder s = Ok (e, s') /\
    word_vec_size (emb_args e)
    = (if for_encoder then src_word_vec_size opt else tgt_word_vec_size opt) /\
    word_padding_idx (emb_args e) = stoi word_dict PAD_WORD /\
    word_vocab_size (emb_args e) = vocab_len word_dict /\
    length (feat_padding_idx (emb_args e)) = length feature_dicts /\
    length (feat_vocab_sizes (emb_args e)) = length feature_dicts /\
    (forall i d, feature_dicts !! i = Some d ->
       feat_padding_idx (emb_args e) !! i = Some (stoi d PAD_WORD) /\
       feat_vocab_sizes (emb_args e) !! i = Some (vocab_len d)) /\
    (sparse (emb_args e) = true <-> optim opt = "sparseadam") /\
    allocates s s' /\
    word_lut_weight e = next s /\
    (Embeddings_named e).*2 = seq (next s) (next s' - next s).
Proof.
  destruct (make_embeddings_spec opt word_dict feature_dicts for_encoder s)
    as (e & s' & Hrun & Halloc & _).
  exists e, s'. split; [done|].
  unfold make_embeddings in Hrun.
  apply new_Embeddings_consecutive in Hrun as (Hargs & Hw & [_ Hlocs]).
  rewrite Hargs. simpl.
  split; [done|]. split; [done|]. split; [done|].
  split; [by rewrite length_map|]. split; [by rewrite length_map|].
  split.
  { intros i d Hi. rewrite !list_lookup_fmap, Hi. done. }
  split; [apply String.eqb_eq|]. done.
Qed.

(** The model [build_modules] returns is the one [build_model] made. *)
Lemma build_modules_model (model_opt : Opt)
    (fields : gmap string (Field Vocab)) (gpu : bool) (m : NMTModel)
    (g : Generator) (s s' : Store) :
  build_modules model_opt fields gpu s = Ok ((m, g), s') ->
  exists e d c s3, build_model model_opt fields gpu e d c s3 = Ok (m, s3).
Proof.
  unfold build_modules. intros Hrun.
  split_bind Hrun as Hassert.
  split_bind Hrun as Henc. destruct a0 as [[src_dict src_embeddings] enc].
  split_bind Hrun as Hdec. destruct a0 as [tgt_dict dec].
  split_bind Hrun as Hctx.
  split_bind Hrun as Hloc.
  split_bind Hrun as Hmodel.
  split_bind Hrun as Hg. injection Hrun as <- <- <-.
  pose proof (build_model_inv _ _ _ _ _ _ _ _ _ Hmodel) as (-> & _).
  by eexists _, _, _, _.
Qed.

(** X12: the attributes of a returned model: [model_type] and
    [context_type] are those of the options; there is a context exactly when
    there is a context type; the model is built for RISK training exactly
    when [RISK_ratio > 0.0], and then with the target vocabulary, the search
    options and a [GNMTGlobalScorer] made from [alpha], [beta] and the two
    penalties. *)
Theorem returned_model_attributes (model_opt : Opt)
    (fields : gmap string (Field Vocab)) (gpu : bool)
    (checkpoint : option Checkpoint) (train_part : string)
    (m : NMTModel) (s s' : Store) :
  make_base_model model_opt fields gpu checkpoint train_part s = Ok (m, s') ->
  exists tgt,
    fields !! "tgt" = Some tgt /\
    m_model_type m = Some (model_type model_opt) /\
    m_context_type m = context_type model_opt /\
    (doc_context m = None <-> context_type model_opt = None) /\
    m_risk m
    = if float_positive (RISK_ratio model_opt)
      then Some (mkRiskArgs (vocab tgt) (beam_size model_opt)
                   (n_best model_opt) gpu
                   (mkGNMTGlobalScorer (alpha model_opt) (beta model_opt)
                      (coverage_penalty model_opt) (length_penalty model_opt))
                   (min_length model_opt) (max_length model_opt)
                   (stepwise_penalty model_opt) (block_ngram_repeat model_opt)
                   (ignore_when_blocking model_opt) (opt_copy_attn model_opt)
                   (context_size model_opt))
      else None.
Proof.
  intros Hrun.
  apply make_base_model_cells in Hrun as (m0 & g & s1 & s2 & Hb & -> & _).
  destruct (build_modules_model _ _ _ _ _ _ _ Hb) as (e & d & c & s3 & Hm).
  apply build_modules_inv in Hb
    as (? & ? & tgt & ? & ? & ? & _ & _ & Htgt & _ & _ & _ & _ &
        _ & _ & _ & _ & _ & _ & _ & Hctx).
  exists tgt. split; [done|]. simpl.
  unfold build_model in Hm. inv_bind Hm. injection Hm as <-. simpl in *.
  split; [done|]. split; [done|]. split; [done|].
  destruct (float_positive (RISK_ratio model_opt)).
  - inv_bind Hm0. apply getitem_Ok in Hm1 as [Htgt' ->].
    injection Hm0 as <-. congruence.
  - by injection Hm0 as <-.
Qed.

(** X13: the embeddings of a returned model.  Those of the decoder have the
    arguments and the parameters of the [Embeddings] that [make_embeddings]
    built over the target vocabulary with [for_encoder = False]; they are
    that object unless the embeddings are shared, in which case only the
    word-lookup matrix differs.  An encoder has embeddings only in a text
    model. *)
Theorem embeddings_of_returned_model (model_opt : Opt)
    (fields : gmap string (Field Vocab)) (gpu : bool)
    (checkpoint : option Checkpoint) (train_part : string)
    (m : NMTModel) (s s' : Store) :
  make_base_model model_opt fields gpu checkpoint train_part s = Ok (m, s') ->
  exists tgt tgt_embeddings s1 s1',
    fields !! "tgt" = Some tgt /\
    make_embeddings model_opt (vocab tgt)
      (collect_feature_vocabs fields "tgt") false s1
    = Ok (tgt_embeddings, s1') /\
    emb_args (dec_embeddings (decoder m)) = emb_args tgt_embeddings /\
    emb_params (dec_embeddings (decoder m)) = emb_params tgt_embeddings /\
    (share_embeddings model_opt = false ->
     dec_embeddings (decoder m) = tgt_embeddings) /\
    (is_Some (enc_embeddings (encoder m)) <-> model_type model_opt = "text").
Proof.
  intros Hrun.
  apply make_base_model_cells in Hrun as (m0 & g & s1 & s2 & Hb & -> & _).
  apply build_modules_inv in Hb
    as (sd & se & tgt & sa & sb & sc & _ & Henc & Htgt & Hdec & _).
  simpl. exists tgt.
  unfold build_decoder in Hdec. inv_bind Hdec.
  apply getitem_Ok in Hdec0 as [Htgt' ->].
  assert (a = tgt) as -> by congruence.
  inv_bind Hdec. rename a into tgt_embeddings. rename s0 into sa'.
  inv_bind Hdec. rename a into shared.
  inv_bind Hdec. injection Hdec as Hd _.
  apply make_decoder_consecutive in Hdec2 as [Hemb _]. rewrite Hd in Hemb.
  exists tgt_embeddings, sa, sa'. split; [done|]. split; [done|].
  rewrite Hemb.
  assert (Hshared : emb_args shared = emb_args tgt_embeddings /\
                    emb_params shared = emb_params tgt_embeddings /\
                    (share_embeddings model_opt = false ->
                     shared = tgt_embeddings)).
  { unfold share_embedding_matrix in Hdec1.
    destruct (share_embeddings model_opt).
    - inv_bind Hdec1. inv_bind Hdec1. inv_bind Hdec1.
      by injection Hdec1 as <- <-.
    - by injection Hdec1 as <- <-. }
  destruct Hshared as (Ha & Hp & Hs).
  split; [done|]. split; [done|]. split; [done|].
  apply build_encoder_inv in Henc
    as (_ & _ & _ & [(Hty & src & emb & sx & _ & _ & _ & _ & _ & Hsome)
                    |[(Hty & _ & _ & Hc)|(Hty & _ & _ & Hc)]]).
  - rewrite Hsome. split; [done | by eexists].
  - unfold enc_embeddings. rewrite Hc, Hty. split; [by intros [? ?] | done].
  - unfold enc_embeddings. rewrite Hc, Hty. split; [by intros [? ?] | done].
Qed.

End Built.

(** ** The options [load_test_model] hands on *)

Lemma dict_set_fresh {V} (k : string) (v : V) (d : dict V) :
  dict_has k d = false -> dict_set k v d = d ++ [(k, v)].
Proof.
  unfold dict_has. induction d as [|[k0 v0] d IH]; simpl; [done|].
  destruct (String.eqb k0 k); [done|]. intros Hk. by rewrite IH.
Qed.

Lemma load_test_model_opt_get {V} (model_opt dummy_opt : dict V) (k : string) :
  dict_get k (load_test_model_opt model_opt dummy_opt)
  = match dict_get k model_opt with
    | Some v => Some v
    | None => dict_get k dummy_opt
    end.
Proof.
  unfold load_test_model_opt. revert model_opt.
  induction dummy_opt as [|[k0 v0] dummy_opt IH]; intros model_opt; simpl.
  - by destruct (dict_get k model_opt).
  - rewrite IH. unfold dict_has.
    destruct (dict_get k0 model_opt) as [w|] eqn:Hk0; simpl.
    + destruct (dict_get k model_opt) as [v|] eqn:Hk; [done|].
      destruct (String.eqb_spec k0 k) as [->|_]; [congruence | done].
    + rewrite dict_get_set.
      destruct (String.eqb_spec k0 k) as [->|_]; [by rewrite Hk0 | done].
Qed.

Lemma load_test_model_opt_noop {V} (model_opt dummy_opt : dict V) :
  (forall k, k ∈ dict_keys dummy_opt -> dict_has k model_opt = true) ->
  load_test_model_opt model_opt dummy_opt = model_opt.
Proof.
  unfold load_test_model_opt, dict_keys.
  induction dummy_opt as [|[k0 v0] dummy_opt IH]; intros Hall; simpl; [done|].
  rewrite (Hall k0) by apply list_elem_of_here. simpl.
  apply IH. intros k Hk. by apply Hall, list_elem_of_further.
Qed.

(** X14: the options [load_test_model] hands to [make_base_model] are the
    checkpoint's own, completed from [dummy_opt]: an option the checkpoint has
    keeps its value, an option it lacks takes the value of [dummy_opt]; the
    checkpoint's options stay first and in order; completing a second time
    changes nothing. *)
Theorem load_test_model_opt_completes {V} (model_opt dummy_opt : dict V) :
  (forall k,
     dict_get k (load_test_model_opt model_opt dummy_opt)
     = match dict_get k model_opt with
       | Some v => Some v
       | None => dict_get k dummy_opt
       end) /\
  (exists added, load_test_model_opt model_opt dummy_opt = model_opt ++ added) /\
  load_test_model_opt (load_test_model_opt model_opt dummy_opt) dummy_opt
  = load_test_model_opt model_opt dummy_opt.
Proof.
  split; [apply load_test_model_opt_get|]. split.
  - unfold load_test_model_opt. revert model_opt.
    induction dummy_opt as [|[k0 v0] dummy_opt IH]; intros model_opt; simpl.
    + exists []. by rewrite app_nil_r.
    + destruct (dict_has k0 model_opt) eqn:Hk0; simpl; [apply IH|].
      rewrite (dict_set_fresh _ _ _ Hk0).
      destruct (IH (model_opt ++ [(k0, v0)])) as (added & ->).
      exists ((k0, v0) :: added). by rewrite <- app_assoc.
  - apply load_test_model_opt_noop. intros k Hk.
    apply dict_has_true in Hk. unfold dict_has in *.
    rewrite load_test_model_opt_get.
    destruct (dict_get k model_opt); [done|]. by destruct (dict_get k dummy_opt).
Qed.

(** ** The exceptions of [make_base_model] *)

Section Exceptions.
Context `{Collaborators}.

(** The loading block raises [KeyError], or the [TypeError] of line 249;
    never the [AttributeError] of line 269, which needs a model without
    context: the test of line 249 has then already failed. *)
Lemma load_checkpoint_Raise (model_opt : Opt) (m : NMTModel) (g : Generator)
    (checkpoint : Checkpoint) (train_part : string) (e : exn) (s : Store) :
  (doc_context m = None <-> context_type model_opt = None) ->
  load_checkpoint model_opt m g checkpoint train_part s = Raise e ->
  (exists msg, e = KeyError msg) \/
  (e = TypeError "argument of type 'NoneType' is not iterable" /\
   train_part = "context" /\ context_type model_opt = None).
Proof.
  intros Hctx. unfold load_checkpoint.
  destruct (emit_in_place (Print "Loading model parameters.") s)
    as (s1 & He & _).
  rewrite (bind_run _ _ _ _ _ He).
  destruct (checkpoint_model_dict model_opt m checkpoint train_part)
    as [model_dict|e'] eqn:Hdict.
  2:{ intros Hrun. right. unfold checkpoint_model_dict in Hdict.
      destruct (String.eqb_spec train_part "context") as [->|_]; [|done].
      destruct (context_type model_opt); [done|].
      injection Hdict as <-. unfold mbind, M_bind in Hrun. simpl in Hrun.
      by injection Hrun as <-. }
  assert (Hl : lift (Ok model_dict) s1 = Ok (model_dict, s1)) by done.
  rewrite (bind_run _ _ _ _ _ Hl).
  destruct (load_state_dict_lenient (NMTModel_named m) model_dict s1)
    as (s2 & Hm & _).
  rewrite (bind_run _ _ _ _ _ Hm).
  destruct (load_state_dict_strict (Generator_named g)
              (map (fun kv => (kv.1, Value kv.2)) (ck_generator checkpoint)) s2)
    as [(s3 & Hg & _)|(msg & Hg)].
  2:{ rewrite (bind_Raise _ _ _ _ Hg). intros [= <-]. left. by exists msg. }
  rewrite (bind_run _ _ _ _ _ Hg).
  destruct (String.eqb_spec train_part "context") as [->|_]; [|done].
  pose proof (freeze_main_unfreeze_context_spec model_opt m g s3) as Hf.
  destruct (doc_context m) as [context|].
  - destruct Hf as (s4 & Hf & _). by rewrite Hf.
  - unfold checkpoint_model_dict in Hdict. simpl in Hdict.
    by rewrite (proj1 Hctx eq_refl) in Hdict.
Qed.

(** X15: the only ways [make_base_model] fails.  An [AssertionError] is the
    unsupported model type or, for a text model that shares embeddings, the
    vocabulary mismatch; an [UnboundLocalError] is [src_dict], read for a
    model that shares embeddings and is not a text model; a [TypeError]
    needs a checkpoint, [train_part = "context"] and no context type; the
    [AttributeError] of line 269 is never raised. *)
Theorem make_base_model_exceptions (model_opt : Opt)
    (fields : gmap string (Field Vocab)) (gpu : bool)
    (checkpoint : option Checkpoint) (train_part : string) (s : Store) :
  match make_base_model model_opt fields gpu checkpoint train_part s with
  | Ok _ => True
  | Raise (AssertionError msg) =>
      (~ (model_type model_opt ∈ ["text"; "img"; "audio"]) /\
       msg = "Unsupported model type " +:+ model_type model_opt) \/
      (msg = share_vocab_message /\ share_embeddings model_opt = true /\
       model_type model_opt = "text")
  | Raise (UnboundLocalError name) =>
      name = "src_dict" /\ share_embeddings model_opt = true /\
      model_type model_opt <> "text"
  | Raise (KeyError _) => True
  | Raise (TypeError _) =>
      is_Some checkpoint /\ train_part = "context" /\
      context_type model_opt = None
  | Raise (AttributeError _) => False
  end.
Proof.
  destruct (make_base_model model_opt fields gpu checkpoint train_part s)
    as [r|e] eqn:Hrun; [done|].
  destruct (build_modules model_opt fields gpu s) as [[[m0 g] s1]|e'] eqn:Hb.
  - unfold make_base_model in Hrun. rewrite (bind_run _ _ _ _ _ Hb) in Hrun.
    destruct checkpoint as [ck|].
    + destruct (load_checkpoint model_opt m0 g ck train_part s1)
        as [[[] s2]|e'] eqn:Hl.
      { rewrite (bind_run _ _ _ _ _ Hl) in Hrun. by destruct gpu. }
      rewrite (bind_Raise _ _ _ _ Hl) in Hrun. injection Hrun as <-.
      apply build_modules_inv in Hb
        as (? & ? & ? & ? & ? & ? & _ & _ & _ & _ & _ & _ & _ &
            _ & _ & _ & _ & _ & _ & _ & Hctx).
      apply (load_checkpoint_Raise _ _ _ _ _ _ _ Hctx) in Hl
        as [(msg & ->)|(-> & Htp & Hct)]; [done|].
      split; [by eexists | done].
    + destruct (init_parameters_spec model_opt m0 g s1) as (s2 & Hi & _).
      rewrite (bind_run _ _ _ _ _ Hi) in Hrun. by destruct gpu.
  - rewrite (make_base_model_build_Raise _ _ _ _ _ _ _ Hb) in Hrun.
    injection Hrun as <-.
    pose proof (build_modules_outcome model_opt fields gpu s) as Hout.
    case_bool_decide as Hsup.
    + destruct Hout as [(_ & k & Hk)|[(Hsh & Hty & Hu)|[(Hsh & Hty & _ & Ha)
                       |((m & g & s' & Hok) & _)]]];
        rewrite Hb in *; simplify_eq; try done.
      right. done.
    + rewrite Hb in Hout. injection Hout as ->. by left.
Qed.

Lemma build_modules_KeyError (model_opt : Opt)
    (fields : gmap string (Field Vocab)) (gpu : bool) (s : Store) :
  model_type model_opt ∈ ["text"; "img"; "audio"] ->
  (model_type model_opt = "text" -> fields !! "src" = None ->
   build_modules model_opt fields gpu s = Raise (KeyError "src")) /\
  ((model_type model_opt <> "text" \/ is_Some (fields !! "src")) ->
   fields !! "tgt" = None ->
   build_modules model_opt fields gpu s = Raise (KeyError "tgt")).
Proof.
  intros Hsup.
  assert (Ha : assert_ (bool_decide (model_type model_opt ∈ ["text"; "img"; "audio"]))
                 ("Unsupported model type " +:+ model_type model_opt) s
               = Ok (tt, s)).
  { apply assert_Ok. split; [by apply bool_decide_eq_true | done]. }
  destruct (build_encoder_cases model_opt fields s Hsup)
    as [(Htext & Hsrc & Henc)|(sd & se & e & s1 & Henc & Htext & _)]; split.
  - intros _ _. unfold build_modules. rewrite (bind_run _ _ _ _ _ Ha).
    by rewrite (bind_Raise _ _ _ _ Henc).
  - intros [Hnt|[x Hx]] _; congruence.
  - intros Hty Hsrc. destruct (Htext Hty) as (src & _ & Hsome & _). congruence.
  - intros _ Htgt.
    pose proof (build_decoder_cases model_opt fields sd se s1) as Hdec.
    rewrite Htgt in Hdec. unfold build_modules.
    rewrite (bind_run _ _ _ _ _ Ha). rewrite (bind_run _ _ _ _ _ Henc).
    by rewrite (bind_Raise _ _ _ _ Hdec).
Qed.

(** X16: without checkpoint, [make_base_model] raises [KeyError] exactly when
    the model type is supported and a field it reads is missing: "src" for a
    text model without source field, otherwise "tgt" when the target field
    is missing. *)
Theorem missing_field_KeyError (model_opt : Opt)
    (fields : gmap string (Field Vocab)) (gpu : bool) (train_part : string)
    (s : Store) (k : string) :
  make_base_model model_opt fields gpu None train_part s = Raise (KeyError k)
  <->
  model_type model_opt ∈ ["text"; "img"; "audio"] /\
  ((model_type model_opt = "text" /\ fields !! "src" = None /\ k = "src") \/
   ((model_type model_opt <> "text" \/ is_Some (fields !! "src")) /\
    fields !! "tgt" = None /\ k = "tgt")).
Proof.
  pose proof (build_modules_outcome model_opt fields gpu s) as Hout.
  split.
  - intros Hrun.
    assert (Hb : build_modules model_opt fields gpu s = Raise (KeyError k)).
    { destruct (build_modules model_opt fields gpu s) as [[[m0 g] s1]|e'] eqn:Hb.
      - unfold make_base_model in Hrun. rewrite (bind_run _ _ _ _ _ Hb) in Hrun.
        destruct (init_parameters_spec model_opt m0 g s1) as (s2 & Hi & _).
        rewrite (bind_run _ _ _ _ _ Hi) in Hrun. by destruct gpu.
      - rewrite (make_base_model_build_Raise _ _ _ _ _ _ _ Hb) in Hrun.
        congruence. }
    case_bool_decide as Hsup; [|congruence].
    split; [done|].
    destruct (build_modules_KeyError model_opt fields gpu s Hsup) as [Hsrc Htgt].
    destruct (decide (model_type model_opt = "text")) as [Hty|Hty].
    + destruct (fields !! "src") as [src|] eqn:Esrc.
      * destruct (fields !! "tgt") as [tgt|] eqn:Etgt.
        -- destruct Hout as [([Hn|[_ Hn]] & _)|[(_ & Hnt & _)|[(_ & _ & _ & Ha)|((m & g & s' & Hok) & _)]]];
             congruence.
        -- right. rewrite Htgt in Hb by eauto. by injection Hb as <-; eauto.
      * left. rewrite Hsrc in Hb by done. by injection Hb as <-.
    + destruct (fields !! "tgt") as [tgt|] eqn:Etgt.
      * destruct Hout as [([Hn|[Ht _]] & _)|[(_ & _ & Hu)|[(_ & Ht & _)|((m & g & s' & Hok) & _)]]];
          congruence.
      * right. rewrite Htgt in Hb by eauto. by injection Hb as <-; eauto.
  - intros [Hsup [(Hty & Hsrc & ->)|(Hcase & Htgt & ->)]];
      apply make_base_model_build_Raise;
      by apply (build_modules_KeyError model_opt fields gpu s Hsup).
Qed.

End Exceptions.

(** * Loading and initialisation, on the parameters *)

Lemma copy_value (l : loc) (v : tensor) (s s' : Store) :
  copy_ l (Value v) s = Ok (tt, s') ->
  cells s' !! l = set_data v <$> cells s !! l.
Proof.
  unfold copy_, update. intros [= <-]. simpl. by rewrite lookup_alter_eq.
Qed.

Lemma copy_self (l l0 : loc) (s s' : Store) :
  copy_ l (DataOf l) s = Ok (tt, s') -> cells s' !! l0 = cells s !! l0.
Proof.
  intros Hrun. destruct (copy_frame l l0 (DataOf l) s) as (s1 & Hc & Hs1);
    [done|]. rewrite Hc in Hrun. by injection Hrun as <-.
Qed.

(** Loading a dictionary whose entries for parameter [l0] are its own live
    data or tensors with property [Q] keeps [Q] on what [l0] holds. *)
Lemma load_state_dict_holds (Q : tensor -> Prop) (named : params)
    (sd : dict tref) (strict : bool) (l0 : loc) (s s' : Store) :
  (forall k src, (k, src) ∈ sd ->
     dict_get k (state_dict named) = Some (DataOf l0) ->
     src = DataOf l0 \/ exists v, src = Value v /\ Q v) ->
  load_state_dict named sd strict s = Ok (tt, s') ->
  (forall p, cells s !! l0 = Some p -> Q (data p)) ->
  forall p, cells s' !! l0 = Some p -> Q (data p).
Proof.
  intros Hsd Hrun. unfold load_state_dict in Hrun.
  inv_bind Hrun. destruct a.
  assert (s' = s0) as ->.
  { destruct (strict && _); [done | by injection Hrun as <-]. }
  clear Hrun. revert Hrun0.
  match goal with |- for_each _ ?b _ = _ -> _ => set (body := b) end.
  intros Hloop HQ.
  apply (for_each_Ok_invariant
           (fun st => forall p, cells st !! l0 = Some p -> Q (data p))
           sd body s s0 Hloop HQ).
  intros [k src] sx sy Hin Hsx. unfold body. simpl.
  destruct (dict_get k (state_dict named)) as [[l|t]|] eqn:Hk.
  - intros Hc. destruct (decide (l = l0)) as [->|Hne].
    + destruct (Hsd k src Hin Hk) as [->|(v & -> & Hv)].
      * intros p. rewrite (copy_self _ l0 _ _ Hc). apply Hsx.
      * intros p Hp. rewrite (copy_value _ _ _ _ Hc) in Hp.
        destruct (cells sx !! l0); simpl in Hp; [|done].
        by injection Hp as <-.
    + intros p. rewrite (copy_other _ _ _ _ _ Hc); [apply Hsx | done].
  - by intros [= <-].
  - destruct strict; [done | by intros [= <-]].
Qed.


Section Loading.
Context `{Collaborators}.

Lemma filter_pretrained_elem (model_dict : dict tref) (items : dict tensor)
    (k : string) (src : tref) :
  (k, src) ∈ filter_pretrained model_dict items ->
  exists v, src = Value v /\ (k, v) ∈ items /\
            str_contains "doc_context" k = false.
Proof.
  unfold filter_pretrained. intros Hin.
  apply (dict_get_elem _ _ _ (dict_of_items_NoDup _)) in Hin.
  apply dict_of_items_elem_inv in Hin.
  apply list_elem_of_fmap in Hin as ([k0 v0] & [= -> ->] & Hin).
  apply list_elem_of_filter in Hin as [HP Hin]. simpl in HP.
  exists v0. split; [done|]. split; [done|].
  apply andb_prop_elim in HP as [_ HP]. by destruct (str_contains _ k0).
Qed.

(** An entry of the dictionary handed to [model.load_state_dict] is the
    model's own live data under that key, or a tensor of
    [checkpoint['model']]. *)
Lemma checkpoint_model_dict_entries (model_opt : Opt) (m : NMTModel)
    (checkpoint : Checkpoint) (train_part : string) (model_dict : dict tref)
    (k : string) (src : tref) :
  checkpoint_model_dict model_opt m checkpoint train_part = Ok model_dict ->
  (k, src) ∈ model_dict ->
  dict_get k (state_dict (NMTModel_named m)) = Some src \/
  exists v, src = Value v /\ v ∈ (ck_model checkpoint).*2.
Proof.
  unfold checkpoint_model_dict. intros Hdict Hin.
  destruct (String.eqb train_part "context").
  - destruct (context_type model_opt) as [ct|]; [|done].
    injection Hdict as <-.
    apply (dict_get_elem _ _ _
             (dict_update_NoDup _ _ (dict_of_items_NoDup _))) in Hin.
    apply dict_update_elem_inv in Hin as [Hin|Hown]; [|by left].
    right. destruct (str_contains "join" ct).
    + apply (dict_get_elem _ _ _ (remap_pretrained_NoDup _ _)) in Hin.
      apply remap_pretrained_entry in Hin as (k0 & v & Hck & _ & -> & _).
      exists v. split; [done|]. apply list_elem_of_fmap. by exists (k0, v).
    + apply filter_pretrained_elem in Hin as (v & -> & Hck & _).
      exists v. split; [done|]. apply list_elem_of_fmap. by exists (k, v).
  - injection Hdict as <-. right.
    apply list_elem_of_fmap in Hin as ([k0 v] & [= -> ->] & Hck).
    exists v. split; [done|]. apply list_elem_of_fmap. by exists (k0, v).
Qed.

(** After the two [load_state_dict] calls of a call with a checkpoint, a
    parameter of the model or of the generator holds what its constructor
    put there or a tensor of the checkpoint. *)
Lemma loads_loaded (model_opt : Opt) (fields : gmap string (Field Vocab))
    (gpu : bool) (checkpoint : Checkpoint) (train_part : string)
    (m : NMTModel) (g : Generator) (model_dict : dict tref)
    (s s1 sa sb sc : Store) (l : loc) :
  build_modules model_opt fields gpu s = Ok ((m, g), s1) ->
  emit (Print "Loading model parameters.") s1 = Ok (tt, sa) ->
  checkpoint_model_dict model_opt m checkpoint train_part = Ok model_dict ->
  load_state_dict (NMTModel_named m) model_dict false sa = Ok (tt, sb) ->
  load_state_dict (Generator_named g)
    (map (fun kv => (kv.1, Value kv.2)) (ck_generator checkpoint)) true sb
  = Ok (tt, sc) ->
  l ∈ (NMTModel_named m).*2 \/ l ∈ (Generator_named g).*2 ->
  exists p, cells sc !! l = Some p /\ loaded checkpoint l (data p).
Proof.
  intros Hb Hemit Hdict Hlm Hlg Hl.
  destruct (build_modules_cells _ _ _ _ _ _ _ l Hb Hl) as (_ & nd & Hcell).
  apply emit_cells in Hemit.
  assert (Hsome : is_Some (cells sc !! l)).
  { destruct (load_state_dict_lenient (NMTModel_named m) model_dict sa)
      as (sb' & Hm' & [Hr1 _]).
    rewrite Hm' in Hlm. injection Hlm as ->.
    destruct (load_state_dict_strict (Generator_named g)
                (map (fun kv => (kv.1, Value kv.2)) (ck_generator checkpoint))
                sb) as [(sc' & Hg' & [Hr2 _])|(msg & Hg')];
      rewrite Hg' in Hlg; [|done].
    injection Hlg as ->.
    apply (rewrites_is_Some sb sc l Hr2), (rewrites_is_Some sa sb l Hr1).
    rewrite Hemit. by eexists. }
  destruct Hsome as [p Hp]. exists p. split; [done|].
  apply (load_state_dict_holds (loaded checkpoint l) _ _ _ l _ _) with (p := p)
    in Hlg; [done| | |done].
  - intros k src Hin _. right.
    apply list_elem_of_fmap in Hin as ([k0 v] & [= -> ->] & Hck).
    exists v. split; [done|]. right. right.
    apply list_elem_of_fmap. by exists (k0, v).
  - apply (load_state_dict_holds (loaded checkpoint l) _ _ _ l _ _ ) with (2 := Hlm).
    + intros k src Hin Hk.
      destruct (checkpoint_model_dict_entries _ _ _ _ _ _ _ Hdict Hin)
        as [Hown|(v & -> & Hv)].
      * left. congruence.
      * right. exists v. split; [done|]. right. by left.
    + intros p0 Hp0. rewrite Hemit in Hp0.
      assert (p0 = mkParam (Initial l) true nd []) as -> by congruence.
      by left.
Qed.

(** Lines 264-275 on what a parameter holds: the parameters of the context
    are initialised; the others keep their tensor. *)
Lemma freeze_main_unfreeze_context_data (model_opt : Opt) (m : NMTModel)
    (g : Generator) (context : Context) (s s' : Store) (l : loc) (p : Param) :
  doc_context m = Some context ->
  freeze_main_unfreeze_context model_opt m g s = Ok (tt, s') ->
  cells s !! l = Some p ->
  exists p', cells s' !! l = Some p' /\ ndim p' = ndim p /\
             data p' = if bool_decide (l ∈ (Context_named context).*2)
                       then data (initialise model_opt p) else data p.
Proof.
  intros Hctx Hrun Hp.
  destruct (freeze_main_unfreeze_context_applies model_opt m g context s Hctx)
    as (t1 & t2 & t3 & Hf & H1 & H2 & H3).
  rewrite Hf in Hrun. injection Hrun as ->.
  rewrite (H3 l), (H2 l), (H1 l), Hp.
  assert (Hi : forall q, ndim q = ndim p -> data q = data p ->
                 ndim (initialise model_opt q) = ndim p /\
                 data (initialise model_opt q) = data (initialise model_opt p)).
  { intros q Hn Hd. split; [by rewrite (proj2 (initialise_flags _ _))|].
    by rewrite !initialise_data, Hn, Hd. }
  destruct (bool_decide (l ∈ (Context_named context).*2));
    destruct (bool_decide (l ∈ (Generator_named g).*2));
    destruct (bool_decide (l ∈ (NMTModel_named m).*2)); simpl;
    eexists; (split; [reflexivity|]); try done; by apply Hi.
Qed.


(** C7: without checkpoint, every parameter of the model and of the
    generator is drawn uniformly in [-param_init, param_init] when
    [param_init] is not 0.0, every parameter with more than one dimension is
    then Xavier-initialised when [param_init_glorot], and afterwards the
    pretrained word vectors are loaded into the encoder embeddings (when the
    encoder has embeddings) and the decoder embeddings: the calls are made
    in this order, and in the store [s2] from which the pretrained vectors
    are loaded every parameter holds Xavier values, else a uniform draw,
    else what its constructor put there, and nothing else has changed.
    With a checkpoint none of this is done, except that under
    [train_part = "context"] the parameters of [doc_context], and only
    those, are re-initialised: every other parameter holds what its
    constructor put there or a tensor of the checkpoint. *)
Theorem initialisation_policy (model_opt : Opt)
    (fields : gmap string (Field Vocab)) (gpu : bool) (m0 : NMTModel)
    (g : Generator) (s s1 : Store) :
  build_modules model_opt fields gpu s = Ok ((m0, g), s1) ->
  let device := if gpu then Cuda else Cpu in
  let initialised (t0 : tensor) (nd : nat) : tensor :=
    if param_init_glorot model_opt && (1 <? nd)%nat then Xavier
    else if float_nonzero (param_init model_opt)
         then Uniform (PrimFloat.opp (param_init model_opt))
                (param_init model_opt)
         else t0 in
  (forall train_part,
     exists s2 s',
       make_base_model model_opt fields gpu None train_part s
       = Ok (set_generator g m0, s') /\
       rewrites s1 s' /\
       log s' = log s ++ init_events model_opt m0 g s1 ++ [device] /\
       next s2 = next s1 /\
       log s2 ++ pretrained_events model_opt m0 ++ [device] = log s' /\
       (forall l, l ∈ (NMTModel_named (set_generator g m0)).*2 ->
          exists nd,
            cells s1 !! l = Some (mkParam (Initial l) true nd []) /\
            cells s2 !! l
            = Some (mkParam (initialised (Initial l) nd) true nd [])) /\
       (forall l, l ∉ (NMTModel_named (set_generator g m0)).*2 ->
          cells s2 !! l = cells s1 !! l) /\
       (match enc_embeddings (encoder m0) with
        | Some embeddings =>
            load_pretrained_vectors embeddings (pre_word_vecs_enc model_opt)
              (fix_word_vecs_enc model_opt)
        | None => mret tt
        end;;
        load_pretrained_vectors (dec_embeddings (decoder m0))
          (pre_word_vecs_dec model_opt) (fix_word_vecs_dec model_opt);;
        emit device) s2 = Ok (tt, s')) /\
  (forall checkpoint train_part m s',
     make_base_model model_opt fields gpu (Some checkpoint) train_part s
     = Ok (m, s') ->
     m = set_generator g m0 /\ rewrites s1 s' /\
     if String.eqb train_part "context"
     then exists context,
            doc_context m0 = Some context /\
            log s' = log s ++
                     [Print "Loading model parameters.";
                      Print "Freezing parameters of main model";
                      Print "Unfreezing parameters of context"] ++
                     context_events model_opt context s1 ++ [device] /\
            forall l, l ∈ (NMTModel_named m).*2 ->
              exists p t0,
                cells s' !! l = Some p /\ loaded checkpoint l t0 /\
                data p = if bool_decide (l ∈ (Context_named context).*2)
                         then initialised t0 (ndim p) else t0
     else log s' = log s ++ [Print "Loading model parameters."; device] /\
          forall l, l ∈ (NMTModel_named m).*2 ->
            exists p, cells s' !! l = Some p /\ loaded checkpoint l (data p)).
Proof.
  intros Hb device initialised.
  pose proof (build_modules_allocates _ _ _ _ _ _ _ Hb) as (_ & Hlog & _).
  pose proof Hb as Hb0.
  apply build_modules_inv in Hb0
    as (? & ? & ? & ? & ? & ? & _ & _ & _ & _ & _ & Hg0 & _).
  split.
  - intros train_part.
    destruct (init_parameters_spec model_opt m0 g s1) as (s3 & Hi & Hp2).
    destruct (init_parameters_stages model_opt m0 g s1)
      as (s2 & s3' & Hi' & Happ & Htail & Hn & _ & Hl2).
    rewrite Hi in Hi'. injection Hi' as <-.
    destruct (emit_in_place device s3) as (s' & He & Hp3 & _).
    exists s2, s'.
    destruct (in_place_trans _ _ _ _ _ Hp2 Hp3) as [Hr Hl].
    split.
    { unfold make_base_model. rewrite (bind_run _ _ _ _ _ Hb).
      cbv beta iota. rewrite (bind_run _ _ _ _ _ Hi).
      fold device. destruct gpu; by rewrite (bind_run _ _ _ _ _ He). }
    split; [done|]. split; [by rewrite Hl, Hlog|].
    split; [rewrite <- Hn; apply Hp2|].
    split.
    { destruct Hp3 as [_ ->]. rewrite Hl2. by rewrite <- app_assoc. }
    split.
    { intros l Hl0. apply (set_generator_named _ _ _ Hg0) in Hl0.
      destruct (build_modules_cells _ _ _ _ _ _ _ l Hb Hl0) as (_ & nd & Hcell).
      exists nd. split; [done|].
      rewrite (applies_elem _ _ _ _ _ Happ) by (rewrite elem_of_app; tauto).
      rewrite Hcell. simpl. f_equal. unfold initialise, initialised.
      destruct (float_nonzero (param_init model_opt));
        destruct (param_init_glorot model_opt); simpl;
        try destruct (1 <? nd)%nat; done. }
    split.
    { intros l Hl0. apply (applies_other _ _ _ _ _ Happ).
      rewrite elem_of_app. intros Hin. apply Hl0.
      by apply (set_generator_named _ _ _ Hg0). }
    unfold mbind, M_bind in Htail |- *.
    destruct (match enc_embeddings (encoder m0) with
              | Some embeddings =>
                  load_pretrained_vectors embeddings
                    (pre_word_vecs_enc model_opt) (fix_word_vecs_enc model_opt)
              | None => mret tt
              end s2) as [[[] sx]|e]; [|done].
    rewrite Htail. exact He.
  - intros checkpoint train_part m s' Hrun.
    pose proof (make_base_model_cells _ _ _ _ _ _ _ _ Hrun)
      as (m0c & gc & s1c & s2c & Hbc & _ & Hloadc & Hcc & _).
    rewrite Hb in Hbc. injection Hbc as <- <- <-.
    apply make_base_model_inv in Hrun
      as (m0' & g' & s1' & s2 & Hb' & -> & Hl & Hp3).
    rewrite Hb in Hb'. injection Hb' as <- <- <-.
    rewrite Hl in Hloadc. injection Hloadc as <-.
    split; [done|]. fold device in Hp3.
    assert (Hstate : forall l, l ∈ (NMTModel_named (set_generator g m0)).*2 ->
              exists pc sc,
                cells sc !! l = Some pc /\ loaded checkpoint l (data pc) /\
                (if String.eqb train_part "context"
                 then freeze_main_unfreeze_context model_opt m0 g
                 else mret tt) sc = Ok (tt, s2)).
    { intros l Hl0. apply (set_generator_named _ _ _ Hg0) in Hl0.
      pose proof Hl as Hl'.
      apply load_checkpoint_inv in Hl'
        as (model_dict & sa & sb & sc & Hemit & Hdict & Hlm & Hlg & Hfreeze & _).
      destruct (loads_loaded _ _ _ _ _ _ _ _ _ _ _ _ _ l Hb Hemit Hdict Hlm Hlg Hl0)
        as (pc & Hpc & Hloaded).
      by exists pc, sc. }
    destruct (load_checkpoint_spec model_opt m0 g checkpoint train_part s1)
      as [(e & Hl' & _)|(s2' & Hl' & Hp2)]; [congruence|].
    rewrite Hl in Hl'. injection Hl' as <-.
    destruct (String.eqb train_part "context").
    + destruct Hp2 as (context & Hctx & Hp2).
      destruct (in_place_trans _ _ _ _ _ Hp2 Hp3) as [Hr Hlg].
      split; [done|]. exists context. split; [done|].
      split; [rewrite Hlg, Hlog; simpl; done|].
      intros l Hl0. destruct (Hstate l Hl0) as (pc & sc & Hpc & Hloaded & Hf).
      destruct (freeze_main_unfreeze_context_data _ _ _ _ _ _ l pc Hctx Hf Hpc)
        as (p' & Hp' & Hnd & Hd).
      exists p', (data pc). rewrite Hcc. split; [done|]. split; [done|].
      rewrite Hd. destruct (bool_decide (l ∈ (Context_named context).*2));
        [|done].
      rewrite initialise_data, Hnd. done.
    + destruct (in_place_trans _ _ _ _ _ Hp2 Hp3) as [Hr Hlg].
      split; [done|]. split; [by rewrite Hlg, Hlog|].
      intros l Hl0. destruct (Hstate l Hl0) as (pc & sc & Hpc & Hloaded & Hf).
      injection Hf as <-. exists pc. by rewrite Hcc.
Qed.

End Loading.


(** * The claims on concrete calls *)

Import Demo.

(** C10 at a call for an image model that shares embeddings. *)
Lemma share_embeddings_needs_text_witness :
  make_base_model (opt "img" "rnn" "rnn" None true false false 0 false)
    (fields words words) false None "all" empty_store
  = Raise (UnboundLocalError "src_dict").
Proof.
  apply (proj1 (share_embeddings_needs_text
                  (opt "img" "rnn" "rnn" None true false false 0 false)
                  (fields words words) false None "all" empty_store eq_refl)).
  - left. reflexivity.
  - exists (mkField words). vm_compute. reflexivity.
Defined.

(** C3 at a call for a text model whose two vocabularies differ. *)
Lemma share_embeddings_text_witness :
  exists msg,
    make_base_model (opt "text" "rnn" "rnn" None true false false 0 false)
      (fields words other_words) false None "all" empty_store
    = Raise (AssertionError msg).
Proof.
  pose proof (share_embeddings_text
                (opt "text" "rnn" "rnn" None true false false 0 false)
                (fields words other_words) false None "all" empty_store
                (mkField words) (mkField other_words)
                eq_refl eq_refl eq_refl eq_refl) as Hclaim.
  cbv zeta in Hclaim. destruct Hclaim as [Hraise _].
  apply Hraise. simpl. discriminate.
Defined.

(** C6 at a call that shares the decoder embeddings with the generator. *)
Lemma generator_weight_tying_witness :
  exists m s' g,
    make_base_model (opt "text" "rnn" "rnn" None false true false 0 false)
      (fields words words) false None "all" empty_store = Ok (m, s') /\
    generator m = Some g /\
    word_lut_weight (dec_embeddings (decoder m)) ∈ (Generator_named g).*2.
Proof.
  eexists _, _. 
  assert (Hrun : make_base_model
                   (opt "text" "rnn" "rnn" None false true false 0 false)
                   (fields words words) false None "all" empty_store
                 = Ok ?[m]) by (vm_compute; reflexivity).
  destruct (generator_weight_tying _ _ _ _ _ _ _ _ Hrun)
    as (g & tgt & Hg & _ & Htied & _).
  exists g. split; [exact Hrun|]. split; [exact Hg|].
  apply Htied. split; reflexivity.
Defined.

(** C2, on a call with a checkpoint and [train_part = "context"]: the loops
    of lines 264-270 run, and afterwards every parameter of the model and of
    the generator still has [requires_grad] set.  What the loops assigned is
    the attribute [require_grad]: [False] on the parameters of the main
    model (0-4) and of the generator (7, 8), [True] on those of the context
    (5, 6). *)
Theorem freezing_assigns_require_grad :
  exists m s',
    make_base_model
      (opt "text" "rnn" "rnn" (Some "HAN_enc") false false false 0 false)
      (fields words words) false (Some single_context_checkpoint) "context"
      empty_store = Ok (m, s') /\
    parameters (NMTModel_named m) = seq 0 9 /\
    map (fun l => grad_flags <$> cells s' !! l) (parameters (NMTModel_named m))
    = [Some (true, Some false); Some (true, Some false);
       Some (true, Some false); Some (true, Some false);
       Some (true, Some false);
       Some (true, Some true); Some (true, Some true);
       Some (true, Some false); Some (true, Some false)].
Proof. eexists _, _. split; [vm_compute; reflexivity|]. by vm_compute. Qed.

(** C1, on a call for paired context modules ("HAN_join") with
    [train_part = "context"].  From a checkpoint of a model with one context
    module, the entries "doc_context.weight" and "doc_context.bias" are not
    names of the paired model, so the test of line 252 drops them before the
    renaming of line 254: the dictionary loaded keeps the model's own data
    under "doc_context.0.weight", and after the call that parameter holds
    what its constructor put there, while the encoder weight holds the
    checkpoint's tensor.  From a checkpoint of a paired model, the entry
    "doc_context.0.weight" passes the test and is renamed
    "doc_context.0.0.weight", a name the model does not have. *)
Theorem join_remap_misses_first_context :
  exists m g s1 s' single_dict paired_dict,
    build_modules
      (opt "text" "rnn" "rnn" (Some "HAN_join") false false false 0 false)
      (fields words words) false empty_store = Ok ((m, g), s1) /\
    dict_get "doc_context.0.weight" (state_dict (NMTModel_named m))
    = Some (DataOf 5%nat) /\
    checkpoint_model_dict
      (opt "text" "rnn" "rnn" (Some "HAN_join") false false false 0 false)
      m single_context_checkpoint "context" = Ok single_dict /\
    dict_get "doc_context.0.weight" single_dict = Some (DataOf 5%nat) /\
    dict_get "doc_context.weight" single_dict = None /\
    dict_get "encoder.rnn.weight_ih_l0" single_dict = Some (Value (Stored 1)) /\
    make_base_model
      (opt "text" "rnn" "rnn" (Some "HAN_join") false false false 0 false)
      (fields words words) false (Some single_context_checkpoint) "context"
      empty_store = Ok (set_generator g m, s') /\
    data <$> cells s' !! 5%nat = Some (Initial 5%nat) /\
    data <$> cells s' !! 1%nat = Some (Stored 1) /\
    checkpoint_model_dict
      (opt "text" "rnn" "rnn" (Some "HAN_join") false false false 0 false)
      m paired_context_checkpoint "context" = Ok paired_dict /\
    dict_get "doc_context.0.weight" paired_dict = Some (DataOf 5%nat) /\
    dict_get "doc_context.0.0.weight" paired_dict = Some (Value (Stored 3)).
Proof.
  eexists _, _, _, _, _, _.
  split; [vm_compute; reflexivity|].
  split; [vm_compute; reflexivity|].
  split; [vm_compute; reflexivity|].
  split; [vm_compute; reflexivity|].
  split; [vm_compute; reflexivity|].
  split; [vm_compute; reflexivity|].
  split; [vm_compute; reflexivity|].
  split; [vm_compute; reflexivity|].
  split; [vm_compute; reflexivity|].
  split; [vm_compute; reflexivity|].
  split; vm_compute; reflexivity.
Qed.


(** C7 at a call without checkpoint, with [param_init = 0.5] and
    [param_init_glorot]: the weight of the encoder is parameter 1, the bias
    of the decoder parameter 4. *)
Lemma initialisation_policy_witness :
  exists m0 g s1 s2 s',
    build_modules (opt "text" "rnn" "rnn" None false false false 0.5 true)
      (fields words words) false empty_store = Ok ((m0, g), s1) /\
    make_base_model (opt "text" "rnn" "rnn" None false false false 0.5 true)
      (fields words words) false None "all" empty_store
    = Ok (set_generator g m0, s') /\
    log s' = init_events (opt "text" "rnn" "rnn" None false false false 0.5 true)
               m0 g s1 ++ [Cpu] /\
    log s2 ++ pretrained_events
                (opt "text" "rnn" "rnn" None false false false 0.5 true) m0
             ++ [Cpu] = log s' /\
    cells s2 !! 1%nat = Some (mkParam Xavier true 2%nat []) /\
    cells s2 !! 4%nat = Some (mkParam (Uniform (-0.5) 0.5) true 1%nat []).
Proof.
  eexists _, _, _.
  assert (Hb : build_modules
                 (opt "text" "rnn" "rnn" None false false false 0.5 true)
                 (fields words words) false empty_store = Ok ?[r])
    by (vm_compute; reflexivity).
  destruct (proj1 (initialisation_policy _ _ _ _ _ _ _ Hb) "all")
    as (s2 & s' & Hrun & _ & Hlog & _ & Hlog2 & Hcells & _).
  exists s2, s'. split; [exact Hb|]. split; [exact Hrun|].
  split; [exact Hlog|]. split; [exact Hlog2|].
  destruct (Hcells 1%nat) as (nd1 & Hc1 & Hd1).
  { apply (bool_decide_unpack _). vm_compute. exact I. }
  destruct (Hcells 4%nat) as (nd4 & Hc4 & Hd4).
  { apply (bool_decide_unpack _). vm_compute. exact I. }
  vm_compute in Hc1. injection Hc1 as <-.
  vm_compute in Hc4. injection Hc4 as <-.
  split; [exact Hd1 | exact Hd4].
Defined.

(** * The further properties on concrete calls *)

(** Without checkpoint, with [param_init = 0.5] and [param_init_glorot]: the
    weight of the encoder, parameter 1. *)
Lemma parameters_without_checkpoint_witness :
  exists m s' nd,
    make_base_model (opt "text" "rnn" "rnn" None false false false 0.5 true)
      (fields words words) false None "all" empty_store = Ok (m, s') /\
    cells s' !! 1%nat
    = Some (mkParam
              (if true && (1 <? nd)%nat then Xavier
               else if float_nonzero 0.5 then Uniform (-0.5) 0.5
                    else Initial 1%nat)
              true nd []).
Proof.
  eexists _, _.
  assert (Hrun : make_base_model
                   (opt "text" "rnn" "rnn" None false false false 0.5 true)
                   (fields words words) false None "all" empty_store
                 = Ok ?[r]) by (vm_compute; reflexivity).
  destruct (parameters_without_checkpoint _ _ _ _ _ _ _ 1%nat Hrun)
    as (nd & Hcell).
  { apply (bool_decide_unpack _). vm_compute. exact I. }
  { intros emb [= <-]. apply (bool_decide_unpack _). vm_compute. exact I. }
  { apply (bool_decide_unpack _). vm_compute. exact I. }
  exists nd. split; [exact Hrun | exact Hcell].
Defined.

(** Context training from a checkpoint: a parameter of the context (5) and
    one of the encoder (1). *)
Lemma flags_after_context_training_witness :
  exists m s' context,
    make_base_model
      (opt "text" "rnn" "rnn" (Some "HAN_enc") false false false 0 false)
      (fields words words) false (Some single_context_checkpoint) "context"
      empty_store = Ok (m, s') /\
    doc_context m = Some context /\
    grad_flags <$> cells s' !! 5%nat = Some (true, Some true) /\
    grad_flags <$> cells s' !! 1%nat = Some (true, Some false).
Proof.
  eexists _, _.
  assert (Hrun : make_base_model
                   (opt "text" "rnn" "rnn" (Some "HAN_enc") false false false 0 false)
                   (fields words words) false (Some single_context_checkpoint)
                   "context" empty_store
                 = Ok ?[r]) by (vm_compute; reflexivity).
  destruct (flags_after_context_training _ _ _ _ _ _ _ Hrun)
    as (context & Hctx & Hall).
  exists context. split; [exact Hrun|]. split; [exact Hctx|].
  assert (Hc : context = Single (mkHierarchicalContext
                 (mkHierarchicalContextArgs 8 0.5 (Some "HAN_enc") 3 1 [1; 0; 2; 3])
                 [("weight", 5%nat); ("bias", 6%nat)])).
  { vm_compute in Hctx. by injection Hctx as <-. }
  pose proof (Hall 5%nat) as H5. pose proof (Hall 1%nat) as H1.
  rewrite Hc in H5, H1. split.
  - apply H5. apply (bool_decide_unpack _). vm_compute. exact I.
  - apply H1. apply (bool_decide_unpack _). vm_compute. exact I.
Defined.

(** Context training with [param_init = 0.5] and [param_init_glorot]: the
    weight of the context, parameter 5, for which the checkpoint has an
    entry. *)
Lemma context_reinitialised_witness :
  exists m s' context p,
    make_base_model
      (opt "text" "rnn" "rnn" (Some "HAN_enc") false false false 0.5 true)
      (fields words words) false (Some single_context_checkpoint) "context"
      empty_store = Ok (m, s') /\
    doc_context m = Some context /\
    cells s' !! 5%nat = Some p /\ data p = Xavier.
Proof.
  eexists _, _.
  assert (Hrun : make_base_model
                   (opt "text" "rnn" "rnn" (Some "HAN_enc") false false false 0.5 true)
                   (fields words words) false (Some single_context_checkpoint)
                   "context" empty_store
                 = Ok ?[r]) by (vm_compute; reflexivity).
  destruct (context_reinitialised _ _ _ _ _ _ _ Hrun)
    as (context & Hctx & Hall).
  assert (Hc : context = Single (mkHierarchicalContext
                 (mkHierarchicalContextArgs 8 0.5 (Some "HAN_enc") 3 1 [1; 0; 2; 3])
                 [("weight", 5%nat); ("bias", 6%nat)])).
  { vm_compute in Hctx. by injection Hctx as <-. }
  destruct (Hall 5%nat) as (p & Hcell & Hx & _).
  { rewrite Hc. apply (bool_decide_unpack _). vm_compute. exact I. }
  exists context, p. split; [exact Hrun|]. split; [exact Hctx|].
  split; [exact Hcell|]. apply Hx.
  vm_compute in Hcell. injection Hcell as <-. reflexivity.
Defined.

(** A call in a store that already holds a parameter, 0. *)
Lemma make_base_model_frame_witness :
  exists m s',
    make_base_model (opt "text" "rnn" "rnn" None false false false 0.5 true)
      (fields words words) false None "all"
      (mkStore 1%nat {[0%nat := mkParam (Stored 9) false 3%nat []]} [])
    = Ok (m, s') /\
    cells s' !! 0%nat = Some (mkParam (Stored 9) false 3%nat []).
Proof.
  eexists _, _.
  assert (Hrun : make_base_model
                   (opt "text" "rnn" "rnn" None false false false 0.5 true)
                   (fields words words) false None "all"
                   (mkStore 1%nat {[0%nat := mkParam (Stored 9) false 3%nat []]} [])
                 = Ok ?[r]) by (vm_compute; reflexivity).
  destruct (make_base_model_frame _ _ _ _ _ _ _ _ Hrun)
    as (_ & _ & Hold & _).
  split; [exact Hrun|]. apply (Hold 0%nat). simpl. lia.
Defined.

(** A checkpoint whose generator entries are "0.weight" and "0.bias", for a
    generator that is a linear layer. *)
Lemma checkpoint_call_returns_witness :
  exists m s',
    make_base_model (opt "text" "rnn" "rnn" None false false false 0 false)
      (fields words words) false (Some single_context_checkpoint) "all"
      empty_store = Ok (m, s').
Proof.
  assert (Hb : build_modules
                 (opt "text" "rnn" "rnn" None false false false 0 false)
                 (fields words words) false empty_store = Ok ?[r])
    by (vm_compute; reflexivity).
  apply (proj2 (checkpoint_call_returns _ _ _ single_context_checkpoint "all"
                  _ _ _ _ Hb)).
  split; [|intros [=]].
  intros k. change (k ∈ ["0.weight"; "0.bias"] <-> k ∈ ["0.weight"; "0.bias"]).
  reflexivity.
Defined.

(** A generator that shares the word-lookup matrix of the decoder, parameter
    2: the checkpoint has no entry for it under the model, and one under the
    generator. *)
Lemma generator_loaded_from_checkpoint_witness :
  exists m s',
    make_base_model (opt "text" "rnn" "rnn" None false true false 0 false)
      (fields words words) false (Some single_context_checkpoint) "all"
      empty_store = Ok (m, s') /\
    word_lut_weight (dec_embeddings (decoder m)) = 2%nat /\
    data <$> cells s' !! 2%nat = Some (Stored 5).
Proof.
  eexists _, _.
  assert (Hrun : make_base_model
                   (opt "text" "rnn" "rnn" None false true false 0 false)
                   (fields words words) false (Some single_context_checkpoint)
                   "all" empty_store
                 = Ok ?[r]) by (vm_compute; reflexivity).
  assert (Hnd : NoDup (dict_keys (ck_generator single_context_checkpoint))).
  { apply (bool_decide_unpack _). vm_compute. exact I. }
  destruct (generator_loaded_from_checkpoint _ _ _ _ _ _ _ _ _
              "0.weight" 2%nat Hrun Hnd eq_refl eq_refl)
    as (t & Ht & Hdata).
  injection Ht as <-.
  split; [exact Hrun|]. split; [reflexivity | exact Hdata].
Defined.

(** The weight of the encoder (1), which the checkpoint holds, and the bias
    of the decoder (4), which it does not. *)
Lemma model_loaded_from_checkpoint_witness :
  exists m s',
    make_base_model (opt "text" "rnn" "rnn" None false false false 0 false)
      (fields words words) false (Some single_context_checkpoint) "all"
      empty_store = Ok (m, s') /\
    data <$> cells s' !! 1%nat = Some (Stored 1) /\
    data <$> cells s' !! 4%nat = Some (Initial 4%nat).
Proof.
  eexists _, _.
  assert (Hrun : make_base_model
                   (opt "text" "rnn" "rnn" None false false false 0 false)
                   (fields words words) false (Some single_context_checkpoint)
                   "all" empty_store
                 = Ok ?[r]) by (vm_compute; reflexivity).
  assert (Hnd : NoDup (dict_keys (ck_model single_context_checkpoint))).
  { apply (bool_decide_unpack _). vm_compute. exact I. }
  assert (Hne : "all" <> "context") by discriminate.
  pose proof (fun k l => model_loaded_from_checkpoint _ _ _ _ _ _ _ _ k l
                           Hrun Hne Hnd) as Hload.
  split; [exact Hrun|]. split.
  - apply (Hload "encoder.rnn.weight_ih_l0" 1%nat).
    + apply (bool_decide_unpack _). vm_compute. exact I.
    + intros k' l' Hin.
      match type of Hin with
      | _ ∈ ?L => let L' := eval vm_compute in L in change L with L' in Hin
      end.
      repeat (apply elem_of_cons in Hin as [Heq|Hin];
              [injection Heq as -> ->; split; intros Hx;
               first [reflexivity | discriminate Hx]|]).
      inversion Hin.
    + intros g [= <-]. apply (bool_decide_unpack _). vm_compute. exact I.
  - apply (Hload "decoder.rnn.bias" 4%nat).
    + apply (bool_decide_unpack _). vm_compute. exact I.
    + intros k' l' Hin.
      match type of Hin with
      | _ ∈ ?L => let L' := eval vm_compute in L in change L with L' in Hin
      end.
      repeat (apply elem_of_cons in Hin as [Heq|Hin];
              [injection Heq as -> ->; split; intros Hx;
               first [reflexivity | discriminate Hx]|]).
      inversion Hin.
    + intros g [= <-]. apply (bool_decide_unpack _). vm_compute. exact I.
Defined.

(** A text model with paired context modules and nothing shared. *)
Lemma parameters_are_the_created_ones_witness :
  exists m s',
    make_base_model
      (opt "text" "rnn" "rnn" (Some "HAN_join") false false false 0 false)
      (fields words words) false None "all" empty_store = Ok (m, s') /\
    (NMTModel_named m).*2 = seq 0 (next s' - 0).
Proof.
  eexists _, _.
  assert (Hrun : make_base_model
                   (opt "text" "rnn" "rnn" (Some "HAN_join") false false false 0 false)
                   (fields words words) false None "all" empty_store
                 = Ok ?[r]) by (vm_compute; reflexivity).
  split; [exact Hrun|].
  apply (parameters_are_the_created_ones
           (opt "text" "rnn" "rnn" (Some "HAN_join") false false false 0 false)
           (fields words words) false None "all" _ empty_store _ eq_refl
           (or_intror eq_refl) Hrun).
Defined.

(** A call for RISK training on the GPU. *)
Lemma returned_model_attributes_witness :
  exists m s' r,
    make_base_model
      (with_RISK_ratio 0.5
         (opt "text" "rnn" "rnn" (Some "HAN_enc") false false false 0 false))
      (fields words words) true None "all" empty_store = Ok (m, s') /\
    m_risk m = Some r /\ r_tgt_vocab r = words /\ r_gpu r = true /\
    m_model_type m = Some "text" /\ m_context_type m = Some "HAN_enc".
Proof.
  eexists _, _.
  assert (Hrun : make_base_model
                   (with_RISK_ratio 0.5
                      (opt "text" "rnn" "rnn" (Some "HAN_enc") false false false 0 false))
                   (fields words words) true None "all" empty_store
                 = Ok ?[r]) by (vm_compute; reflexivity).
  destruct (returned_model_attributes _ _ _ _ _ _ _ _ Hrun)
    as (tgt & Htgt & Hty & Hct & _ & Hrisk).
  injection Htgt as <-.
  eexists. split; [exact Hrun|]. split; [exact Hrisk|].
  split; [reflexivity|]. split; [reflexivity|]. split; [exact Hty | exact Hct].
Defined.

(** A text model that shares its embeddings. *)
Lemma embeddings_of_returned_model_witness :
  exists m s' tgt_embeddings s1 s1',
    make_base_model (opt "text" "rnn" "rnn" None true false false 0 false)
      (fields words words) false None "all" empty_store = Ok (m, s') /\
    make_embeddings (opt "text" "rnn" "rnn" None true false false 0 false)
      words [] false s1 = Ok (tgt_embeddings, s1') /\
    emb_args (dec_embeddings (decoder m)) = emb_args tgt_embeddings /\
    word_vec_size (emb_args (dec_embeddings (decoder m))) = 8.
Proof.
  eexists _, _.
  assert (Hrun : make_base_model
                   (opt "text" "rnn" "rnn" None true false false 0 false)
                   (fields words words) false None "all" empty_store
                 = Ok ?[r]) by (vm_compute; reflexivity).
  destruct (embeddings_of_returned_model _ _ _ _ _ _ _ _ Hrun)
    as (tgt & tgt_embeddings & s1 & s1' & Htgt & Hemb & Hargs & _).
  injection Htgt as <-.
  exists tgt_embeddings, s1, s1'. split; [exact Hrun|]. split; [exact Hemb|].
  split; [exact Hargs | reflexivity].
Defined.

(** Context training with re-initialisation switched on: the weight of the
    encoder (1) and the bias of the decoder (4). *)
Lemma main_model_loaded_for_context_training_witness :
  exists m s',
    make_base_model
      (opt "text" "rnn" "rnn" (Some "HAN_enc") false false false 0.5 true)
      (fields words words) false (Some single_context_checkpoint) "context"
      empty_store = Ok (m, s') /\
    data <$> cells s' !! 1%nat = Some (Stored 1) /\
    data <$> cells s' !! 4%nat = Some (Initial 4%nat).
Proof.
  eexists _, _.
  assert (Hrun : make_base_model
                   (opt "text" "rnn" "rnn" (Some "HAN_enc") false false false 0.5 true)
                   (fields words words) false (Some single_context_checkpoint)
                   "context" empty_store
                 = Ok ?[r]) by (vm_compute; reflexivity).
  assert (Hnd : NoDup (dict_keys (ck_model single_context_checkpoint))).
  { apply (bool_decide_unpack _). vm_compute. exact I. }
  pose proof (fun k l => main_model_loaded_for_context_training
                           _ _ _ _ "HAN_enc" _ _ _ k l
                           Hrun eq_refl eq_refl Hnd) as Hload.
  split; [exact Hrun|]. split.
  - apply (Hload "encoder.rnn.weight_ih_l0" 1%nat).
    + apply (bool_decide_unpack _). vm_compute. exact I.
    + intros k' l' Hin.
      match type of Hin with
      | _ ∈ ?L => let L' := eval vm_compute in L in change L with L' in Hin
      end.
      repeat (apply elem_of_cons in Hin as [Heq|Hin];
              [injection Heq as -> ->; split; intros Hx;
               first [reflexivity | discriminate Hx]|]).
      inversion Hin.
    + intros g [= <-]. apply (bool_decide_unpack _). vm_compute. exact I.
    + reflexivity.
  - apply (Hload "decoder.rnn.bias" 4%nat).
    + apply (bool_decide_unpack _). vm_compute. exact I.
    + intros k' l' Hin.
      match type of Hin with
      | _ ∈ ?L => let L' := eval vm_compute in L in change L with L' in Hin
      end.
      repeat (apply elem_of_cons in Hin as [Heq|Hin];
              [injection Heq as -> ->; split; intros Hx;
               first [reflexivity | discriminate Hx]|]).
      inversion Hin.
    + intros g [= <-]. apply (bool_decide_unpack _). vm_compute. exact I.
    + reflexivity.
Defined.

(** A text model, then an image model built in the store the first call
    left: the weight of the first encoder, parameter 1. *)
Lemma separate_calls_share_nothing_witness :
  exists m1 s1 m2 s2,
    make_base_model (opt "text" "rnn" "rnn" None false false false 0.5 true)
      (fields words words) false None "all" empty_store = Ok (m1, s1) /\
    make_base_model (opt "img" "rnn" "rnn" None false false false 0.5 true)
      (fields words words) false None "all" s1 = Ok (m2, s2) /\
    ((1%nat : loc) ∉ (NMTModel_named m2).*2) /\
    cells s2 !! 1%nat = cells s1 !! 1%nat.
Proof.
  eexists _, _, _, _.
  assert (Hrun1 : make_base_model
                    (opt "text" "rnn" "rnn" None false false false 0.5 true)
                    (fields words words) false None "all" empty_store
                  = Ok ?[r1]) by (vm_compute; reflexivity).
  match type of Hrun1 with
  | _ = Ok (_, ?s1) =>
      assert (Hrun2 : make_base_model
                        (opt "img" "rnn" "rnn" None false false false 0.5 true)
                        (fields words words) false None "all" s1
                      = Ok ?[r2]) by (vm_compute; reflexivity)
  end.
  split; [exact Hrun1|]. split; [exact Hrun2|].
  apply (separate_calls_share_nothing _ _ _ _ _ _ _ _ _ _ _ _ _ _ _ 1%nat
           Hrun1 Hrun2).
  apply (bool_decide_unpack _). vm_compute. exact I.
Defined.
